(** * Ecommerce_API: a shallow embedding of [src/server.js]

    The server keeps three process-wide tables ([users], [products],
    [orders]) and answers JSON requests.  Every route handler of
    [server.js] is embedded as a function from the store and the request
    to a response and the next store.

    - JavaScript numbers are binary64 floats ([PrimFloat.float]); the
      operators [===], [<], [+], [*], [-] and the coercions [ToBoolean],
      [ToPrimitive], [ToNumber], [ToString] are written out on the values
      [express.json()] delivers: the JSON scalars, arrays and objects (an
      absent field is [undefined]).  A coercion can throw TypeError; the
      handlers of the cart and of the orders do not catch it, and Express
      answers 500.  The tables of [./data] are the components of the store,
      with numbers for ids, prices and stock.
    - Cart lines are objects: a cart and an order's [items] are arrays of
      references into a heap of lines, so that [existingItem.quantity += n]
      and [items: [...user.cart]] keep the sharing they have in the source.
    - The handler of a registration waits for [bcrypt.hash]; requests
      that arrive meanwhile are handled before it goes on.  Its two parts
      are two steps of the server.
    - Functions of the JavaScript library and of the packages the server
      calls (toFixed, parseFloat, parseInt, bcrypt, jsonwebtoken, ...) are
      the fields of the class [Host]. *)

From Stdlib Require Import Floats Uint63 ZArith.
From stdpp Require Import base option list strings pretty.

Set Warnings "-inexact-float,-register-all".

(** ** JavaScript values *)

(** What a field of a request body can hold: a JSON scalar, an array or an
    object with its own properties, as [JSON.parse] makes them;
    [VUndefined] is an absent field. *)
Inductive value :=
  | VUndefined
  | VNull
  | VBool (b : bool)
  | VNum (x : float)
  | VStr (s : string)
  | VArr (elements : list value)
  | VObj (properties : list (string * value)).

(** Built-ins of the language library and of the packages required at the
    top of [server.js]. *)
Class Host := {
  (** [ToNumber] on a string (StringToNumber) *)
  StringToNumber : string → float;
  (** [ToString] on a number (Number::toString) *)
  NumberToString : float → string;
  (** [x.toFixed(2)] *)
  toFixed2 : float → string;
  parseFloat : string → float;
  parseInt : string → float;
  toLowerCase : string → string;
  (** [bcrypt.hash(password, 10)]; [None] when the promise is rejected *)
  bcrypt_hash : value → option string;
  (** [bcrypt.compare(password, hash)]; [None] when the promise is rejected *)
  bcrypt_compare : value → string → option bool;
  (** [jwt.sign({id, email}, process.env.JWT_SECRET, {expiresIn: '24h'})];
      [None] when it throws *)
  jwt_sign : float → value → option string
}.

(** [array.length] is a natural number; [of_nat] makes it a Number. *)
Definition of_nat (n : nat) : float :=
  PrimFloat.of_uint63 (Uint63.of_Z (Z.of_nat n)).

Definition ToBoolean (v : value) : bool :=
  match v with
  | VUndefined | VNull => false
  | VBool b => b
  | VNum x => negb (PrimFloat.eqb x 0 || PrimFloat.is_nan x)
  | VStr s => negb (String.eqb s "")
  | VArr _ | VObj _ => true
  end.

(** [a === b].  An array or an object is equal to itself alone, and no
    handler compares one with itself: of the two sides of each [===] in
    [server.js], one is a number or a field of the request at hand, and the
    other is a number or a value that an earlier request has stored.  So a
    comparison with an array or an object is false. *)
Definition strict_eq (a b : value) : bool :=
  match a, b with
  | VUndefined, VUndefined => true
  | VNull, VNull => true
  | VBool x, VBool y => Bool.eqb x y
  | VNum x, VNum y => PrimFloat.eqb x y
  | VStr x, VStr y => String.eqb x y
  | _, _ => false
  end.

(** A JSON scalar or [undefined]: neither an array nor an object. *)
Definition scalar (v : value) : bool :=
  match v with
  | VArr _ | VObj _ => false
  | _ => true
  end.

Section Coercions.
Context `{Host}.

(** An own property named [key]? *)
Definition has_own (key : string) (properties : list (string * value)) : bool :=
  existsb (λ property, String.eqb property.1 key) properties.

(** [ToString(v)]; [None] when it throws TypeError.  An array is joined
    with commas ([Array.prototype.toString] calls [join], which takes
    [null] and [undefined] elements as empty).  An object of a JSON body
    answers [Object.prototype.toString], unless an own property [toString]
    hides it: such a property is not callable, and [valueOf] (its own, not
    callable, or [Object.prototype.valueOf], which returns the object)
    gives no primitive either. *)
Fixpoint ToString (v : value) : option string :=
  match v with
  | VUndefined => Some "undefined"
  | VNull => Some "null"
  | VBool b => Some (if b then "true" else "false")
  | VNum x => Some (NumberToString x)
  | VStr s => Some s
  | VArr elements =>
    let fix strings (l : list value) : option (list string) :=
      match l with
      | [] => Some []
      | x :: l' =>
        match
          match x with
          | VUndefined | VNull => Some ""
          | _ => ToString x
          end
        with
        | Some s => cons s <$> strings l'
        | None => None
        end
      end in
    String.concat "," <$> strings elements
  | VObj properties =>
    if has_own "toString" properties then None else Some "[object Object]"
  end.

(** [ToPrimitive(v)]: for an array or an object the string above, whatever
    the hint (neither has a [valueOf] that returns a primitive) *)
Definition ToPrimitive (v : value) : option value :=
  match v with
  | VArr _ | VObj _ => VStr <$> ToString v
  | _ => Some v
  end.

(** [ToNumber(v)]; [None] when it throws TypeError *)
Definition ToNumber (v : value) : option float :=
  match v with
  | VUndefined => Some PrimFloat.nan
  | VNull => Some 0%float
  | VBool b => Some (if b then 1 else 0)%float
  | VNum x => Some x
  | VStr s => Some (StringToNumber s)
  | VArr _ | VObj _ => StringToNumber <$> ToString v
  end.

(** [a + b]: concatenation as soon as one of the two primitives is a
    string; [None] when a conversion throws TypeError *)
Definition js_add (a b : value) : option value :=
  a ← ToPrimitive a;
  b ← ToPrimitive b;
  match a, b with
  | VStr _, _ | _, VStr _ =>
    x ← ToString a; y ← ToString b; Some (VStr (x ++ y))
  | _, _ =>
    x ← ToNumber a; y ← ToNumber b; Some (VNum (PrimFloat.add x y))
  end.
End Coercions.

(** [array.find(f)]: the first element that satisfies [f], with its index
    (the index stands for the identity of the object found). *)
Fixpoint js_find {A} (f : A → bool) (l : list A) : option (nat * A) :=
  match l with
  | [] => None
  | x :: l' => if f x then Some (0, x) else prod_map S id <$> js_find f l'
  end.

(** [haystack.includes(needle)] *)
Fixpoint includes (haystack needle : string) : bool :=
  if String.prefix needle haystack then true
  else match haystack with
       | EmptyString => false
       | String _ rest => includes rest needle
       end.

(** ** Data model *)

Definition Date := Z.
(** References to cart lines. *)
Abbreviation loc := nat (only parsing).

Module CartItem.
Record t := mk {
  productId : value;
  name : string;
  price : float;
  quantity : value
}.
Definition set_quantity (q : value) (it : t) : t :=
  mk (productId it) (name it) (price it) q.
End CartItem.

Module Product.
Record t := mk {
  id : float;
  name : string;
  category : string;
  description : string;
  price : float;
  stock : float
}.
Definition set_stock (n : float) (p : t) : t :=
  mk (id p) (name p) (category p) (description p) (price p) n.
End Product.

Module User.
Record t := mk {
  id : float;
  username : value;
  email : value;
  password : string;
  cart : list loc;
  createdAt : Date
}.
Definition set_cart (c : list loc) (u : t) : t :=
  mk (id u) (username u) (email u) (password u) c (createdAt u).
End User.

Module Order.
Record t := mk {
  id : float;
  userId : float;
  username : value;
  items : list loc;
  total : float;
  status : string;
  createdAt : Date
}.
End Order.

(** The three tables and the heap of cart lines. *)
Record Store := mkStore {
  users : list User.t;
  products : list Product.t;
  orders : list Order.t;
  heap : list CartItem.t
}.

Global Instance CartItem_inhabited : Inhabited CartItem.t :=
  populate (CartItem.mk VUndefined "" 0 VUndefined).

(** The lines an array of references holds. *)
Definition deref (h : list CartItem.t) (ls : list loc) : list CartItem.t :=
  (λ l, h !!! l) <$> ls.

(** ** Responses *)

(** An order as [res.json] serialises it. *)
Record OrderJson := mkOrderJson {
  oj_id : float;
  oj_userId : float;
  oj_username : value;
  oj_items : list CartItem.t;
  oj_total : float;
  oj_status : string;
  oj_createdAt : Date
}.

Definition order_json (h : list CartItem.t) (o : Order.t) : OrderJson :=
  mkOrderJson (Order.id o) (Order.userId o) (Order.username o)
    (deref h (Order.items o)) (Order.total o) (Order.status o)
    (Order.createdAt o).

Inductive Payload :=
  | NoData
  | UserInfo (id : float) (username email : value)
  | LoginInfo (token : string) (id : float) (username email : value)
  | ProductList (count : nat) (data : list Product.t)
  | ProductData (data : Product.t)
  | CartView (itemCount : nat) (total : string) (items : list CartItem.t)
  | CartItems (cart : list CartItem.t)
  | OrderData (order : OrderJson)
  | OrderList (count : nat) (data : list OrderJson).

Inductive Body :=
  | Welcome
  | Json (success : bool) (message : option string) (data : Payload)
  (** an exception left a synchronous handler: Express's own error page *)
  | Uncaught
  (** the handler waits at an [await]: nothing is sent yet *)
  | NotYet.

Record Response := mkResponse { status : nat; body : Body }.

Definition fail (code : nat) (msg : string) : Response :=
  mkResponse code (Json false (Some msg) NoData).
Definition reply (code : nat) (msg : option string) (d : Payload) : Response :=
  mkResponse code (Json true msg d).
Definition crash : Response := mkResponse 500 Uncaught.
Definition waiting : Response := mkResponse 0 NotYet.

(** ** Route handlers *)

Section Handlers.
Context `{Host}.

(** [users.find(u => u.id === req.user.id)] *)
Definition find_user (s : Store) (uid : float) : option (nat * User.t) :=
  js_find (λ u, PrimFloat.eqb (User.id u) uid) (users s).

(** [cart.find(item => item.productId === productId)], on references *)
Definition find_item (h : list CartItem.t) (productId : value)
    (c : list loc) : option (nat * loc) :=
  js_find (λ l, strict_eq (CartItem.productId (h !!! l)) productId) c.

(** [cart.filter(item => item.productId !== productId)] *)
Definition drop_item (h : list CartItem.t) (productId : value)
    (c : list loc) : list loc :=
  List.filter (λ l, negb (strict_eq (CartItem.productId (h !!! l)) productId)) c.

Definition set_users (us : list User.t) (s : Store) : Store :=
  mkStore us (products s) (orders s) (heap s).
Definition set_heap (h : list CartItem.t) (s : Store) : Store :=
  mkStore (users s) (products s) (orders s) h.

(** [user.cart = c] for the user object at index [i] *)
Definition set_cart_of (i : nat) (c : list loc) (s : Store) : Store :=
  set_users (alter (User.set_cart c) i (users s)) s.

(** POST /api/auth/register, up to [await bcrypt.hash(password, 10)]: the
    response when the handler returns before it, [None] when it has come
    to wait for the hash *)
Definition register_check (s : Store) (username email password : value)
    : option Response :=
  if negb (ToBoolean username) || negb (ToBoolean email)
     || negb (ToBoolean password) then
    Some (fail 400 "Please provide username, email, and password")
  else
    match js_find (λ u, strict_eq (User.email u) email) (users s) with
    | Some _ => Some (fail 400 "Email already registered")
    | None => None
    end.

(** POST /api/auth/register, from the [await] on.  [s] is the store when
    the handler goes on, [now] the time then. *)
Definition register_resume (s : Store) (username email password : value)
    (now : Date) : Response * Store :=
  match bcrypt_hash password with
  | None => (fail 500 "Server error", s)
  | Some hashedPassword =>
    let newUser :=
      User.mk (PrimFloat.add (of_nat (length (users s))) 1)
        username email hashedPassword [] now in
    (reply 201 (Some "Registration successful! You can now login")
       (UserInfo (User.id newUser) (User.username newUser)
          (User.email newUser)),
     set_users (users s ++ [newUser]) s)
  end.

(** POST /api/auth/register when no other request is handled while it
    waits for the hash *)
Definition register (s : Store) (username email password : value)
    (now : Date) : Response * Store :=
  match register_check s username email password with
  | Some response => (response, s)
  | None => register_resume s username email password now
  end.

(** POST /api/auth/login.  The handler waits for [bcrypt.compare]; of the
    user it has found it reads [id], [username] and [email] afterwards,
    which no request writes, so that requests handled meanwhile make no
    difference. *)
Definition login (s : Store) (email password : value) : Response * Store :=
  if negb (ToBoolean email) || negb (ToBoolean password) then
    (fail 400 "Please provide email and password", s)
  else
    match js_find (λ u, strict_eq (User.email u) email) (users s) with
    | None => (fail 400 "Invalid email or password", s)
    | Some (_, user) =>
      match bcrypt_compare password (User.password user) with
      | None => (fail 500 "Server error", s)
      | Some false => (fail 400 "Invalid email or password", s)
      | Some true =>
        match jwt_sign (User.id user) (User.email user) with
        | None => (fail 500 "Server error", s)
        | Some token =>
          (reply 200 (Some "Login successful!")
             (LoginInfo token (User.id user) (User.username user)
                (User.email user)), s)
        end
      end
    end.

(** GET /api/products *)
Definition listProducts (s : Store) : Response * Store :=
  (reply 200 None (ProductList (length (products s)) (products s)), s).

(** GET /api/products/:id *)
Definition getProduct (s : Store) (id : string) : Response * Store :=
  match js_find (λ p, PrimFloat.eqb (Product.id p) (parseInt id))
          (products s) with
  | None => (fail 404 "Product not found", s)
  | Some (_, product) => (reply 200 None (ProductData product), s)
  end.

(** GET /api/products/search/:query *)
Definition searchProducts (s : Store) (query : string) : Response * Store :=
  let query := toLowerCase query in
  let results :=
    List.filter (λ p,
      includes (toLowerCase (Product.name p)) query
      || includes (toLowerCase (Product.category p)) query
      || includes (toLowerCase (Product.description p)) query)
      (products s) in
  (reply 200 None (ProductList (length results) results), s).

(** [cart.reduce((sum, item) => sum + (item.price * item.quantity), 0)],
    as [getCart] and [createOrder] have it, with [add_line] for the
    function it folds; [None] when the conversion of a quantity throws
    TypeError *)
Definition add_line (sum : option float) (item : CartItem.t) : option float :=
  sum ← sum;
  quantity ← ToNumber (CartItem.quantity item);
  Some (PrimFloat.add sum (PrimFloat.mul (CartItem.price item) quantity)).

Definition cart_total (h : list CartItem.t) (c : list loc) : option float :=
  fold_left (λ sum l, add_line sum (h !!! l)) c (Some 0%float).

(** GET /api/cart *)
Definition getCart (s : Store) (uid : float) : Response * Store :=
  match find_user s uid with
  | None => (crash, s)
  | Some (_, user) =>
    match cart_total (heap s) (User.cart user) with
    | None => (crash, s)
    | Some cartTotal =>
      (reply 200 None
         (CartView (length (User.cart user)) (toFixed2 cartTotal)
            (deref (heap s) (User.cart user))), s)
    end
  end.

(** POST /api/cart *)
Definition addToCart (s : Store) (uid : float) (productId quantity : value)
    : Response * Store :=
  if negb (ToBoolean productId) || negb (ToBoolean quantity) then
    (fail 400 "Please provide productId and quantity", s)
  else
    let user := find_user s uid in
    match js_find (λ p, strict_eq (VNum (Product.id p)) productId)
            (products s) with
    | None => (fail 404 "Product not found", s)
    | Some (_, product) =>
      (* [product.stock < quantity] *)
      match ToNumber quantity with
      | None => (crash, s)
      | Some n =>
        if PrimFloat.ltb (Product.stock product) n then
          (fail 400
             ("Only " ++ NumberToString (Product.stock product)
                ++ " items in stock"), s)
        else
          match user with
          | None => (crash, s)
          | Some (i, user) =>
            match find_item (heap s) productId (User.cart user) with
            | Some (_, l) =>
              let existingItem := heap s !!! l in
              (* [existingItem.quantity += quantity] *)
              match js_add (CartItem.quantity existingItem) quantity with
              | None => (crash, s)
              | Some sum =>
                let h :=
                  <[l := CartItem.set_quantity sum existingItem]> (heap s) in
                (reply 200
                   (Some (Product.name product ++ " added to cart")%string)
                   (CartItems (deref h (User.cart user))), set_heap h s)
              end
            | None =>
              let l := length (heap s) in
              let h :=
                heap s ++ [CartItem.mk productId (Product.name product)
                             (Product.price product) quantity] in
              let c := User.cart user ++ [l] in
              (reply 200
                 (Some (Product.name product ++ " added to cart")%string)
                 (CartItems (deref h c)), set_cart_of i c (set_heap h s))
            end
          end
      end
    end.

(** PUT /api/cart/:productId *)
Definition updateCartItem (s : Store) (uid : float) (param : string)
    (quantity : value) : Response * Store :=
  let productId := VNum (parseInt param) in
  match find_user s uid with
  | None => (crash, s)
  | Some (i, user) =>
    match find_item (heap s) productId (User.cart user) with
    | None => (fail 404 "Item not in cart", s)
    | Some (_, l) =>
      if strict_eq quantity (VNum 0) then
        let c := drop_item (heap s) productId (User.cart user) in
        (reply 200 (Some "Item removed from cart")
           (CartItems (deref (heap s) c)), set_cart_of i c s)
      else
        let h := <[l := CartItem.set_quantity quantity (heap s !!! l)]>
                   (heap s) in
        (reply 200 (Some "Cart updated")
           (CartItems (deref h (User.cart user))), set_heap h s)
    end
  end.

(** DELETE /api/cart/:productId *)
Definition removeCartItem (s : Store) (uid : float) (param : string)
    : Response * Store :=
  let productId := VNum (parseInt param) in
  match find_user s uid with
  | None => (crash, s)
  | Some (i, user) =>
    match find_item (heap s) productId (User.cart user) with
    | None => (fail 404 "Item not in cart", s)
    | Some _ =>
      let c := drop_item (heap s) productId (User.cart user) in
      (reply 200 (Some "Item removed from cart")
         (CartItems (deref (heap s) c)), set_cart_of i c s)
    end
  end.

(** DELETE /api/cart *)
Definition clearCart (s : Store) (uid : float) : Response * Store :=
  match find_user s uid with
  | None => (crash, s)
  | Some (i, _) =>
    (reply 200 (Some "Cart cleared") NoData, set_cart_of i [] s)
  end.

(** [product.stock -= cartItem.quantity] on the first product whose id
    is [cartItem.productId], if there is one; [None] when the conversion of
    the quantity throws TypeError *)
Definition take_stock (ps : list Product.t) (cartItem : CartItem.t)
    : option (list Product.t) :=
  match js_find (λ p, strict_eq (VNum (Product.id p))
                        (CartItem.productId cartItem)) ps with
  | Some (j, _) =>
    quantity ← ToNumber (CartItem.quantity cartItem);
    Some (alter (λ product,
            Product.set_stock (PrimFloat.sub (Product.stock product) quantity)
              product) j ps)
  | None => Some ps
  end.

(** [cart.forEach(cartItem => ...)] of [createOrder]: the products when the
    loop ends, and whether it ends without an exception *)
Fixpoint take_stocks (ps : list Product.t) (cart : list CartItem.t)
    : list Product.t * bool :=
  match cart with
  | [] => (ps, true)
  | cartItem :: rest =>
    match take_stock ps cartItem with
    | Some ps' => take_stocks ps' rest
    | None => (ps, false)
    end
  end.

(** POST /api/orders *)
Definition createOrder (s : Store) (uid : float) (now : Date)
    : Response * Store :=
  match find_user s uid with
  | None => (crash, s)
  | Some (i, user) =>
    if Nat.eqb (length (User.cart user)) 0 then
      (fail 400 "Your cart is empty", s)
    else
      match cart_total (heap s) (User.cart user) with
      | None => (crash, s)
      | Some total =>
        let newOrder :=
          Order.mk (PrimFloat.add (of_nat (length (orders s))) 1)
            (User.id user) (User.username user) (User.cart user)
            (parseFloat (toFixed2 total)) "pending" now in
        let orders' := orders s ++ [newOrder] in
        match take_stocks (products s) (deref (heap s) (User.cart user)) with
        | (products', true) =>
          (reply 201 (Some "Order placed successfully! 🎉")
             (OrderData (order_json (heap s) newOrder)),
           mkStore (alter (User.set_cart []) i (users s)) products' orders'
             (heap s))
        | (products', false) =>
          (* thrown inside [forEach]: what is written stays, the cart too *)
          (crash, mkStore (users s) products' orders' (heap s))
        end
      end
  end.

(** GET /api/orders *)
Definition listOrders (s : Store) (uid : float) : Response * Store :=
  let userOrders :=
    List.filter (λ o, PrimFloat.eqb (Order.userId o) uid) (orders s) in
  (reply 200 None
     (OrderList (length userOrders) (order_json (heap s) <$> userOrders)),
   s).

(** GET /api/orders/:id *)
Definition getOrder (s : Store) (uid : float) (id : string)
    : Response * Store :=
  match js_find (λ o, PrimFloat.eqb (Order.id o) (parseInt id)
                      && PrimFloat.eqb (Order.userId o) uid)
          (orders s) with
  | None => (fail 404 "Order not found", s)
  | Some (_, order) => (reply 200 None (OrderData (order_json (heap s) order)), s)
  end.
End Handlers.

(** ** The server as a transition system *)

Inductive Request :=
  | GetRoot
  (** a registration during whose wait no other request is handled *)
  | PostRegister (username email password : value) (now : Date)
  (** a registration that other requests overlap: the handler up to its
      [await], and the handler as it goes on afterwards *)
  | PostRegisterAwait (username email password : value)
  | PostRegisterResume (username email password : value) (now : Date)
  | PostLogin (email password : value)
  | GetProducts
  | GetProductById (id : string)
  | GetProductsSearch (query : string)
  | GetCart (token : option float)
  | PostCart (token : option float) (productId quantity : value)
  | PutCart (token : option float) (productId : string) (quantity : value)
  | DeleteCartItem (token : option float) (productId : string)
  | DeleteCart (token : option float)
  | PostOrders (token : option float) (now : Date)
  | GetOrders (token : option float)
  | GetOrderById (token : option float) (id : string).

(** Modelled from the spec: the middleware [authenticateToken] of
    [./middleware/auth], which is not among the sources.  It "extracts
    bearer token, fails with AuthError (401) if absent/invalid/expired, else
    attaches decoded identity to the request context".  [token] is the
    decoded [id] of a token that verifies, [None] otherwise. *)
Definition authenticateToken (token : option float)
    (next : float → Response * Store) (s : Store) : Response * Store :=
  match token with
  | None => (mkResponse 401 (Json false None NoData), s)
  | Some uid => next uid
  end.

Section Server.
Context `{Host}.

Definition handle (s : Store) (req : Request) : Response * Store :=
  match req with
  | GetRoot => (mkResponse 200 Welcome, s)
  | PostRegister username email password now =>
    register s username email password now
  | PostRegisterAwait username email password =>
    (default waiting (register_check s username email password), s)
  | PostRegisterResume username email password now =>
    register_resume s username email password now
  | PostLogin email password => login s email password
  | GetProducts => listProducts s
  | GetProductById id => getProduct s id
  | GetProductsSearch query => searchProducts s query
  | GetCart token => authenticateToken token (getCart s) s
  | PostCart token productId quantity =>
    authenticateToken token (λ uid, addToCart s uid productId quantity) s
  | PutCart token productId quantity =>
    authenticateToken token (λ uid, updateCartItem s uid productId quantity) s
  | DeleteCartItem token productId =>
    authenticateToken token (λ uid, removeCartItem s uid productId) s
  | DeleteCart token => authenticateToken token (clearCart s) s
  | PostOrders token now =>
    authenticateToken token (λ uid, createOrder s uid now) s
  | GetOrders token => authenticateToken token (listOrders s) s
  | GetOrderById token id =>
    authenticateToken token (λ uid, getOrder s uid id) s
  end.

(** The store after a sequence of requests. *)
Definition run (s : Store) (reqs : list Request) : Store :=
  fold_left (λ s req, (handle s req).2) reqs s.

(** The later part of a registration that other requests overlapped? *)
Definition resumes (req : Request) : bool :=
  match req with
  | PostRegisterResume _ _ _ _ => true
  | _ => false
  end.

(** The cart requests of one user. *)
Inductive CartOp :=
  | Add (productId quantity : value)
  | Update (productId : string) (quantity : value)
  | Remove (productId : string)
  | Clear.

Definition cart_request (uid : float) (op : CartOp) : Request :=
  match op with
  | Add productId quantity => PostCart (Some uid) productId quantity
  | Update productId quantity => PutCart (Some uid) productId quantity
  | Remove productId => DeleteCartItem (Some uid) productId
  | Clear => DeleteCart (Some uid)
  end.

(** The lines [items] have the numbers [ns] as quantities, after
    conversion. *)
Definition quantities (items : list CartItem.t) (ns : list float) : Prop :=
  Forall2 (λ item n, ToNumber (CartItem.quantity item) = Some n) items ns.

(** A response that reports a failure: [success: false], or no JSON at
    all. *)
Definition failed (r : Response) : bool :=
  match body r with
  | Json success _ _ => negb success
  | Uncaught => true
  | Welcome | NotYet => false
  end.
End Server.

(** "sum(price×quantity) over current items": the prices of the lines and
    the numbers their quantities are, summed from the left *)
Definition sum_price_quantity (items : list CartItem.t) (ns : list float)
    : float :=
  fold_left (λ acc line, PrimFloat.add acc (PrimFloat.mul line.1 line.2))
    (zip (CartItem.price <$> items) ns) 0%float.

(** The first product of [ps] whose id is [productId]. *)
Definition product_of (ps : list Product.t) (productId : value)
    : option (nat * Product.t) :=
  js_find (λ p, strict_eq (VNum (Product.id p)) productId) ps.

(** Of the lines [items] with the quantities [ns], the quantities of those
    that name the product at index [j] of the table [ps]. *)
Definition charged (ps : list Product.t) (j : nat) (items : list CartItem.t)
    (ns : list float) : list float :=
  snd <$>
    List.filter (λ line : CartItem.t * float,
      match product_of ps (CartItem.productId line.1) with
      | Some (k, _) => Nat.eqb k j
      | None => false
      end) (zip items ns).

(** [stock - n1 - ... - nk] *)
Definition decrement (stock : float) (ns : list float) : float :=
  fold_left PrimFloat.sub ns stock.

(** ** Sharing of cart lines *)

(** The carts of a table, one after the other. *)
Definition carts (us : list User.t) : list loc := us ≫= User.cart.

(** Every reference held by a cart or by an order. *)
Definition refs (s : Store) : list loc :=
  carts (users s) ++ (orders s ≫= Order.items).

(** No line is reachable twice, and every reference is allocated.  This
    holds of a store with empty carts and no orders and is kept by every
    request. *)
Record wf (s : Store) : Prop := mk_wf {
  wf_nodup : NoDup (refs s);
  wf_alloc : Forall (λ l, l < length (heap s)) (refs s)
}.

(** The emails of two users are never [===].  (Two emails that are arrays
    or objects are not [===], whatever they hold.) *)
Definition emails_unique (us : list User.t) : Prop :=
  ∀ i j ui uj, us !! i = Some ui → us !! j = Some uj → i ≠ j →
    strict_eq (User.email ui) (User.email uj) = false.

(** What a request by the user at index [i] may change: the cart of that
    user. *)
Record cart_only (i : nat) (s s' : Store) : Prop := mk_cart_only {
  co_products : products s' = products s;
  co_orders : orders s' = orders s;
  co_order_items : ∀ o, o ∈ orders s →
    deref (heap s') (Order.items o) = deref (heap s) (Order.items o);
  co_length : length (users s') = length (users s);
  co_others : ∀ j u, j ≠ i → users s !! j = Some u →
    users s' !! j = Some u ∧
    deref (heap s') (User.cart u) = deref (heap s) (User.cart u);
  co_self : ∀ u, users s !! i = Some u →
    ∃ c, users s' !! i = Some (User.set_cart c u)
}.

(** ** A host and a store to run the handlers on *)

Module Sample.

Definition two_digits (n : Z) : string :=
  ((if (n <? 10)%Z then "0" else "") ++ pretty n)%string.

(** The integer nearest to [100 * m * 2^e], the larger one on a tie. *)
Definition cents (m : positive) (e : Z) : Z :=
  if (0 <=? e)%Z then (100 * Z.pos m * 2 ^ e)%Z
  else ((2 * 100 * Z.pos m + 2 ^ (- e)) / 2 ^ (1 - e))%Z.

(** [x.toFixed(2)] for [|x| < 1e21], where the result has no exponent. *)
Definition fixed2 (x : float) : string :=
  match Prim2SF x with
  | S754_nan => "NaN"
  | S754_infinity sign => if sign then "-Infinity" else "Infinity"
  | S754_zero _ => "0.00"
  | S754_finite sign m e =>
    let n := cents m e in
    ((if sign then "-" else "") ++ pretty (n / 100)%Z ++ "."
       ++ two_digits (n mod 100)%Z)%string
  end.

Fixpoint digits_value (acc : Z) (s : string) : option Z :=
  match s with
  | EmptyString => Some acc
  | String c rest =>
    let d := Z.of_N (Ascii.N_of_ascii c) in
    if ((48 <=? d) && (d <=? 57))%Z
    then digits_value (10 * acc + (d - 48))%Z rest
    else None
  end.

Definition number_of_digits (s : string) : float :=
  match s with
  | EmptyString => PrimFloat.nan
  | _ =>
    match digits_value 0 s with
    | Some n => PrimFloat.of_uint63 (Uint63.of_Z n)
    | None => PrimFloat.nan
    end
  end.

(** [parseFloat] on the strings [toFixed(2)] returns for amounts below 2^46
    (an integer, a point, two decimals). *)
Definition read_fixed2 (s : string) : float :=
  let '(sign, s) :=
    match s with
    | String (Ascii.Ascii true false true true false true false false) rest => (true, rest)
    | _ => (false, s)
    end in
  let n := String.length s in
  let x :=
    PrimFloat.div
      (number_of_digits
         (String.substring 0 (n - 3) s ++ String.substring (n - 2) 2 s))
      100 in
  if sign then PrimFloat.opp x else x.

Definition lower (c : Ascii.ascii) : Ascii.ascii :=
  let n := Ascii.nat_of_ascii c in
  if (65 <=? n) && (n <=? 90) then Ascii.ascii_of_nat (n + 32) else c.

Fixpoint ascii_lower (s : string) : string :=
  match s with
  | EmptyString => EmptyString
  | String c rest => String (lower c) (ascii_lower rest)
  end.

(** Integral numbers below 2^53 print as their decimal digits.  (Of a
    number with a fraction this gives the integer part only; the examples
    print stocks and quantities that are integers.) *)
Definition integer_digits (x : float) : string :=
  match Prim2SF x with
  | S754_zero _ => "0"
  | S754_finite sign m e =>
    let n := if (0 <=? e)%Z then (Z.pos m * 2 ^ e)%Z
             else (Z.pos m / 2 ^ (- e))%Z in
    ((if sign then "-" else "") ++ pretty n)%string
  | S754_infinity sign => if sign then "-Infinity" else "Infinity"
  | S754_nan => "NaN"
  end.

(** bcryptjs rejects an argument that is not a string; the hash itself
    is a stand-in. *)
Definition fake_hash (password : value) : option string :=
  match password with
  | VStr p => Some ("$2a$10$" ++ p)%string
  | _ => None
  end.

Definition fake_compare (password : value) (hash : string) : option bool :=
  match password with
  | VStr p => Some (String.eqb ("$2a$10$" ++ p) hash)
  | _ => None
  end.

(** Decimal digit strings, plain ASCII letters and non-empty passwords are
    what the examples use; on them the fields behave as the library. *)
Definition host : Host := {|
  StringToNumber := λ s, if String.eqb s "" then 0%float else number_of_digits s;
  NumberToString := integer_digits;
  toFixed2 := fixed2;
  parseFloat := read_fixed2;
  parseInt := number_of_digits;
  toLowerCase := ascii_lower;
  bcrypt_hash := fake_hash;
  bcrypt_compare := fake_compare;
  jwt_sign := λ _ _, Some "header.payload.signature"
|}.

Definition laptop : Product.t :=
  Product.mk 1 "Laptop" "Electronics" "A fast laptop" 999.99 5.
Definition mouse : Product.t :=
  Product.mk 2 "Mouse" "Electronics" "Wireless mouse" 29.5 50.

Definition al : User.t :=
  User.mk 1 (VStr "al") (VStr "a@x.com") "$2a$10$pw123456" [] 0%Z.
Definition bo : User.t :=
  User.mk 2 (VStr "bo") (VStr "b@x.com") "$2a$10$hunter22" [] 0%Z.

(** Two registered users, two products, no cart line, no order. *)
Definition store : Store := mkStore [al; bo] [laptop; mouse] [] [].

(** [al] has put two laptops in the cart. *)
Definition with_cart : Store :=
  (addToCart (H := host) store 1 (VNum 1) (VNum 2)).2.

(** [al] has checked out. *)
Definition with_order : Store :=
  (createOrder (H := host) with_cart 1 7%Z).2.

(** An object that no conversion turns into a primitive:
    [{"valueOf": 1, "toString": 1}]. *)
Definition no_primitive : value :=
  VObj [("valueOf", VNum 1); ("toString", VNum 1)]%string.

End Sample.

(** ** What a request can do to the store *)

(** The effects of the cart handlers on the store, for the user object [u]
    at index [i] of the table. *)
Inductive cart_effect (s : Store) (i : nat) (u : User.t) : Store → Prop :=
  | ce_none : cart_effect s i u s
  (** [item.quantity = q] on a line of the cart *)
  | ce_mutate l q :
    l ∈ User.cart u →
    cart_effect s i u
      (set_heap (<[l := CartItem.set_quantity q (heap s !!! l)]> (heap s)) s)
  (** [user.cart.push(item)] *)
  | ce_push item :
    cart_effect s i u
      (set_cart_of i (User.cart u ++ [length (heap s)])
         (set_heap (heap s ++ [item]) s))
  (** [user.cart = c] with lines of the cart, in their order *)
  | ce_shrink c :
    sublist c (User.cart u) → cart_effect s i u (set_cart_of i c s).

(** The effects of all handlers. *)
Inductive effect (s : Store) : Store → Prop :=
  | eff_none : effect s s
  | eff_cart i u s' :
    users s !! i = Some u → cart_effect s i u s' → effect s s'
  (** [users.push(newUser)] *)
  | eff_register u :
    User.cart u = [] →
    effect s (set_users (users s ++ [u]) s)
  (** [orders.push(newOrder)], the stock updates and [user.cart = []] *)
  | eff_checkout i u o ps :
    users s !! i = Some u →
    Order.items o = User.cart u →
    effect s
      (mkStore (alter (User.set_cart []) i (users s)) ps (orders s ++ [o])
         (heap s)).

(** The user objects stay in their places; only carts are assigned. *)
Definition keeps_users (s s' : Store) : Prop :=
  ∀ i u, users s !! i = Some u → ∃ c, users s' !! i = Some (User.set_cart c u).

(** ** Further invariants *)

(** The fields of a product other than its stock. *)
Definition listing (p : Product.t) : float * string * string * string * float :=
  (Product.id p, Product.name p, Product.category p, Product.description p,
   Product.price p).

(** [needle] occurs in [haystack]. *)
Definition occurs (needle haystack : string) : Prop :=
  ∃ before after, haystack = (before ++ needle ++ after)%string.

(** Every line carries the name and the price of the product it names. *)
Definition lines_follow_catalog (s : Store) : Prop :=
  ∀ item, item ∈ heap s →
    ∃ j p, product_of (products s) (CartItem.productId item) = Some (j, p) ∧
           CartItem.name item = Product.name p ∧
           CartItem.price item = Product.price p.

(** Two lines that name different products. *)
Definition other_product (a b : CartItem.t) : Prop :=
  strict_eq (CartItem.productId a) (CartItem.productId b) = false.

(** No two lines of a cart name the same product. *)
Definition one_line_per_product (s : Store) : Prop :=
  ∀ u, u ∈ users s →
    ForallOrdPairs other_product (deref (heap s) (User.cart u)).

(** Users and orders are numbered by their place in the table. *)
Definition sequential_ids (s : Store) : Prop :=
  (∀ i u, users s !! i = Some u →
     User.id u = PrimFloat.add (of_nat i) 1) ∧
  (∀ k o, orders s !! k = Some o →
     Order.id o = PrimFloat.add (of_nat k) 1).

(** ** The writes of the handlers, one by one *)

Section Changes.
Context `{Host}.

(** What a request does to the store: nothing, or the write of one
    handler, with what the handler has checked before it. *)
Inductive change (s : Store) : Store → Prop :=
  | ch_none : change s s
  (** [existingItem.quantity += quantity] and [cartItem.quantity = quantity] *)
  | ch_quantity i u k l q :
    users s !! i = Some u → User.cart u !! k = Some l →
    change s
      (set_heap (<[l := CartItem.set_quantity q (heap s !!! l)]> (heap s)) s)
  (** [user.cart.push({productId, name, price, quantity})] *)
  | ch_push i u productId j product q :
    users s !! i = Some u →
    product_of (products s) productId = Some (j, product) →
    find_item (heap s) productId (User.cart u) = None →
    change s
      (set_cart_of i (User.cart u ++ [length (heap s)])
         (set_heap
            (heap s ++ [CartItem.mk productId (Product.name product)
                          (Product.price product) q]) s))
  (** [user.cart = user.cart.filter(...)] *)
  | ch_filter i u productId :
    users s !! i = Some u →
    change s (set_cart_of i (drop_item (heap s) productId (User.cart u)) s)
  (** [user.cart = []] of [clearCart] *)
  | ch_clear i u :
    users s !! i = Some u → change s (set_cart_of i [] s)
  (** [users.push(newUser)] *)
  | ch_register u :
    User.cart u = [] →
    User.id u = PrimFloat.add (of_nat (length (users s))) 1 →
    change s (set_users (users s ++ [u]) s)
  (** the writes of [createOrder] *)
  | ch_checkout i u o :
    users s !! i = Some u → User.cart u ≠ [] →
    Order.items o = User.cart u →
    Order.id o = PrimFloat.add (of_nat (length (orders s))) 1 →
    Order.userId o = User.id u →
    (take_stocks (products s) (deref (heap s) (User.cart u))).2 = true →
    change s
      (mkStore (alter (User.set_cart []) i (users s))
         (take_stocks (products s) (deref (heap s) (User.cart u))).1
         (orders s ++ [o]) (heap s)).
End Changes.

(** * Properties *)

(** ** [find], [===] and references *)

Section Find.
Context {A : Type} (f : A → bool).

Lemma js_find_first l i x :
  js_find f l = Some (i, x) →
  l !! i = Some x ∧ f x = true ∧ ∀ j y, l !! j = Some y → j < i → f y = false.
Proof.
  revert i. induction l as [|a l IH]; intros i; simpl; [done|].
  destruct (f a) eqn:Hfa.
  - intros [= <- <-]. split_and!; [done..|]. intros; lia.
  - destruct (js_find f l) as [[k y]|]; simpl; [|done].
    intros [= <- <-]. destruct (IH k eq_refl) as (Hl & Hy & Hmin).
    split_and!; [done..|]. intros [|j] z Hz Hlt; simpl in Hz.
    + by injection Hz as <-.
    + apply (Hmin j); [done | lia].
Qed.

Lemma js_find_intro l i x :
  l !! i = Some x → f x = true →
  (∀ j y, l !! j = Some y → j < i → f y = false) →
  js_find f l = Some (i, x).
Proof.
  revert i. induction l as [|a l IH]; intros i Hl Hx Hmin; simpl; [done|].
  destruct i as [|i]; simpl in Hl.
  - injection Hl as ->. by rewrite Hx.
  - rewrite (Hmin 0 a eq_refl) by lia. rewrite (IH i); [done..|].
    intros j y Hy Hlt. apply (Hmin (S j)); [done | lia].
Qed.

Lemma js_find_Some l i x :
  js_find f l = Some (i, x) ↔
  l !! i = Some x ∧ f x = true ∧ ∀ j y, l !! j = Some y → j < i → f y = false.
Proof.
  split; [apply js_find_first|]. intros (? & ? & ?). by apply js_find_intro.
Qed.

Lemma js_find_None l :
  js_find f l = None ↔ ∀ x, x ∈ l → f x = false.
Proof.
  induction l as [|a l IH]; simpl.
  - split; [|done]. intros _ x Hx. by apply elem_of_nil in Hx.
  - destruct (f a) eqn:Hfa.
    + split; [done|]. intros Hall. rewrite Hall in Hfa; [done | left].
    + rewrite fmap_None, IH. split.
      * intros Hall x [->|Hx]%elem_of_cons; [done | by apply Hall].
      * intros Hall x Hx. apply Hall. by right.
Qed.

Lemma js_find_lookup l i x : js_find f l = Some (i, x) → l !! i = Some x.
Proof. by intros (? & _)%js_find_Some. Qed.

Lemma js_find_true l i x : js_find f l = Some (i, x) → f x = true.
Proof. by intros (_ & ? & _)%js_find_Some. Qed.

Lemma js_find_elem_of l i x : js_find f l = Some (i, x) → x ∈ l.
Proof. intros Hl%js_find_lookup. by eapply list_elem_of_lookup_2. Qed.

(** Some element satisfies [f]: [find] returns one. *)
Lemma js_find_is_Some l x :
  x ∈ l → f x = true → ∃ i y, js_find f l = Some (i, y).
Proof.
  intros Hx Hfx. destruct (js_find f l) as [[i y]|] eqn:Hfind; [eauto|].
  rewrite js_find_None in Hfind. rewrite Hfind in Hfx; done.
Qed.

(** An update that [f] does not see does not change what [find] finds. *)
Lemma js_find_alter (g : A → A) l k i x :
  (∀ y, f (g y) = f y) →
  js_find f l = Some (i, x) →
  js_find f (alter g k l) = Some (i, if decide (i = k) then g x else x).
Proof.
  intros Hg (Hl & Hx & Hmin)%js_find_Some. apply js_find_Some.
  split_and!.
  - case_decide as Hik.
    + subst k. by rewrite list_lookup_alter_eq, Hl.
    + by rewrite list_lookup_alter_ne.
  - case_decide; by rewrite ?Hg.
  - intros j y Hj Hlt. destruct (decide (j = k)) as [->|Hjk].
    + rewrite list_lookup_alter_eq in Hj.
      destruct (l !! k) as [z|] eqn:Hz; [|done]. injection Hj as <-.
      rewrite Hg. by eapply Hmin.
    + rewrite list_lookup_alter_ne in Hj by done. by eapply Hmin.
Qed.

Lemma js_find_alter_None (g : A → A) l k :
  (∀ y, f (g y) = f y) →
  js_find f l = None → js_find f (alter g k l) = None.
Proof.
  intros Hg Hnone. apply js_find_None. intros y Hy.
  apply list_elem_of_lookup in Hy as [j Hj].
  rewrite js_find_None in Hnone.
  destruct (decide (j = k)) as [->|Hjk].
  - rewrite list_lookup_alter_eq in Hj.
    destruct (l !! k) as [z|] eqn:Hz; [|done]. injection Hj as <-.
    rewrite Hg. apply Hnone. by eapply list_elem_of_lookup_2.
  - rewrite list_lookup_alter_ne in Hj by done.
    apply Hnone. by eapply list_elem_of_lookup_2.
Qed.

(** What [find] finds stays found when elements are pushed. *)
Lemma js_find_app_Some l l' i x :
  js_find f l = Some (i, x) → js_find f (l ++ l') = Some (i, x).
Proof.
  intros (Hl & Hx & Hmin)%js_find_Some. apply js_find_Some. split_and!.
  - by apply lookup_app_l_Some.
  - done.
  - intros j y Hj Hlt. apply (Hmin j); [|done].
    rewrite lookup_app_l in Hj; [done|]. apply lookup_lt_Some in Hl. lia.
Qed.
End Find.

(** ** Comparisons of numbers and values *)

Lemma SFcompare_antisym a b :
  SFcompare b a = CompOpp <$> SFcompare a b.
Proof.
  assert (∀ m1 m2, PosDef.Pos.compare_cont Eq m2 m1
                   = CompOpp (PosDef.Pos.compare_cont Eq m1 m2)) as Hpos.
  { intros m1 m2. symmetry. apply (Pos.compare_cont_antisym m1 m2 Eq). }
  destruct a as [[]|[]| |[] m1 e1], b as [[]|[]| |[] m2 e2]; simpl; try done.
  - rewrite (Z.compare_antisym e1 e2).
    destruct (e1 ?= e2)%Z eqn:He; simpl; try done.
    by rewrite (Hpos m1 m2).
  - rewrite (Z.compare_antisym e1 e2).
    destruct (e1 ?= e2)%Z eqn:He; simpl; try done.
    by rewrite (Hpos m1 m2).
Qed.

Lemma float_eqb_sym x y : PrimFloat.eqb x y = PrimFloat.eqb y x.
Proof.
  rewrite !FloatAxioms.eqb_spec. unfold SFeqb.
  rewrite (SFcompare_antisym (Prim2SF x) (Prim2SF y)).
  by destruct (SFcompare (Prim2SF x) (Prim2SF y)) as [[]|].
Qed.

(** [x <= y] excludes [y < x]. *)
Lemma float_leb_not_ltb x y :
  PrimFloat.leb x y = true → PrimFloat.ltb y x = false.
Proof.
  rewrite FloatAxioms.leb_spec, FloatAxioms.ltb_spec. unfold SFleb, SFltb.
  rewrite (SFcompare_antisym (Prim2SF x) (Prim2SF y)).
  by destruct (SFcompare (Prim2SF x) (Prim2SF y)) as [[]|].
Qed.

Lemma float_eqb_refl x : PrimFloat.is_nan x = false → PrimFloat.eqb x x = true.
Proof. unfold PrimFloat.is_nan. by destruct (PrimFloat.eqb x x). Qed.

Lemma strict_eq_sym a b : strict_eq a b = strict_eq b a.
Proof.
  destruct a as [| |x|x|x|x|x], b as [| |y|y|y|y|y]; simpl; try done.
  - by destruct x, y.
  - apply float_eqb_sym.
  - apply String.eqb_sym.
Qed.

(** A scalar that passes [if (v)] is equal to itself. *)
Lemma strict_eq_refl v :
  scalar v = true → ToBoolean v = true → strict_eq v v = true.
Proof.
  destruct v as [| |b|x|s|l|ps]; simpl; try done.
  - by destruct b.
  - intros _ [_ Hnan]%negb_true_iff%orb_false_iff. by apply float_eqb_refl.
  - intros _ _. apply String.eqb_refl.
Qed.

(** What is [===] to something is a scalar. *)
Lemma strict_eq_scalar a b : strict_eq a b = true → scalar b = true.
Proof. by destruct a, b. Qed.

Lemma provided_iff (a b : value) :
  negb (ToBoolean a) || negb (ToBoolean b) = false ↔
  ToBoolean a = true ∧ ToBoolean b = true.
Proof. destruct (ToBoolean a), (ToBoolean b); simpl; intuition congruence. Qed.

(** ** Conversions *)

Section Conversions.
Context `{Host}.

Lemma ToPrimitive_scalar v : scalar v = true → ToPrimitive v = Some v.
Proof. by destruct v. Qed.

(** What [ToPrimitive] returns is a scalar. *)
Lemma ToPrimitive_is_scalar v p : ToPrimitive v = Some p → scalar p = true.
Proof.
  destruct v; simpl; try (by intros [= <-]);
    by intros (? & _ & ->)%fmap_Some.
Qed.

(** [ToNumber] throws exactly when [ToPrimitive] does. *)
Lemma ToNumber_None v : ToNumber v = None ↔ ToPrimitive v = None.
Proof. destruct v; simpl; try done; by rewrite !fmap_None. Qed.

Lemma ToNumber_scalar v : scalar v = true → is_Some (ToNumber v).
Proof. destruct v; simpl; try done; eauto. Qed.

Lemma ToString_scalar v : scalar v = true → is_Some (ToString v).
Proof. destruct v; simpl; try done; eauto. Qed.

(** [a + b] throws exactly when the conversion of [a] or of [b] to a
    primitive does. *)
Lemma js_add_None a b :
  js_add a b = None ↔ ToPrimitive a = None ∨ ToPrimitive b = None.
Proof.
  unfold js_add.
  destruct (ToPrimitive a) as [pa|] eqn:Ha; simpl; [|by split; eauto].
  destruct (ToPrimitive b) as [pb|] eqn:Hb; simpl; [|by split; eauto].
  apply ToPrimitive_is_scalar in Ha, Hb.
  split; [|by intros [?|?]]. intros Hnone. exfalso.
  destruct (ToString_scalar pa Ha) as [sa Hsa].
  destruct (ToString_scalar pb Hb) as [sb Hsb].
  destruct (ToNumber_scalar pa Ha) as [na Hna].
  destruct (ToNumber_scalar pb Hb) as [nb Hnb].
  rewrite Hsa, Hsb, Hna, Hnb in Hnone. by destruct pa, pb.
Qed.

(** The sum is a scalar. *)
Lemma js_add_scalar a b v : js_add a b = Some v → scalar v = true.
Proof.
  unfold js_add. intros Hv.
  apply bind_Some in Hv as (pa & _ & Hv).
  apply bind_Some in Hv as (pb & _ & Hv).
  destruct pa, pb; simpl in Hv;
    repeat match goal with
    | Hv : _ ≫= _ = Some _ |- _ => apply bind_Some in Hv as (? & _ & Hv)
    end; by simplify_eq.
Qed.

Lemma js_add_numbers x y :
  js_add (VNum x) (VNum y) = Some (VNum (PrimFloat.add x y)).
Proof. done. Qed.

Lemma ToNumber_number x : ToNumber (VNum x) = Some x.
Proof. done. Qed.
End Conversions.

(** ** The total of a cart and the stock update *)

Lemma fold_left_deref {B} (g : B → CartItem.t → B) h ls b :
  fold_left (λ acc l, g acc (h !!! l)) ls b = fold_left g (deref h ls) b.
Proof.
  revert b. induction ls as [|l ls IH]; intros b; simpl; [done|]. apply IH.
Qed.

Section Totals.
Context `{Host}.

Lemma fold_add_line_None items : fold_left add_line items None = None.
Proof. induction items as [|item items IH]; simpl; [done | apply IH]. Qed.

Lemma add_line_Some a item :
  add_line (Some a) item
  = (n ← ToNumber (CartItem.quantity item);
     Some (PrimFloat.add a (PrimFloat.mul (CartItem.price item) n))).
Proof. done. Qed.

(** The [reduce] of [getCart] and [createOrder], on the lines themselves. *)
Lemma cart_total_deref h c :
  cart_total h c = fold_left add_line (deref h c) (Some 0%float).
Proof. unfold cart_total. apply fold_left_deref. Qed.

Lemma fold_add_line_quantities items ns a :
  quantities items ns →
  fold_left add_line items (Some a)
  = Some (fold_left
            (λ acc line, PrimFloat.add acc (PrimFloat.mul line.1 line.2))
            (zip (CartItem.price <$> items) ns) a).
Proof.
  intros Hq. revert a.
  induction Hq as [|item n items ns Hn Hq IH]; intros a; [done|].
  cbn [fold_left]. rewrite add_line_Some, Hn. simpl. apply IH.
Qed.

Lemma fold_add_line_throws items a item :
  item ∈ items → ToNumber (CartItem.quantity item) = None →
  fold_left add_line items (Some a) = None.
Proof.
  intros Hin Hnone. revert a.
  induction items as [|x items IH]; intros a; [by apply elem_of_nil in Hin|].
  cbn [fold_left]. rewrite add_line_Some.
  destruct (ToNumber (CartItem.quantity x)) as [n|] eqn:Hn; simpl.
  - apply IH. apply elem_of_cons in Hin as [->|Hin]; [congruence | done].
  - apply fold_add_line_None.
Qed.

(** Either every quantity converts to a number or one of them throws. *)
Lemma quantities_or_throws items :
  (∃ ns, quantities items ns) ∨
  (∃ item, item ∈ items ∧ ToNumber (CartItem.quantity item) = None).
Proof.
  induction items as [|x items [[ns Hns]|(item & Hin & Hnone)]].
  - left. exists []. constructor.
  - destruct (ToNumber (CartItem.quantity x)) as [n|] eqn:Hn.
    + left. exists (n :: ns). by constructor.
    + right. exists x. split; [left | done].
  - right. exists item. split; [by right | done].
Qed.

Lemma quantities_numbers items qs :
  CartItem.quantity <$> items = VNum <$> qs → quantities items qs.
Proof.
  revert qs. induction items as [|x items IH]; intros [|q qs] Heq;
    simplify_eq/=; constructor; [by rewrite H0 | by apply IH].
Qed.

Lemma quantities_length items ns : quantities items ns → length ns = length items.
Proof. intros Hq. symmetry. by eapply Forall2_length. Qed.

Lemma quantities_inj items ns ns' :
  quantities items ns → quantities items ns' → ns = ns'.
Proof.
  intros Hq. revert ns'. induction Hq as [|item n items ns Hn Hq IH];
    intros ns' Hq'; inversion Hq'; subst; [done|].
  f_equal; [congruence | by apply IH].
Qed.

Lemma cart_total_quantities h c ns :
  quantities (deref h c) ns →
  cart_total h c = Some (sum_price_quantity (deref h c) ns).
Proof.
  intros Hq. rewrite cart_total_deref. by apply fold_add_line_quantities.
Qed.

Lemma cart_total_throws h c item :
  item ∈ deref h c → ToNumber (CartItem.quantity item) = None →
  cart_total h c = None.
Proof.
  intros Hin Hnone. rewrite cart_total_deref.
  by eapply fold_add_line_throws.
Qed.

Lemma cart_total_Some h c total :
  cart_total h c = Some total →
  ∃ ns, quantities (deref h c) ns ∧
        total = sum_price_quantity (deref h c) ns.
Proof.
  intros Ht.
  destruct (quantities_or_throws (deref h c)) as [[ns Hns]|(x & Hin & Hx)].
  - exists ns. split; [done|].
    rewrite (cart_total_quantities _ _ _ Hns) in Ht. by injection Ht.
  - by rewrite (cart_total_throws _ _ _ Hin Hx) in Ht.
Qed.

(** When every quantity converts, the [forEach] of [createOrder] comes to
    its end. *)
Lemma take_stocks_quantities ps items ns :
  quantities items ns → (take_stocks ps items).2 = true.
Proof.
  intros Hq. revert ps.
  induction Hq as [|item n items ns Hn Hq IH]; intros ps; simpl; [done|].
  unfold take_stock. destruct (js_find _ ps) as [[j p]|]; [|apply IH].
  rewrite Hn. simpl. apply IH.
Qed.

Lemma take_stocks_total h c ps total :
  cart_total h c = Some total → (take_stocks ps (deref h c)).2 = true.
Proof.
  intros (ns & Hns & _)%cart_total_Some. by eapply take_stocks_quantities.
Qed.

(** [createOrder] for a user the token finds, with lines in the cart. *)
Lemma createOrder_found s uid now i user :
  find_user s uid = Some (i, user) → User.cart user ≠ [] →
  match cart_total (heap s) (User.cart user) with
  | None => createOrder s uid now = (crash, s)
  | Some total =>
    createOrder s uid now
    = (let o :=
         Order.mk (PrimFloat.add (of_nat (length (orders s))) 1)
           (User.id user) (User.username user) (User.cart user)
           (parseFloat (toFixed2 total)) "pending" now in
       (reply 201 (Some "Order placed successfully! 🎉")
          (OrderData (order_json (heap s) o)),
        mkStore (alter (User.set_cart []) i (users s))
          (take_stocks (products s) (deref (heap s) (User.cart user))).1
          (orders s ++ [o]) (heap s))) ∧
    (take_stocks (products s) (deref (heap s) (User.cart user))).2 = true
  end.
Proof.
  intros Hu Hc. unfold createOrder. rewrite Hu.
  destruct (Nat.eqb_spec (length (User.cart user)) 0) as [Hlen|_].
  { by apply nil_length_inv in Hlen. }
  destruct (cart_total _ _) as [total|] eqn:Ht; [|done].
  pose proof (take_stocks_total _ _ (products s) _ Ht) as Hend.
  destruct (take_stocks _ _) as [ps' ended]. simpl in Hend. by subst ended.
Qed.

(** A checkout that reports a failure has written nothing. *)
Lemma createOrder_failed s uid now :
  status (createOrder s uid now).1 ≠ 201 → (createOrder s uid now).2 = s.
Proof.
  unfold createOrder. destruct (find_user s uid) as [[i user]|]; [|done].
  destruct (Nat.eqb _ 0); [done|].
  destruct (cart_total _ _) as [total|] eqn:Ht; [|done].
  pose proof (take_stocks_total _ _ (products s) _ Ht) as Hend.
  destruct (take_stocks _ _) as [ps' ended]. simpl in Hend. by subst ended.
Qed.
End Totals.

(** ** Failures, login and the reading of orders *)

Section Reading.
Context `{Host}.

Ltac by_cases :=
  repeat case_match; simplify_eq/=; try done.

(** C9: a request answered with [success: false] (status 400, 404 or 500;
    also the 401 of the middleware and an uncaught exception) leaves users,
    carts, products, orders and cart lines exactly as they were. *)
Theorem error_response_is_atomic s req r s' :
  handle s req = (r, s') →
  failed r = true ∨ status r = 400 ∨ status r = 404 ∨ status r = 500 →
  s' = s.
Proof.
  intros Hreq Herr.
  assert (failed r = true ∨ (status r ≠ 200 ∧ status r ≠ 201)) as Hno.
  { destruct Herr as [?|Hst]; [by left | right]. lia. }
  clear Herr. revert Hreq.
  destruct req as [| | | | | | | | | | | | | [uid|] now | |];
    try (simpl;
         unfold authenticateToken, register, register_check, register_resume,
           login, listProducts, getProduct, searchProducts, getCart,
           addToCart, updateCartItem, removeCartItem, clearCart, listOrders,
           getOrder;
         intros Hreq; by_cases; destruct Hno as [Hf|[? ?]]; done).
  simpl. intros Hreq.
  pose proof (createOrder_failed s uid now) as Hfailed.
  rewrite Hreq in Hfailed. simpl in Hfailed. apply Hfailed.
  destruct Hno as [Hf|[? ?]]; [|done]. intros H201.
  unfold createOrder in Hreq. by_cases.
Qed.

(** C5: with both fields provided, a login with an email no user has is
    answered 400 'Invalid email or password'.  A login with a registered
    email is answered the same when [bcrypt.compare] resolves to false;
    when [bcrypt.compare] rejects the password, as bcryptjs does with one
    that is not a string, the handler's [catch] answers 500 'Server
    error', and the two failures can be told apart. *)
Theorem login_failures s email1 email2 password i user :
  ToBoolean email1 = true → ToBoolean email2 = true →
  ToBoolean password = true →
  (∀ u, u ∈ users s → strict_eq (User.email u) email1 = false) →
  js_find (λ u, strict_eq (User.email u) email2) (users s) = Some (i, user) →
  login s email1 password = (fail 400 "Invalid email or password", s) ∧
  (bcrypt_compare password (User.password user) = Some false →
   login s email2 password = (fail 400 "Invalid email or password", s)) ∧
  (bcrypt_compare password (User.password user) = None →
   login s email2 password = (fail 500 "Server error", s)).
Proof.
  intros He1 He2 Hp Habsent Hfound. unfold login.
  rewrite He1, He2, Hp; simpl.
  apply js_find_None in Habsent. rewrite Habsent, Hfound.
  split_and!; [done | by intros -> | by intros ->].
Qed.

(** C6: [listOrders] returns the orders whose [userId] is the requester's,
    all of them and no other, in the order of the table; [getOrder] answers
    404 when every order with the requested id belongs to someone else (or
    there is none), and what it returns otherwise is an order of the
    requester's with that id. *)
Theorem orders_are_private s uid :
  (∃ mine,
     listOrders s uid
       = (reply 200 None
            (OrderList (length mine) (order_json (heap s) <$> mine)), s) ∧
     sublist mine (orders s) ∧
     ∀ o, o ∈ mine ↔
          o ∈ orders s ∧ PrimFloat.eqb (Order.userId o) uid = true) ∧
  (∀ id,
     (∀ o, o ∈ orders s →
           PrimFloat.eqb (Order.id o) (parseInt id) = true →
           PrimFloat.eqb (Order.userId o) uid = false) →
     getOrder s uid id = (fail 404 "Order not found", s)) ∧
  (∀ id r s',
     getOrder s uid id = (r, s') →
     s' = s ∧
     (r = fail 404 "Order not found" ∨
      ∃ o, o ∈ orders s ∧
           PrimFloat.eqb (Order.userId o) uid = true ∧
           PrimFloat.eqb (Order.id o) (parseInt id) = true ∧
           r = reply 200 None (OrderData (order_json (heap s) o)))).
Proof.
  split_and!.
  - exists (List.filter (λ o, PrimFloat.eqb (Order.userId o) uid) (orders s)).
    split_and!; [done| |].
    + induction (orders s) as [|o os IH]; simpl; [done|].
      destruct (PrimFloat.eqb (Order.userId o) uid);
        [by apply sublist_skip | by apply sublist_cons].
    + intros o. rewrite list_elem_of_In, filter_In, <- list_elem_of_In. done.
  - intros id Hforeign. unfold getOrder.
    replace (js_find _ (orders s)) with (@None (nat * Order.t)); [done|].
    symmetry. apply js_find_None. intros o Ho.
    destruct (PrimFloat.eqb (Order.id o) (parseInt id)) eqn:Hid; [|done].
    simpl. by apply Hforeign.
  - intros id r s'. unfold getOrder.
    destruct (js_find _ (orders s)) as [[k o]|] eqn:Hfind;
      intros [= <- <-]; (split; [done|]); [right | by left].
    exists o. pose proof (js_find_true _ _ _ _ Hfind) as [? ?]%andb_true_iff.
    split_and!; [by eapply js_find_elem_of|done..].
Qed.
End Reading.

(** ** Every request has one of the listed effects *)

Section Effects.
Context `{Host}.

Lemma filter_sublist {A} (f : A → bool) (l : list A) :
  sublist (List.filter f l) l.
Proof.
  induction l as [|x l IH]; simpl; [done|].
  destruct (f x); [by apply sublist_skip | by apply sublist_cons].
Qed.

Lemma find_user_lookup s uid i u :
  find_user s uid = Some (i, u) → users s !! i = Some u.
Proof. apply js_find_lookup. Qed.

Lemma find_item_elem_of h productId c k l :
  find_item h productId c = Some (k, l) → l ∈ c.
Proof. apply js_find_elem_of. Qed.

Lemma getCart_effect s uid : (getCart s uid).2 = s.
Proof. unfold getCart. by repeat case_match. Qed.

Lemma addToCart_effect s uid productId quantity i u :
  find_user s uid = Some (i, u) →
  cart_effect s i u (addToCart s uid productId quantity).2.
Proof.
  intros Hu. unfold addToCart. rewrite Hu.
  repeat case_match; simplify_eq/=; try apply ce_none.
  - apply ce_mutate. by eapply find_item_elem_of.
  - apply ce_push.
Qed.

Lemma updateCartItem_effect s uid param quantity i u :
  find_user s uid = Some (i, u) →
  cart_effect s i u (updateCartItem s uid param quantity).2.
Proof.
  intros Hu. unfold updateCartItem. rewrite Hu.
  repeat case_match; simplify_eq/=; try apply ce_none.
  - apply ce_shrink, filter_sublist.
  - apply ce_mutate. by eapply find_item_elem_of.
Qed.

Lemma removeCartItem_effect s uid param i u :
  find_user s uid = Some (i, u) →
  cart_effect s i u (removeCartItem s uid param).2.
Proof.
  intros Hu. unfold removeCartItem. rewrite Hu.
  repeat case_match; simplify_eq/=; try apply ce_none.
  apply ce_shrink, filter_sublist.
Qed.

Lemma clearCart_effect s uid i u :
  find_user s uid = Some (i, u) →
  cart_effect s i u (clearCart s uid).2.
Proof.
  intros Hu. unfold clearCart. rewrite Hu. simpl.
  apply ce_shrink, sublist_nil_l.
Qed.

(** Without a user object for the token's id the cart handlers change
    nothing. *)
Lemma no_user_no_effect s uid :
  find_user s uid = None →
  (∀ productId quantity, (addToCart s uid productId quantity).2 = s) ∧
  (∀ param quantity, (updateCartItem s uid param quantity).2 = s) ∧
  (∀ param, (removeCartItem s uid param).2 = s) ∧
  (clearCart s uid).2 = s ∧
  (∀ now, (createOrder s uid now).2 = s).
Proof.
  intros Hu. unfold addToCart, updateCartItem, removeCartItem, clearCart,
    createOrder. rewrite Hu. split_and!; intros; by repeat case_match.
Qed.

Lemma handle_effect s req : effect s (handle s req).2.
Proof.
  destruct req as [| username email password now | username email password
    | username email password now | | | | | [uid|] | [uid|] ? ?
    | [uid|] ? ? | [uid|] ? | [uid|] | [uid|] now | [uid|] | [uid|] ?];
    simpl; try apply eff_none.
  - unfold register, register_resume.
    repeat case_match; simplify_eq/=; try apply eff_none.
    by apply eff_register.
  - unfold register_resume.
    repeat case_match; simplify_eq/=; try apply eff_none.
    by apply eff_register.
  - unfold login. repeat case_match; simplify_eq/=; apply eff_none.
  - unfold getProduct. repeat case_match; simplify_eq/=; apply eff_none.
  - rewrite getCart_effect. apply eff_none.
  - destruct (find_user s uid) as [[i u]|] eqn:Hu.
    + eapply eff_cart; [by eapply find_user_lookup|].
      by apply addToCart_effect.
    + destruct (no_user_no_effect s uid Hu) as (-> & _). apply eff_none.
  - destruct (find_user s uid) as [[i u]|] eqn:Hu.
    + eapply eff_cart; [by eapply find_user_lookup|].
      by apply updateCartItem_effect.
    + destruct (no_user_no_effect s uid Hu) as (_ & -> & _). apply eff_none.
  - destruct (find_user s uid) as [[i u]|] eqn:Hu.
    + eapply eff_cart; [by eapply find_user_lookup|].
      by apply removeCartItem_effect.
    + destruct (no_user_no_effect s uid Hu) as (_ & _ & -> & _). apply eff_none.
  - destruct (find_user s uid) as [[i u]|] eqn:Hu.
    + eapply eff_cart; [by eapply find_user_lookup|].
      by apply clearCart_effect.
    + destruct (no_user_no_effect s uid Hu) as (_ & _ & _ & -> & _).
      apply eff_none.
  - destruct (find_user s uid) as [[i u]|] eqn:Hu.
    2:{ destruct (no_user_no_effect s uid Hu) as (_ & _ & _ & _ & ->).
        apply eff_none. }
    destruct (decide (User.cart u = [])) as [Hc|Hc].
    { unfold createOrder. rewrite Hu, Hc. apply eff_none. }
    pose proof (createOrder_found s uid now i u Hu Hc) as Hfound.
    destruct (cart_total _ _) as [total|]; [|rewrite Hfound; apply eff_none].
    destruct Hfound as [-> _]. simpl.
    apply eff_checkout with (u := u); [by eapply find_user_lookup | done].
  - unfold getOrder. repeat case_match; simplify_eq/=; apply eff_none.
Qed.
End Effects.

(** ** Invariants of the store *)

Lemma set_cart_id u : User.set_cart (User.cart u) u = u.
Proof. by destruct u. Qed.

Lemma set_cart_set_cart c c' u :
  User.set_cart c (User.set_cart c' u) = User.set_cart c u.
Proof. done. Qed.

(** Assigning the cart of the user at index [i] replaces one segment of
    [carts]. *)
Lemma carts_alter us i u c :
  us !! i = Some u →
  ∃ a b, carts us = a ++ User.cart u ++ b ∧
         carts (alter (User.set_cart c) i us) = a ++ c ++ b.
Proof.
  intros Hi. exists (carts (take i us)), (carts (drop (S i) us)).
  pose proof (take_drop_middle us i u Hi) as Hsplit.
  assert (length (take i us) = i) as Hlen.
  { apply length_take_le. apply lookup_lt_Some in Hi. lia. }
  unfold carts. split.
  - rewrite <- Hsplit at 1. by rewrite bind_app, bind_cons.
  - rewrite <- Hsplit at 1.
    rewrite alter_app_r_alt by lia. rewrite Hlen, Nat.sub_diag. simpl.
    by rewrite bind_app, bind_cons.
Qed.

Lemma cart_in_carts us i u l :
  us !! i = Some u → l ∈ User.cart u → l ∈ carts us.
Proof.
  intros Hi Hl. apply list_elem_of_bind. exists u.
  split; [done | by eapply list_elem_of_lookup_2].
Qed.

Lemma items_in_refs s o l :
  o ∈ orders s → l ∈ Order.items o → l ∈ orders s ≫= Order.items.
Proof. intros Ho Hl. apply list_elem_of_bind. eauto. Qed.

Lemma deref_insert h ls l item :
  l ∉ ls → deref (<[l := item]> h) ls = deref h ls.
Proof.
  intros Hl. unfold deref. apply list_fmap_ext. intros k l' Hl'.
  apply list_lookup_total_insert_ne. intros ->.
  apply Hl. by eapply list_elem_of_lookup_2.
Qed.

Lemma deref_app h h' ls :
  Forall (λ l, l < length h) ls → deref (h ++ h') ls = deref h ls.
Proof.
  intros Hls. unfold deref. apply list_fmap_ext. intros k l Hl.
  apply lookup_total_app_l. rewrite Forall_forall in Hls.
  apply Hls. by eapply list_elem_of_lookup_2.
Qed.

Lemma keeps_users_same s s' : users s' = users s → keeps_users s s'.
Proof.
  intros Hus i u Hi. exists (User.cart u). by rewrite set_cart_id, Hus.
Qed.

Lemma keeps_users_refl s : keeps_users s s.
Proof. by apply keeps_users_same. Qed.

Lemma keeps_users_trans s1 s2 s3 :
  keeps_users s1 s2 → keeps_users s2 s3 → keeps_users s1 s3.
Proof.
  intros H12 H23 i u Hi. destruct (H12 i u Hi) as [c Hc].
  destruct (H23 _ _ Hc) as [c' Hc']. exists c'. by rewrite Hc'.
Qed.

Lemma keeps_users_alter s s' k c :
  users s' = alter (User.set_cart c) k (users s) → keeps_users s s'.
Proof.
  intros Hus i u Hi. rewrite Hus. destruct (decide (k = i)) as [->|Hne].
  - exists c. by rewrite list_lookup_alter_eq, Hi.
  - exists (User.cart u). by rewrite list_lookup_alter_ne, set_cart_id.
Qed.

Lemma effect_keeps_users s s' : effect s s' → keeps_users s s'.
Proof.
  intros [|i u s'' Hi [|l q Hl|item|c Hc]|u Hc|i u o ps Hi Ho].
  - apply keeps_users_refl.
  - apply keeps_users_refl.
  - by apply keeps_users_same.
  - by eapply keeps_users_alter.
  - by eapply keeps_users_alter.
  - intros k v Hk. exists (User.cart v). rewrite set_cart_id. simpl.
    by apply lookup_app_l_Some.
  - by eapply keeps_users_alter.
Qed.

(** [wf] holds at the start and is kept by every effect. *)
Lemma wf_initial us ps h :
  Forall (λ u, User.cart u = []) us → wf (mkStore us ps [] h).
Proof.
  intros Hus. assert (carts us = []) as Hc.
  { unfold carts. induction Hus as [|u us Hu _ IH]; [done|].
    by rewrite bind_cons, Hu, IH. }
  split; unfold refs; simpl; rewrite Hc; simpl; constructor.
Qed.

Lemma refs_push s i u h n :
  users s !! i = Some u →
  refs (set_cart_of i (User.cart u ++ [n]) (set_heap h s)) ≡ₚ n :: refs s.
Proof.
  intros Hi.
  destruct (carts_alter (users s) i u (User.cart u ++ [n]) Hi)
    as (a & b & Ha & Hb).
  unfold refs. simpl. rewrite Ha, Hb. rewrite <- !(assoc_L (++)). simpl.
  rewrite <- Permutation_middle. by rewrite <- Permutation_middle.
Qed.

Lemma refs_shrink s i u c :
  users s !! i = Some u → sublist c (User.cart u) →
  sublist (refs (set_cart_of i c s)) (refs s).
Proof.
  intros Hi Hc. destruct (carts_alter (users s) i u c Hi) as (a & b & Ha & Hb).
  unfold refs. simpl. rewrite Ha, Hb. by repeat (apply sublist_app; try done).
Qed.

Lemma refs_checkout s i u o ps :
  users s !! i = Some u → Order.items o = User.cart u →
  refs (mkStore (alter (User.set_cart []) i (users s)) ps (orders s ++ [o])
          (heap s)) ≡ₚ refs s.
Proof.
  intros Hi Ho. destruct (carts_alter (users s) i u [] Hi) as (a & b & Ha & Hb).
  unfold refs. simpl. rewrite Ha, Hb.
  rewrite bind_app, bind_cons, Ho. simpl. rewrite (right_id_L [] (++)).
  rewrite <- !app_assoc. apply Permutation_app_head.
  rewrite (app_assoc b). apply Permutation_app_comm.
Qed.

Lemma effect_wf s s' : wf s → effect s s' → wf s'.
Proof.
  intros [Hnd Hal]
    [|i u s'' Hi [|l q Hl|item|c Hc]|u Hc|i u o ps Hi Ho].
  - done.
  - done.
  - split; [done|]. unfold refs in *. simpl. by rewrite length_insert.
  - pose proof (refs_push s i u (heap s ++ [item]) (length (heap s)) Hi)
      as Hp.
    split; rewrite Hp.
    + apply NoDup_cons. split; [|done].
      intros Hin. rewrite Forall_forall in Hal. apply Hal in Hin. lia.
    + simpl. rewrite length_app. simpl. constructor; [lia|].
      eapply Forall_impl; [done|]. simpl. intros; lia.
  - pose proof (refs_shrink s i u c Hi Hc) as Hsub. split.
    + by eapply sublist_NoDup.
    + rewrite Forall_forall in *. intros x Hx. apply Hal.
      by eapply elem_of_sublist.
  - assert (refs (set_users (users s ++ [u]) s) = refs s) as Hr.
    { unfold refs, carts. simpl. rewrite bind_app, bind_cons, Hc. simpl.
      by rewrite (right_id_L [] (++)). }
    split; by rewrite Hr.
  - pose proof (refs_checkout s i u o ps Hi Ho) as Hp.
    split; by rewrite Hp.
Qed.

(** An order stays where it is, and so do the lines it refers to. *)
Lemma effect_orders s s' k o :
  wf s → effect s s' → orders s !! k = Some o →
  orders s' !! k = Some o ∧
  deref (heap s') (Order.items o) = deref (heap s) (Order.items o).
Proof.
  intros [Hnd Hal] Heff Ho.
  assert (o ∈ orders s) as Hin by by eapply list_elem_of_lookup_2.
  unfold refs in *. apply NoDup_app in Hnd as (_ & Hdisj & _).
  apply Forall_app in Hal as [_ Hal].
  destruct Heff
    as [|i u s'' Hi [|l q Hl|item|c Hc]|u Hc|i u o' ps Hi Ho'];
    simpl; try done.
  - split; [done|]. apply deref_insert. intros Hlo.
    eapply Hdisj; [by eapply cart_in_carts | by eapply items_in_refs].
  - split; [done|]. apply deref_app. rewrite Forall_forall in *.
    intros l Hl. apply Hal. by eapply items_in_refs.
  - split; [|done]. by apply lookup_app_l_Some.
Qed.

Lemma carts_disjoint us i j ui uj l :
  NoDup (carts us) → us !! i = Some ui → us !! j = Some uj → i ≠ j →
  l ∈ User.cart ui → l ∉ User.cart uj.
Proof.
  unfold carts. revert i j. induction us as [|u us IH]; intros i j; [done|].
  rewrite bind_cons. intros (_ & Hdisj & Hnd)%NoDup_app Hi Hj Hne Hl Hl'.
  destruct i as [|i], j as [|j]; simpl in *; simplify_eq.
  - eapply Hdisj; [done|]. by eapply cart_in_carts.
  - eapply Hdisj; [done|]. by eapply cart_in_carts.
  - eapply (IH i j); eauto.
Qed.

(** A cart request changes the cart of the user it finds and nothing
    else. *)
Lemma cart_effect_cart_only s i u s' :
  wf s → users s !! i = Some u → cart_effect s i u s' → cart_only i s s'.
Proof.
  intros Hwf Hi Heff.
  assert (effect s s') as Heff' by by eapply eff_cart.
  pose proof (effect_keeps_users _ _ Heff') as Hkeep.
  destruct Hwf as [Hnd Hal]. unfold refs in *.
  pose proof Hnd as (Hndc & _ & _)%NoDup_app.
  pose proof Hal as [Halc _]%Forall_app.
  split.
  - by destruct Heff.
  - by destruct Heff.
  - intros o [k Hk]%list_elem_of_lookup.
    by eapply effect_orders.
  - destruct Heff; simpl; by rewrite ?length_alter.
  - intros j v Hji Hj. destruct Heff as [|l q Hl|item|c Hc]; simpl.
    + done.
    + split; [done|]. apply deref_insert. intros Hl'.
      by eapply (carts_disjoint (users s) i j u v l).
    + split; [by rewrite list_lookup_alter_ne|].
      apply deref_app. rewrite Forall_forall in *. intros l Hl.
      apply Halc. by eapply cart_in_carts.
    + split; [by rewrite list_lookup_alter_ne | done].
  - intros v Hv. by apply Hkeep.
Qed.

Section Runs.
Context `{Host}.

Lemma run_snoc s reqs req :
  run s (reqs ++ [req]) = (handle (run s reqs) req).2.
Proof. unfold run. by rewrite fold_left_app. Qed.

Lemma run_cons s req reqs :
  run s (req :: reqs) = run (handle s req).2 reqs.
Proof. done. Qed.

Lemma run_wf s reqs : wf s → wf (run s reqs).
Proof.
  revert s. induction reqs as [|req reqs IH]; intros s Hwf; [done|].
  rewrite run_cons. apply IH. eapply effect_wf; [done | apply handle_effect].
Qed.

Lemma run_keeps_users s reqs : keeps_users s (run s reqs).
Proof.
  revert s. induction reqs as [|req reqs IH]; intros s.
  - apply keeps_users_refl.
  - rewrite run_cons. eapply keeps_users_trans; [|apply IH].
    apply effect_keeps_users, handle_effect.
Qed.

Lemma run_orders s reqs k o :
  wf s → orders s !! k = Some o →
  orders (run s reqs) !! k = Some o ∧
  deref (heap (run s reqs)) (Order.items o) = deref (heap s) (Order.items o).
Proof.
  revert s. induction reqs as [|req reqs IH]; intros s Hwf Ho; [done|].
  rewrite run_cons.
  destruct (effect_orders s (handle s req).2 k o Hwf (handle_effect s req) Ho)
    as [Ho' Hd'].
  destruct (IH (handle s req).2) as [Ho'' Hd'']; [|done|].
  - eapply effect_wf; [done | apply handle_effect].
  - split; [done | congruence].
Qed.

(** The user a token names stays the one [find] returns. *)
Lemma effect_find_user s s' uid i u :
  effect s s' → find_user s uid = Some (i, u) →
  ∃ c, find_user s' uid = Some (i, User.set_cart c u).
Proof.
  intros Heff Hu. unfold find_user in *.
  assert (∀ k c, ∃ c',
    js_find (λ u0, PrimFloat.eqb (User.id u0) uid)
      (alter (User.set_cart c) k (users s)) = Some (i, User.set_cart c' u))
    as Halt.
  { intros k c.
    rewrite (js_find_alter _ (User.set_cart c) _ k i u); [|done..].
    case_decide; [by exists c|]. exists (User.cart u). by rewrite set_cart_id. }
  assert (∃ c, js_find (λ u0, PrimFloat.eqb (User.id u0) uid) (users s)
               = Some (i, User.set_cart c u)) as Hsame.
  { exists (User.cart u). by rewrite set_cart_id. }
  destruct Heff
    as [|k v s'' Hk [|l q Hl|item|c Hc]|v Hc|k v o' ps Hk Ho'];
    simpl; try done; try apply Halt.
  exists (User.cart u). rewrite set_cart_id. by apply js_find_app_Some.
Qed.

Lemma run_find_user s reqs uid i u :
  find_user s uid = Some (i, u) →
  ∃ c, find_user (run s reqs) uid = Some (i, User.set_cart c u).
Proof.
  revert s u. induction reqs as [|req reqs IH]; intros s u Hu.
  - exists (User.cart u). by rewrite set_cart_id.
  - rewrite run_cons.
    destruct (effect_find_user _ _ _ _ _ (handle_effect s req) Hu) as [c Hc].
    destruct (IH _ _ Hc) as [c' Hc']. exists c'. by rewrite Hc'.
Qed.
End Runs.

(** ** The cart *)

Section Cart.
Context `{Host}.

Lemma getCart_found s uid i u :
  find_user s uid = Some (i, u) →
  getCart s uid
  = match cart_total (heap s) (User.cart u) with
    | None => (crash, s)
    | Some total =>
      (reply 200 None
         (CartView (length (User.cart u)) (toFixed2 total)
            (deref (heap s) (User.cart u))), s)
    end.
Proof. intros Hu. unfold getCart. by rewrite Hu. Qed.

Lemma length_deref h c : length (deref h c) = length c.
Proof. unfold deref. apply length_fmap. Qed.

(** [getCart] when every quantity converts to a number. *)
Lemma getCart_quantities s uid i u ns :
  find_user s uid = Some (i, u) →
  let lines := deref (heap s) (User.cart u) in
  quantities lines ns →
  getCart s uid
  = (reply 200 None
       (CartView (length lines) (toFixed2 (sum_price_quantity lines ns))
          lines), s).
Proof.
  intros Hu lines Hq. subst lines.
  rewrite (getCart_found s uid i u Hu), (cart_total_quantities _ _ _ Hq).
  by rewrite length_deref.
Qed.

(** [getCart] when the conversion of a quantity throws. *)
Lemma getCart_throws s uid i u line :
  find_user s uid = Some (i, u) →
  line ∈ deref (heap s) (User.cart u) →
  ToNumber (CartItem.quantity line) = None →
  getCart s uid = (crash, s).
Proof.
  intros Hu Hin Hnone.
  by rewrite (getCart_found s uid i u Hu), (cart_total_throws _ _ _ Hin Hnone).
Qed.

(** C2, as the code has it: after any sequence of add, update, remove and
    clear requests of a user, [getCart] returns the lines of the user's
    cart as it is then, their number, and as total the [toFixed(2)]
    rendering of the sum of price × quantity over exactly these lines,
    where the quantities are the numbers that the stored values convert
    to, themselves when they are numbers.  When the conversion of a stored
    quantity throws, [getCart] throws: the answer is 500, without items
    and without a total. *)
Theorem getCart_after_cart_ops s uid i u ops :
  find_user s uid = Some (i, u) →
  let s' := run s (cart_request uid <$> ops) in
  ∃ c,
    find_user s' uid = Some (i, User.set_cart c u) ∧
    let lines := deref (heap s') c in
    (∀ ns, quantities lines ns →
       getCart s' uid
       = (reply 200 None
            (CartView (length lines)
               (toFixed2 (sum_price_quantity lines ns)) lines), s')) ∧
    (∀ qs, CartItem.quantity <$> lines = VNum <$> qs →
       getCart s' uid
       = (reply 200 None
            (CartView (length lines)
               (toFixed2 (sum_price_quantity lines qs)) lines), s')) ∧
    (∀ line, line ∈ lines → ToNumber (CartItem.quantity line) = None →
       getCart s' uid = (crash, s')).
Proof.
  intros Hu s'. subst s'.
  destruct (run_find_user s (cart_request uid <$> ops) uid i u Hu) as [c Hc].
  exists c. split; [done|]. cbv zeta. split_and!.
  - intros ns Hq. by apply (getCart_quantities _ _ _ _ ns Hc).
  - intros qs Hqs. apply (getCart_quantities _ _ _ _ qs Hc).
    by apply quantities_numbers.
  - intros line Hin Hnone. by apply (getCart_throws _ _ _ _ line Hc).
Qed.

(** C10: a cart request of an authenticated user changes at most the cart
    of that user: the products (their stock too) and the orders with the
    lines they list, every other user with the lines of their cart, and
    the other fields of the user are as before; [getCart] changes
    nothing. *)
Theorem cart_requests_change_one_cart s uid i u :
  wf s → find_user s uid = Some (i, u) →
  (getCart s uid).2 = s ∧
  ∀ op, cart_only i s (handle s (cart_request uid op)).2.
Proof.
  intros Hwf Hu. split; [apply getCart_effect|].
  pose proof (find_user_lookup _ _ _ _ Hu) as Hi.
  intros [productId quantity|param quantity|param|]; simpl;
    apply (cart_effect_cart_only s i u); try done.
  - by apply addToCart_effect.
  - by apply updateCartItem_effect.
  - by apply removeCartItem_effect.
  - by apply clearCart_effect.
Qed.
End Cart.

(** ** Orders *)

Section Orders.
Context `{Host}.

(** A checkout answered 201: the order and the store. *)
Lemma createOrder_created s uid now i user :
  find_user s uid = Some (i, user) →
  status (createOrder s uid now).1 = 201 →
  ∃ total,
    User.cart user ≠ [] ∧
    cart_total (heap s) (User.cart user) = Some total ∧
    createOrder s uid now
    = (let o :=
         Order.mk (PrimFloat.add (of_nat (length (orders s))) 1)
           (User.id user) (User.username user) (User.cart user)
           (parseFloat (toFixed2 total)) "pending" now in
       (reply 201 (Some "Order placed successfully! 🎉")
          (OrderData (order_json (heap s) o)),
        mkStore (alter (User.set_cart []) i (users s))
          (take_stocks (products s) (deref (heap s) (User.cart user))).1
          (orders s ++ [o]) (heap s))).
Proof.
  intros Hu H201.
  destruct (decide (User.cart user = [])) as [Hc|Hc].
  { revert H201. unfold createOrder. by rewrite Hu, Hc. }
  pose proof (createOrder_found s uid now i user Hu Hc) as Hfound.
  destruct (cart_total _ _) as [total|].
  - destruct Hfound as [Hfound _]. by exists total.
  - by rewrite Hfound in H201.
Qed.

(** C8, as the code has it: the [items] of an order are the line objects
    the cart held at checkout, in a new array; the cart of the user becomes
    a new empty array, no cart refers to a line of an order, and no request
    changes an order that exists: it keeps its place, its fields ([total]
    and [status], which is 'pending' from the start) and the lines it
    lists. *)
Theorem orders_are_immutable s :
  wf s →
  (∀ o u l, o ∈ orders s → u ∈ users s → l ∈ Order.items o →
     l ∉ User.cart u) ∧
  (∀ k o reqs, orders s !! k = Some o →
     orders (run s reqs) !! k = Some o ∧
     order_json (heap (run s reqs)) o = order_json (heap s) o) ∧
  (∀ uid now i user,
     find_user s uid = Some (i, user) →
     status (createOrder s uid now).1 = 201 →
     ∃ o, let s1 := (createOrder s uid now).2 in
       orders s1 = orders s ++ [o] ∧
       Order.items o = User.cart user ∧
       Order.status o = "pending" ∧
       find_user s1 uid = Some (i, User.set_cart [] user) ∧
       ∀ reqs,
         orders (run s1 reqs) !! length (orders s) = Some o ∧
         oj_items (order_json (heap (run s1 reqs)) o)
         = deref (heap s) (User.cart user)).
Proof.
  intros Hwf. split_and!.
  - intros o u l Ho [i Hi]%list_elem_of_lookup Hl Hl'.
    destruct Hwf as [(_ & Hdisj & _)%NoDup_app _].
    eapply Hdisj; [by eapply cart_in_carts | by eapply items_in_refs].
  - intros k o reqs Ho. destruct (run_orders s reqs k o Hwf Ho) as [Ho' Hd].
    split; [done|]. unfold order_json. by rewrite Hd.
  - intros uid now i user Hu H201.
    pose proof (handle_effect s (PostOrders (Some uid) now)) as Heff.
    simpl in Heff. pose proof (effect_wf _ _ Hwf Heff) as Hwf1.
    destruct (createOrder_created s uid now i user Hu H201)
      as (total & Hc & Ht & Hcreate).
    revert Heff Hwf1. rewrite Hcreate.
    simpl. intros Heff Hwf1. eexists. split_and!; try done.
    + unfold find_user. simpl.
      rewrite (js_find_alter _ (User.set_cart []) _ i i user); [|done..].
      by rewrite decide_True.
    + intros reqs.
      match goal with
      | |- context [run ?s1 reqs] =>
        destruct (run_orders s1 reqs (length (orders s))
                    (Order.mk (PrimFloat.add (of_nat (length (orders s))) 1)
                       (User.id user) (User.username user) (User.cart user)
                       (parseFloat (toFixed2 total)) "pending" now) Hwf1)
          as [Ho' Hd]
      end.
      { simpl. by rewrite lookup_app_r, Nat.sub_diag. }
      split; [done|]. simpl in *. by rewrite Hd.
Qed.
End Orders.

(** ** Checkout *)

Section Checkout.
Context `{Host}.

Lemma set_stock_id p : Product.set_stock (Product.stock p) p = p.
Proof. by destruct p. Qed.

(** Which product a line is charged to depends on the ids only. *)
Lemma resolve_alter (g : Product.t → Product.t) ps k v :
  (∀ p, Product.id (g p) = Product.id p) →
  fst <$> product_of (alter g k ps) v = fst <$> product_of ps v.
Proof.
  intros Hg. unfold product_of.
  destruct (js_find (λ p, strict_eq (VNum (Product.id p)) v) ps)
    as [[i x]|] eqn:Hfind.
  - rewrite (js_find_alter _ g ps k i x); [done| |done].
    intros y. by rewrite Hg.
  - rewrite js_find_alter_None; [done| |done]. intros y. by rewrite Hg.
Qed.

Lemma charged_alter (g : Product.t → Product.t) ps k j items ns :
  (∀ p, Product.id (g p) = Product.id p) →
  charged (alter g k ps) j items ns = charged ps j items ns.
Proof.
  intros Hg. unfold charged. f_equal. apply List.filter_ext. intros line.
  pose proof (resolve_alter g ps k (CartItem.productId line.1) Hg) as Hr.
  destruct (product_of (alter g k ps) _) as [[a x]|],
    (product_of ps _) as [[b y]|]; simpl in Hr; by simplify_eq.
Qed.

(** The stock of every product after the [forEach] of [createOrder]: the
    other fields stay, and the quantities of the lines that name the
    product are taken from its stock one after the other. *)
Lemma take_stocks_lookup items ns ps j p :
  quantities items ns → ps !! j = Some p →
  ∃ p', (take_stocks ps items).1 !! j = Some p' ∧
        listing p' = listing p ∧
        Product.stock p'
        = decrement (Product.stock p) (charged ps j items ns).
Proof.
  intros Hq. revert ps p.
  induction Hq as [|item n items ns Hn Hq IH]; intros ps p Hj.
  - exists p. by split_and!.
  - cbn [take_stocks]. unfold take_stock. fold (product_of ps (CartItem.productId item)).
    assert (charged ps j (item :: items) (n :: ns)
            = match product_of ps (CartItem.productId item) with
              | Some (k, _) =>
                if Nat.eqb k j then n :: charged ps j items ns
                else charged ps j items ns
              | None => charged ps j items ns
              end) as Hcharged.
    { unfold charged. simpl.
      destruct (product_of ps (CartItem.productId item)) as [[k pk]|]; [|done].
      by destruct (Nat.eqb k j). }
    rewrite Hcharged.
    destruct (product_of ps (CartItem.productId item)) as [[k pk]|] eqn:Hfind.
    + rewrite Hn. simpl.
      set (g := λ product : Product.t,
             Product.set_stock (PrimFloat.sub (Product.stock product) n)
               product).
      assert (∀ q, Product.id (g q) = Product.id q) as Hg by done.
      destruct (Nat.eqb_spec k j) as [->|Hkj].
      * destruct (IH (alter g j ps) (g p)) as (p' & Hp' & Hl & Hs).
        { by rewrite list_lookup_alter_eq, Hj. }
        exists p'. split_and!; [done | by rewrite Hl |].
        by rewrite Hs, (charged_alter g ps j j items ns Hg).
      * destruct (IH (alter g k ps) p) as (p' & Hp' & Hl & Hs).
        { by rewrite list_lookup_alter_ne. }
        exists p'. split_and!; [done..|].
        by rewrite Hs, (charged_alter g ps k j items ns Hg).
    + by apply IH.
Qed.

Lemma take_stock_length ps item ps' :
  take_stock ps item = Some ps' → length ps' = length ps.
Proof.
  unfold take_stock. destruct (js_find _ ps) as [[j p]|]; [|by intros [= <-]].
  intros (n & _ & [= <-])%bind_Some. apply length_alter.
Qed.

Lemma take_stocks_length items ps :
  length (take_stocks ps items).1 = length ps.
Proof.
  revert ps. induction items as [|item items IH]; intros ps; simpl; [done|].
  destruct (take_stock ps item) as [ps'|] eqn:Hps; [|done].
  rewrite IH. by eapply take_stock_length.
Qed.

(** C1, as the code has it: for a user the token finds, [createOrder]
    answers 400 and changes nothing when the cart is empty.  When a
    quantity in the cart does not convert to a number (the conversion
    throws), [createOrder] and [getCart] throw: the answer is 500 and
    nothing changes.  Otherwise [createOrder] answers 201 with an order
    appended to [orders], whose id is [orders.length + 1], whose total is
    [parseFloat] of the total [getCart] shows before the checkout (the sum
    of price × quantity, rendered by [toFixed(2)]) and whose items are the
    lines of the cart; the cart of the user becomes empty; and every
    product keeps its other fields and has its stock lowered by the
    quantities of the lines that name it, one after the other, with no
    floor: by the ordered quantity when one line names the product. *)
Theorem createOrder_checks_out s uid now i user :
  find_user s uid = Some (i, user) →
  let lines := deref (heap s) (User.cart user) in
  (User.cart user = [] →
   createOrder s uid now = (fail 400 "Your cart is empty", s)) ∧
  (∀ line, line ∈ lines → ToNumber (CartItem.quantity line) = None →
   getCart s uid = (crash, s) ∧ createOrder s uid now = (crash, s)) ∧
  (∀ ns, User.cart user ≠ [] → quantities lines ns →
   ∃ o total s',
     getCart s uid
     = (reply 200 None (CartView (length lines) total lines), s) ∧
     total = toFixed2 (sum_price_quantity lines ns) ∧
     createOrder s uid now
     = (reply 201 (Some "Order placed successfully! 🎉")
          (OrderData (order_json (heap s) o)), s') ∧
     orders s' = orders s ++ [o] ∧
     Order.id o = PrimFloat.add (of_nat (length (orders s))) 1 ∧
     Order.userId o = User.id user ∧
     Order.total o = parseFloat total ∧
     oj_items (order_json (heap s) o) = lines ∧
     heap s' = heap s ∧
     find_user s' uid = Some (i, User.set_cart [] user) ∧
     (∀ k v, k ≠ i → users s' !! k = Some v ↔ users s !! k = Some v) ∧
     length (products s') = length (products s) ∧
     (∀ j p, products s !! j = Some p →
        ∃ p', products s' !! j = Some p' ∧
              listing p' = listing p ∧
              Product.stock p'
              = decrement (Product.stock p)
                  (charged (products s) j lines ns)) ∧
     (∀ j p n, products s !! j = Some p →
        charged (products s) j lines ns = [n] →
        Product.stock <$> products s' !! j
        = Some (PrimFloat.sub (Product.stock p) n))).
Proof.
  intros Hu lines. subst lines. split_and!.
  - intros Hc. unfold createOrder. by rewrite Hu, Hc.
  - intros line Hin Hnone. split; [by eapply getCart_throws|].
    assert (User.cart user ≠ []) as Hc.
    { intros Hc. rewrite Hc in Hin. by apply elem_of_nil in Hin. }
    pose proof (createOrder_found s uid now i user Hu Hc) as Hfound.
    by rewrite (cart_total_throws _ _ _ Hin Hnone) in Hfound.
  - intros ns Hc Hq.
    rewrite (getCart_quantities s uid i user ns Hu Hq).
    pose proof (createOrder_found s uid now i user Hu Hc) as Hfound.
    rewrite (cart_total_quantities _ _ _ Hq) in Hfound.
    destruct Hfound as [-> _]. cbv zeta.
    eexists _, _, _. split_and!; try done.
    + unfold find_user. simpl.
      rewrite (js_find_alter _ (User.set_cart []) _ i i user); [|done..].
      by rewrite decide_True.
    + intros k v Hk. simpl. by rewrite list_lookup_alter_ne.
    + simpl. apply take_stocks_length.
    + intros j p Hj. simpl. by apply take_stocks_lookup.
    + intros j p n Hj Hn. simpl.
      destruct (take_stocks_lookup _ ns _ j p Hq Hj) as (p' & -> & _ & Hs).
      simpl. by rewrite Hs, Hn.
Qed.
End Checkout.

(** ** Carts as the lists of lines a response shows *)

Lemma wf_cart s i u :
  wf s → users s !! i = Some u →
  NoDup (User.cart u) ∧ Forall (λ l, l < length (heap s)) (User.cart u).
Proof.
  intros [Hnd Hal] Hi. unfold refs in *.
  destruct (carts_alter (users s) i u [] Hi) as (a & b & Ha & _).
  rewrite Ha in Hnd, Hal. split.
  - by apply NoDup_app in Hnd as ((_ & _ & (? & _)%NoDup_app)%NoDup_app & _).
  - by apply Forall_app in Hal as [(_ & (? & _)%Forall_app)%Forall_app _].
Qed.

Lemma deref_lookup h c k l : c !! k = Some l → deref h c !! k = Some (h !!! l).
Proof. intros Hk. unfold deref. by rewrite list_lookup_fmap, Hk. Qed.

(** Writing to a line of a cart shows at the place of that line only. *)
Lemma deref_insert_line h c k l item :
  NoDup c → c !! k = Some l → l < length h →
  deref (<[l := item]> h) c = <[k := item]> (deref h c).
Proof.
  intros Hnd Hk Hl. apply list_eq. intros n. unfold deref.
  rewrite list_lookup_fmap. destruct (decide (n = k)) as [Heq|Hne].
  - rewrite Heq, Hk. simpl.
    rewrite list_lookup_insert_eq
      by (rewrite length_fmap; by eapply lookup_lt_Some).
    by rewrite list_lookup_total_insert_eq.
  - rewrite list_lookup_insert_ne by done. rewrite list_lookup_fmap.
    destruct (c !! n) as [l'|] eqn:Hn; [simpl|done].
    rewrite list_lookup_total_insert_ne; [done|]. intros ->.
    apply Hne. by eapply NoDup_lookup.
Qed.

(** A pushed line shows at the end. *)
Lemma deref_push h c item :
  Forall (λ l, l < length h) c →
  deref (h ++ [item]) (c ++ [length h]) = deref h c ++ [item].
Proof.
  intros Hal. unfold deref at 1. rewrite fmap_app. f_equal.
  - by apply deref_app.
  - simpl. by rewrite lookup_total_app_r, Nat.sub_diag.
Qed.

Lemma deref_filter (f : CartItem.t → bool) h c :
  deref h (List.filter (λ l, f (h !!! l)) c) = List.filter f (deref h c).
Proof.
  induction c as [|l c IH]; simpl; [done|].
  destruct (f (h !!! l)); simpl; by rewrite IH.
Qed.

Lemma js_find_deref (f : CartItem.t → bool) h c :
  js_find f (deref h c)
  = prod_map id (λ l, h !!! l) <$> js_find (λ l, f (h !!! l)) c.
Proof.
  induction c as [|l c IH]; simpl; [done|].
  destruct (f (h !!! l)); [done|]. rewrite IH.
  by destruct (js_find _ c) as [[k l']|].
Qed.

(** ** Writing to the cart *)

Section CartWrites.
Context `{Host}.

Lemma find_user_set_heap s h uid : find_user (set_heap h s) uid = find_user s uid.
Proof. done. Qed.

Lemma find_user_set_cart_of s uid i user c :
  find_user s uid = Some (i, user) →
  find_user (set_cart_of i c s) uid = Some (i, User.set_cart c user).
Proof.
  intros Hu. unfold find_user in *. simpl.
  rewrite (js_find_alter _ (User.set_cart c) _ i i user); [|done..].
  by rewrite decide_True.
Qed.

Lemma find_item_deref h productId c :
  js_find (λ item, strict_eq (CartItem.productId item) productId) (deref h c)
  = prod_map id (λ l, h !!! l) <$> find_item h productId c.
Proof. apply js_find_deref. Qed.

Lemma set_quantity_fields q item :
  CartItem.set_quantity q item
  = CartItem.mk (CartItem.productId item) (CartItem.name item)
      (CartItem.price item) q.
Proof. done. Qed.

(** The successful branch of [addToCart], on the lines the cart shows. *)
Lemma addToCart_success s uid productId quantity n j product i user :
  wf s →
  ToBoolean productId = true → ToBoolean quantity = true →
  product_of (products s) productId = Some (j, product) →
  ToNumber quantity = Some n →
  PrimFloat.ltb (Product.stock product) n = false →
  find_user s uid = Some (i, user) →
  let lines := deref (heap s) (User.cart user) in
  let added lines' :=
    ∃ s' c,
      addToCart s uid productId quantity
      = (reply 200 (Some (Product.name product ++ " added to cart")%string)
           (CartItems lines'), s') ∧
      find_user s' uid = Some (i, User.set_cart c user) ∧
      deref (heap s') c = lines' ∧
      products s' = products s in
  match js_find (λ item, strict_eq (CartItem.productId item) productId)
          lines with
  | Some (k, line) =>
    match js_add (CartItem.quantity line) quantity with
    | Some sum =>
      added (<[k := CartItem.mk (CartItem.productId line) (CartItem.name line)
                      (CartItem.price line) sum]> lines)
    | None => addToCart s uid productId quantity = (crash, s)
    end
  | None =>
    added (lines ++ [CartItem.mk productId (Product.name product)
                       (Product.price product) quantity])
  end.
Proof.
  intros Hwf Hp Hq Hprod Hn Hstock Hu lines added. subst lines added.
  pose proof (find_user_lookup _ _ _ _ Hu) as Hi.
  destruct (wf_cart s i user Hwf Hi) as [Hnd Hal].
  rewrite find_item_deref. unfold addToCart, product_of in *.
  rewrite Hp, Hq, Hprod, Hn, Hstock, Hu. simpl.
  destruct (find_item (heap s) productId (User.cart user)) as [[k l]|]
    eqn:Hitem; simpl.
  - apply js_find_lookup in Hitem as Hk.
    destruct (js_add _ quantity) as [sum|]; [|done].
    rewrite (deref_insert_line (heap s) (User.cart user) k l); [|done..|].
    2:{ rewrite Forall_forall in Hal. apply Hal.
        by eapply list_elem_of_lookup_2. }
    eexists _, (User.cart user). split_and!; [done| |simpl|done].
    + by rewrite find_user_set_heap, set_cart_id.
    + apply deref_insert_line; [done..|].
      rewrite Forall_forall in Hal. apply Hal.
      by eapply list_elem_of_lookup_2.
  - rewrite deref_push by done.
    eexists _, (User.cart user ++ [length (heap s)]).
    split_and!; [done| |simpl|done].
    + by apply find_user_set_cart_of.
    + by apply deref_push.
Qed.
End CartWrites.

Section AddToCart.
Context `{Host}.

Lemma js_find_app_None {A} (f : A → bool) l l' :
  js_find f l = None →
  js_find f (l ++ l') = prod_map (λ k, length l + k) id <$> js_find f l'.
Proof.
  induction l as [|x l IH]; simpl.
  - intros _. by destruct (js_find f l') as [[k y]|].
  - destruct (f x); [done|]. intros Hnone%fmap_None.
    rewrite (IH Hnone). by destruct (js_find f l') as [[k y]|].
Qed.

Lemma addToCart_products s uid productId quantity :
  products (addToCart s uid productId quantity).2 = products s.
Proof. unfold addToCart. by repeat case_match. Qed.

(** Adding 2 and then 3 of a product the cart does not hold yet. *)
Lemma addToCart_twice s uid pid j product i user :
  wf s → ToBoolean (VNum pid) = true →
  product_of (products s) (VNum pid) = Some (j, product) →
  PrimFloat.ltb (Product.stock product) 2 = false →
  PrimFloat.ltb (Product.stock product) 3 = false →
  find_user s uid = Some (i, user) →
  js_find (λ item, strict_eq (CartItem.productId item) (VNum pid))
    (deref (heap s) (User.cart user)) = None →
  let s1 := (addToCart s uid (VNum pid) (VNum 2)).2 in
  let s2 := (addToCart s1 uid (VNum pid) (VNum 3)).2 in
  let lines2 :=
    deref (heap s) (User.cart user)
    ++ [CartItem.mk (VNum pid) (Product.name product) (Product.price product)
          (VNum 5)] in
  addToCart s1 uid (VNum pid) (VNum 3)
  = (reply 200 (Some (Product.name product ++ " added to cart")%string)
       (CartItems lines2), s2) ∧
  ∃ c, find_user s2 uid = Some (i, User.set_cart c user) ∧
       deref (heap s2) c = lines2.
Proof.
  intros Hwf Hpid Hprod H2 H3 Hu Hnew s1 s2 lines2.
  pose proof (addToCart_success s uid (VNum pid) (VNum 2) 2 j product i user
                Hwf Hpid eq_refl Hprod eq_refl H2 Hu) as Hfirst.
  cbv zeta in Hfirst. rewrite Hnew in Hfirst.
  destruct Hfirst as (s1' & c1 & Hr1 & Hu1 & Hd1 & Hp1).
  assert (s1 = s1') as Hs1 by (subst s1; by rewrite Hr1). rewrite <- Hs1 in *.
  assert (wf s1) as Hwf1.
  { eapply effect_wf; [done|]. eapply eff_cart; [by eapply find_user_lookup|].
    by apply addToCart_effect. }
  assert (product_of (products s1) (VNum pid) = Some (j, product)) as Hprod1
    by (by rewrite Hp1).
  pose proof (addToCart_success s1 uid (VNum pid) (VNum 3) 3 j product i
                (User.set_cart c1 user) Hwf1 Hpid eq_refl Hprod1 eq_refl H3
                Hu1) as Hsecond.
  cbv zeta in Hsecond. simpl User.cart in Hsecond. rewrite Hd1 in Hsecond.
  rewrite (js_find_app_None _ _ _ Hnew) in Hsecond.
  assert (strict_eq (VNum pid) (VNum pid) = true) as Hrefl
    by (by apply strict_eq_refl).
  cbn [js_find CartItem.productId] in Hsecond. rewrite Hrefl in Hsecond.
  cbn [fmap option_fmap option_map prod_map fst snd id CartItem.quantity
         CartItem.productId CartItem.name CartItem.price] in Hsecond.
  rewrite js_add_numbers in Hsecond.
  destruct Hsecond as (s2' & c2 & Hr2 & Hu2 & Hd2 & Hp2).
  assert (s2 = s2') as Hs2 by (subst s2; by rewrite Hr2). rewrite <- Hs2 in *.
  rewrite Nat.add_0_r in Hr2, Hd2.
  rewrite insert_app_r_alt, Nat.sub_diag in Hr2, Hd2 by lia.
  simpl in Hr2, Hd2.
  split; [done|]. exists c2. by rewrite Hu2.
Qed.

(** C3, as the code has it.  [addToCart] answers 400 when [productId] or
    [quantity] is absent or falsy (zero included); otherwise 404 when no
    product has the id; otherwise it compares the stock of the product
    with the quantity, which throws (500) when the quantity does not
    convert to a number, and answers 400 when the quantity is greater than
    the stock.  For every other quantity, so every non-zero quantity ≤
    stock: if the cart has a line for the product, the quantity of the
    line is [+=] the given one, the sum of the two when both are numbers,
    unless the quantity in the line does not convert (then 500, nothing
    changed); else the cart gets a new line (the id, the name and the
    price of the product, the quantity) at its end; the answer is 200 and
    shows the new cart.  Adding 2 and then 3 of a product that is not yet
    in the cart leaves one line for it, with quantity 5. *)
Theorem addToCart_checks_then_merges s uid productId quantity :
  (ToBoolean productId = false ∨ ToBoolean quantity = false →
   addToCart s uid productId quantity
   = (fail 400 "Please provide productId and quantity", s)) ∧
  (ToBoolean productId = true → ToBoolean quantity = true →
   (∀ p, p ∈ products s → strict_eq (VNum (Product.id p)) productId = false) →
   addToCart s uid productId quantity = (fail 404 "Product not found", s)) ∧
  (∀ j product,
   ToBoolean productId = true → ToBoolean quantity = true →
   js_find (λ p, strict_eq (VNum (Product.id p)) productId) (products s)
   = Some (j, product) →
   (ToNumber quantity = None →
    addToCart s uid productId quantity = (crash, s)) ∧
   (∀ n, ToNumber quantity = Some n →
    PrimFloat.ltb (Product.stock product) n = true →
    addToCart s uid productId quantity
    = (fail 400
         ("Only " ++ NumberToString (Product.stock product)
            ++ " items in stock"), s)) ∧
   (∀ n i user,
    wf s → find_user s uid = Some (i, user) →
    ToNumber quantity = Some n →
    PrimFloat.leb n (Product.stock product) = true →
    let lines := deref (heap s) (User.cart user) in
    let added lines' :=
      ∃ s' c,
        addToCart s uid productId quantity
        = (reply 200 (Some (Product.name product ++ " added to cart")%string)
             (CartItems lines'), s') ∧
        find_user s' uid = Some (i, User.set_cart c user) ∧
        deref (heap s') c = lines' ∧
        products s' = products s in
    match js_find (λ item, strict_eq (CartItem.productId item) productId)
            lines with
    | Some (k, line) =>
      let merged sum :=
        <[k := CartItem.mk (CartItem.productId line) (CartItem.name line)
                 (CartItem.price line) sum]> lines in
      (∀ sum, js_add (CartItem.quantity line) quantity = Some sum →
         added (merged sum)) ∧
      (∀ a b, CartItem.quantity line = VNum a → quantity = VNum b →
         added (merged (VNum (PrimFloat.add a b)))) ∧
      (ToNumber (CartItem.quantity line) = None →
         addToCart s uid productId quantity = (crash, s))
    | None =>
      added (lines ++ [CartItem.mk productId (Product.name product)
                         (Product.price product) quantity])
    end)) ∧
  (∀ pid j product i user,
   wf s → ToBoolean (VNum pid) = true →
   js_find (λ p, strict_eq (VNum (Product.id p)) (VNum pid)) (products s)
   = Some (j, product) →
   PrimFloat.leb 2 (Product.stock product) = true →
   PrimFloat.leb 3 (Product.stock product) = true →
   find_user s uid = Some (i, user) →
   js_find (λ item, strict_eq (CartItem.productId item) (VNum pid))
     (deref (heap s) (User.cart user)) = None →
   let s1 := (addToCart s uid (VNum pid) (VNum 2)).2 in
   let s2 := (addToCart s1 uid (VNum pid) (VNum 3)).2 in
   let lines2 :=
     deref (heap s) (User.cart user)
     ++ [CartItem.mk (VNum pid) (Product.name product)
           (Product.price product) (VNum 5)] in
   addToCart s1 uid (VNum pid) (VNum 3)
   = (reply 200 (Some (Product.name product ++ " added to cart")%string)
        (CartItems lines2), s2) ∧
   ∃ c, find_user s2 uid = Some (i, User.set_cart c user) ∧
        deref (heap s2) c = lines2).
Proof.
  split_and!.
  - intros Hmiss. unfold addToCart.
    destruct Hmiss as [-> | ->]; simpl; [done|].
    by rewrite orb_true_r.
  - intros Hp Hq Hnone. apply js_find_None in Hnone.
    unfold addToCart. by rewrite Hp, Hq, Hnone.
  - intros j product Hp Hq Hprod. split_and!.
    + intros Hnone. unfold addToCart. by rewrite Hp, Hq, Hprod, Hnone.
    + intros n Hn Hlt. unfold addToCart. by rewrite Hp, Hq, Hprod, Hn, Hlt.
    + intros n i user Hwf Hu Hn Hle%float_leb_not_ltb lines added.
      pose proof (addToCart_success s uid productId quantity n j product i
                    user Hwf Hp Hq Hprod Hn Hle Hu) as Hsuccess.
      cbv zeta in Hsuccess. subst lines added.
      destruct (js_find _ (deref (heap s) (User.cart user))) as [[k line]|];
        [|done].
      intros merged. subst merged. split_and!.
      * intros sum Hsum. by rewrite Hsum in Hsuccess.
      * intros a b Ha Hb. subst quantity.
        by rewrite Ha, js_add_numbers in Hsuccess.
      * intros Hnone.
        assert (js_add (CartItem.quantity line) quantity = None) as Hadd.
        { apply js_add_None. left. by apply ToNumber_None. }
        by rewrite Hadd in Hsuccess.
  - intros pid j product i user Hwf Hpid Hprod H2%float_leb_not_ltb
      H3%float_leb_not_ltb Hu Hnew.
    by apply (addToCart_twice s uid pid j product i user).
Qed.
End AddToCart.

Section UpdateCartItem.
Context `{Host}.

(** C7: for a user the token finds, [updateCartItem] answers 404 and
    changes nothing when no line of the cart has the product id of the
    path.  Otherwise it answers 200 and shows the new cart: without the
    lines of that product when [quantity === 0], and else with the line as
    it was but for its quantity, which is the given value, whatever it is;
    the products are not consulted and stay as they are. *)
Theorem updateCartItem_sets_quantity s uid param quantity i user :
  find_user s uid = Some (i, user) →
  let productId := VNum (parseInt param) in
  let lines := deref (heap s) (User.cart user) in
  ((∀ line, line ∈ lines →
      strict_eq (CartItem.productId line) productId = false) →
   updateCartItem s uid param quantity = (fail 404 "Item not in cart", s)) ∧
  (∀ k line,
   wf s →
   js_find (λ item, strict_eq (CartItem.productId item) productId) lines
   = Some (k, line) →
   ∃ lines' s' c,
     updateCartItem s uid param quantity
     = (reply 200
          (Some (if strict_eq quantity (VNum 0)
                 then "Item removed from cart" else "Cart updated"))
          (CartItems lines'), s') ∧
     find_user s' uid = Some (i, User.set_cart c user) ∧
     deref (heap s') c = lines' ∧
     products s' = products s ∧
     lines'
     = if strict_eq quantity (VNum 0)
       then List.filter
              (λ item, negb (strict_eq (CartItem.productId item) productId))
              lines
       else <[k := CartItem.mk (CartItem.productId line) (CartItem.name line)
                     (CartItem.price line) quantity]> lines).
Proof.
  intros Hu productId lines. subst lines.
  pose proof (find_user_lookup _ _ _ _ Hu) as Hi. split.
  - intros Hnone%js_find_None. rewrite find_item_deref in Hnone.
    apply fmap_None in Hnone. unfold updateCartItem. fold productId.
    by rewrite Hu, Hnone.
  - intros k line Hwf Hline. destruct (wf_cart s i user Hwf Hi) as [Hnd Hal].
    rewrite find_item_deref in Hline.
    destruct (find_item (heap s) productId (User.cart user)) as [[k' l]|]
      eqn:Hitem; [|done].
    simpl in Hline. injection Hline as -> <-.
    apply js_find_lookup in Hitem as Hk.
    unfold updateCartItem. fold productId. rewrite Hu, Hitem.
    destruct (strict_eq quantity (VNum 0)) eqn:Hzero.
    + eexists _, _, (drop_item (heap s) productId (User.cart user)).
      split_and!; [done| |done|done|].
      * by apply find_user_set_cart_of.
      * unfold drop_item.
        apply (deref_filter
                 (λ item, negb (strict_eq (CartItem.productId item) productId))).
    + eexists _, _, (User.cart user). split_and!; [done| |done|done|].
      * by rewrite find_user_set_heap, set_cart_id.
      * rewrite <- set_quantity_fields. apply deref_insert_line; [done..|].
        rewrite Forall_forall in Hal. apply Hal.
        by eapply list_elem_of_lookup_2.
Qed.
End UpdateCartItem.

(** ** Registration *)

Section Register.
Context `{Host}.

Lemma register_check_passes s username email password :
  ToBoolean username = true → ToBoolean email = true →
  ToBoolean password = true →
  (∀ u, u ∈ users s → strict_eq (User.email u) email = false) →
  register_check s username email password = None.
Proof.
  intros Hun He Hp Hnew%js_find_None. unfold register_check.
  by rewrite Hun, He, Hp, Hnew.
Qed.

(** Nothing is [===] to an array or an object of the request. *)
Lemma strict_eq_not_scalar a b : scalar b = false → strict_eq a b = false.
Proof.
  intros Hb. destruct (strict_eq a b) eqn:Heq; [|done].
  apply strict_eq_scalar in Heq. congruence.
Qed.

Lemma register_resume_pushes s username email password now hash :
  bcrypt_hash password = Some hash →
  let id := PrimFloat.add (of_nat (length (users s))) 1 in
  register_resume s username email password now
  = (reply 201 (Some "Registration successful! You can now login")
       (UserInfo id username email),
     set_users (users s ++ [User.mk id username email hash [] now]) s).
Proof. intros Hhash. unfold register_resume. by rewrite Hhash. Qed.

Lemma register_taken s username email password now u :
  u ∈ users s → strict_eq (User.email u) email = true →
  status (register s username email password now).1 = 400 ∧
  (register s username email password now).2 = s ∧
  (ToBoolean username = true → ToBoolean email = true →
   ToBoolean password = true →
   register s username email password now
   = (fail 400 "Email already registered", s)).
Proof.
  intros Hin Heq.
  destruct (js_find_is_Some (λ x, strict_eq (User.email x) email)
              (users s) u Hin Heq) as (k & v & Hfind).
  unfold register, register_check. rewrite Hfind.
  destruct (negb (ToBoolean username) || negb (ToBoolean email)
            || negb (ToBoolean password)) eqn:Hmiss; simpl.
  - split_and!; [done..|]. intros Hu He Hp. by rewrite Hu, He, Hp in Hmiss.
  - done.
Qed.

(** C4: [register] answers 400 'Email already registered' when a user of
    the table has an email [===] the given one.  The check does not keep
    the emails apart.  An email that is an array or an object is [===] to
    no stored email, so the same JSON email is registered again and again,
    each time with 201.  And the handler awaits the hash between the check
    and [users.push]: of two registrations with the same new email, the
    second of which arrives while the first waits, both pass the check,
    both are answered 201, and the table holds two users with that
    email. *)
Theorem register_repeats_emails s email
    username1 password1 hash1 now1 username2 password2 hash2 now2 :
  ToBoolean email = true →
  ToBoolean username1 = true → ToBoolean password1 = true →
  ToBoolean username2 = true → ToBoolean password2 = true →
  bcrypt_hash password1 = Some hash1 → bcrypt_hash password2 = Some hash2 →
  let id1 := PrimFloat.add (of_nat (length (users s))) 1 in
  let id2 := PrimFloat.add (of_nat (S (length (users s)))) 1 in
  let user1 := User.mk id1 username1 email hash1 [] now1 in
  let user2 := User.mk id2 username2 email hash2 [] now2 in
  let created id username :=
    reply 201 (Some "Registration successful! You can now login")
      (UserInfo id username email) in
  ((∃ u, u ∈ users s ∧ strict_eq (User.email u) email = true) →
   register s username1 email password1 now1
   = (fail 400 "Email already registered", s)) ∧
  (scalar email = false →
   let s1 := set_users (users s ++ [user1]) s in
   let s2 := set_users (users s ++ [user1; user2]) s in
   register s username1 email password1 now1 = (created id1 username1, s1) ∧
   register s1 username2 email password2 now2 = (created id2 username2, s2)) ∧
  ((∀ u, u ∈ users s → strict_eq (User.email u) email = false) →
   let s1 := set_users (users s ++ [user1]) s in
   let s2 := set_users (users s ++ [user1; user2]) s in
   handle s (PostRegisterAwait username1 email password1) = (waiting, s) ∧
   handle s (PostRegisterAwait username2 email password2) = (waiting, s) ∧
   handle s (PostRegisterResume username1 email password1 now1)
   = (created id1 username1, s1) ∧
   handle s1 (PostRegisterResume username2 email password2 now2)
   = (created id2 username2, s2)).
Proof.
  intros He Hu1 Hp1 Hu2 Hp2 Hh1 Hh2 id1 id2 user1 user2 created.
  split_and!.
  - intros (u & Hin & Heq).
    by apply (register_taken s username1 email password1 now1 u).
  - intros Harr s1 s2.
    assert (∀ s0, register_check s0 username1 email password1 = None
                  ∧ register_check s0 username2 email password2 = None)
      as Hcheck.
    { intros s0. split; apply register_check_passes; try done;
        intros u _; by apply strict_eq_not_scalar. }
    unfold register. rewrite (proj1 (Hcheck s)), (proj2 (Hcheck s1)).
    rewrite (register_resume_pushes s _ _ _ now1 hash1 Hh1).
    rewrite (register_resume_pushes s1 _ _ _ now2 hash2 Hh2).
    subst s1 s2 user1 user2 id1 id2 created. simpl.
    rewrite length_app, Nat.add_1_r. unfold set_users. simpl.
    by rewrite <- app_assoc.
  - intros Hnew s1 s2. simpl.
    rewrite !register_check_passes by done.
    rewrite (register_resume_pushes s _ _ _ now1 hash1 Hh1).
    rewrite (register_resume_pushes s1 _ _ _ now2 hash2 Hh2).
    subst s1 s2 user1 user2 id1 id2 created. simpl.
    rewrite length_app, Nat.add_1_r. unfold set_users. simpl.
    by rewrite <- app_assoc.
Qed.
End Register.

(** ** Reachable stores and remarks *)

Section Remarks.
Context `{Host}.

(** Every store the server reaches from tables with empty carts and no
    order is well formed. *)
Lemma wf_reachable us ps h reqs :
  Forall (λ u, User.cart u = []) us → wf (run (mkStore us ps [] h) reqs).
Proof. intros Hus. by apply run_wf, wf_initial. Qed.

(** A falsy quantity is answered as a missing one, zero too. *)
Lemma addToCart_zero_quantity s uid productId :
  addToCart s uid productId (VNum 0)
  = (fail 400 "Please provide productId and quantity", s).
Proof. unfold addToCart. simpl. by rewrite orb_true_r. Qed.
End Remarks.

(** ** The theorems on the sample store *)

Section Instances.
Existing Instance Sample.host.

Lemma sample_wf : wf Sample.store.
Proof. apply wf_initial. by repeat constructor. Defined.

Lemma sample_with_cart_wf : wf Sample.with_cart.
Proof.
  eapply effect_wf; [apply sample_wf|].
  apply (handle_effect Sample.store (PostCart (Some 1%float) (VNum 1) (VNum 2))).
Defined.

(** C1 on the sample store: an empty cart is refused; the checkout of two
    laptops at 999.99 makes order 1 with total 1999.98, empties the cart
    and leaves 3 laptops; the checkout of three mice at 29.5 that follows
    makes order 2 with total 88.5 and leaves 47 mice; and a cart whose
    quantity is an object without a primitive is answered 500. *)
Lemma createOrder_checks_out_witness :
  let s2 := (addToCart Sample.with_order 2 (VNum 2) (VNum 3)).2 in
  let s3 := (updateCartItem Sample.with_cart 1 "1" Sample.no_primitive).2 in
  createOrder Sample.store 1 7%Z
  = (fail 400 "Your cart is empty", Sample.store) ∧
  (∃ o s',
     createOrder Sample.with_cart 1 7%Z
     = (reply 201 (Some "Order placed successfully! 🎉")
          (OrderData (order_json (heap Sample.with_cart) o)), s') ∧
     orders s' = [o] ∧ Order.id o = 1%float ∧
     Order.total o = 1999.98%float ∧
     oj_items (order_json (heap Sample.with_cart) o)
     = [CartItem.mk (VNum 1) "Laptop" 999.99 (VNum 2)] ∧
     find_user s' 1 = Some (0, Sample.al) ∧
     Product.stock <$> products s' !! 0 = Some 3%float) ∧
  (∃ o s',
     createOrder s2 2 9%Z
     = (reply 201 (Some "Order placed successfully! 🎉")
          (OrderData (order_json (heap s2) o)), s') ∧
     orders s' = orders Sample.with_order ++ [o] ∧
     length (orders Sample.with_order) = 1 ∧ Order.id o = 2%float ∧
     Order.total o = 88.5%float ∧
     find_user s' 2 = Some (1, Sample.bo) ∧
     Product.stock <$> products s' !! 1 = Some 47%float) ∧
  createOrder s3 1 7%Z = (crash, s3).
Proof.
  intros s2 s3. split_and!.
  - by apply (createOrder_checks_out Sample.store 1 7%Z 0 Sample.al).
  - destruct (createOrder_checks_out Sample.with_cart 1 7%Z 0
                (User.set_cart [0] Sample.al) eq_refl) as (_ & _ & Hok).
    destruct (Hok [2%float])
      as (o & total & s' & Hget & Htotal & Hcreate & Horders & Hid & _
          & Hparse & Hitems & _ & Huser & _ & _ & _ & Hstock);
      [done | by repeat constructor |].
    exists o, s'. rewrite Htotal in Hparse.
    split_and!; [done | done | done | exact Hparse | done | done |].
    by apply (Hstock 0 Sample.laptop 2%float).
  - destruct (createOrder_checks_out s2 2 9%Z 1
                (User.set_cart [1] Sample.bo) eq_refl) as (_ & _ & Hok).
    destruct (Hok [3%float])
      as (o & total & s' & Hget & Htotal & Hcreate & Horders & Hid & _
          & Hparse & Hitems & _ & Huser & _ & _ & _ & Hstock);
      [done | by repeat constructor |].
    exists o, s'. rewrite Htotal in Hparse.
    split_and!; [done | done | done | done | exact Hparse | done |].
    by apply (Hstock 1 Sample.mouse 3%float).
  - destruct (createOrder_checks_out s3 1 7%Z 0
                (User.set_cart [0] Sample.al) eq_refl) as (_ & Hthrow & _).
    apply (Hthrow (CartItem.mk (VNum 1) "Laptop" 999.99 Sample.no_primitive));
      [left | reflexivity].
Defined.

(** C1 as the specification states it: the cart is not empty, and the
    checkout makes no order.  A PUT has stored an object without a
    primitive as the quantity of the line; the checkout throws, and the
    answer is 500. *)
Lemma createOrder_without_order :
  let s :=
    (handle Sample.with_cart
       (PutCart (Some 1%float) "1" Sample.no_primitive)).2 in
  User.cart <$> users s = [[0]; []] ∧
  deref (heap s) [0]
  = [CartItem.mk (VNum 1) "Laptop" 999.99 Sample.no_primitive] ∧
  handle s (PostOrders (Some 1%float) 7%Z) = (crash, s) ∧
  orders s = [].
Proof. split_and!; reflexivity. Qed.

(** C2 as the specification states it.  After an update to a quantity
    that has no primitive, [getCart] throws: no items, no total.  After an
    update without a quantity the total is "NaN", which is not a 2-decimal
    string. *)
Lemma getCart_without_total :
  let s1 := run Sample.store
              (cart_request 1 <$> [Add (VNum 1) (VNum 2);
                                   Update "1" Sample.no_primitive]) in
  let s2 := run Sample.store
              (cart_request 1 <$> [Add (VNum 1) (VNum 2);
                                   Update "1" VUndefined]) in
  getCart s1 1 = (crash, s1) ∧
  getCart s2 1
  = (reply 200 None
       (CartView 1 "NaN" [CartItem.mk (VNum 1) "Laptop" 999.99 VUndefined]),
     s2).
Proof. split; vm_compute; reflexivity. Qed.

(** C2 on the sample store: four laptops at 999.99. *)
Lemma getCart_after_cart_ops_witness :
  let ops := [Add (VNum 1) (VNum 2); Add (VNum 2) (VNum 1);
              Update "1" (VNum 3); Remove "2"; Add (VNum 1) (VNum 1)] in
  let s' := run Sample.store (cart_request 1 <$> ops) in
  find_user s' 1 = Some (0, User.set_cart [0] Sample.al) ∧
  getCart s' 1
  = (reply 200 None
       (CartView 1 "3999.96" [CartItem.mk (VNum 1) "Laptop" 999.99 (VNum 4)]),
     s').
Proof.
  intros ops s'.
  destruct (getCart_after_cart_ops Sample.store 1 0 Sample.al ops eq_refl)
    as (c & Hc & _ & Hnumbers & _).
  fold s' in Hc, Hnumbers.
  assert (find_user s' 1 = Some (0, User.set_cart [0] Sample.al)) as Hu
    by reflexivity.
  split; [done|].
  rewrite Hu in Hc. injection Hc as <-.
  exact (Hnumbers [4%float] eq_refl).
Defined.

(** C3 as the specification states it: a quantity of 0 is not greater
    than the stock of 5, and yet the request is answered 400; and with a
    quantity in the line that has no primitive, a quantity of 2 is
    answered 500. *)
Lemma addToCart_zero_is_refused :
  let s3 := (updateCartItem Sample.with_cart 1 "1" Sample.no_primitive).2 in
  js_find (λ p, strict_eq (VNum (Product.id p)) (VNum 1))
    (products Sample.store) = Some (0, Sample.laptop) ∧
  PrimFloat.leb 0 (Product.stock Sample.laptop) = true ∧
  find_user Sample.store 1 = Some (0, Sample.al) ∧
  addToCart Sample.store 1 (VNum 1) (VNum 0)
  = (fail 400 "Please provide productId and quantity", Sample.store) ∧
  PrimFloat.leb 2 (Product.stock Sample.laptop) = true ∧
  addToCart s3 1 (VNum 1) (VNum 2) = (crash, s3).
Proof.
  split_and!; [reflexivity..| apply addToCart_zero_quantity
                            | reflexivity | reflexivity].
Qed.

(** C3 on the sample store: a missing quantity, an unknown product, six
    laptops and a quantity without a primitive, with five laptops in
    stock; and 2 and then 3 laptops. *)
Lemma addToCart_checks_then_merges_witness :
  let line := CartItem.mk (VNum 1) "Laptop" 999.99 (VNum 5) in
  let s2 := (addToCart Sample.with_cart 1 (VNum 1) (VNum 3)).2 in
  addToCart Sample.store 1 (VNum 1) VUndefined
  = (fail 400 "Please provide productId and quantity", Sample.store) ∧
  addToCart Sample.store 1 (VNum 9) (VNum 1)
  = (fail 404 "Product not found", Sample.store) ∧
  addToCart Sample.store 1 (VNum 1) (VNum 6)
  = (fail 400 "Only 5 items in stock", Sample.store) ∧
  addToCart Sample.store 1 (VNum 1) Sample.no_primitive
  = (crash, Sample.store) ∧
  PrimFloat.leb 3 (Product.stock Sample.laptop) = true ∧
  addToCart Sample.with_cart 1 (VNum 1) (VNum 3)
  = (reply 200 (Some "Laptop added to cart") (CartItems [line]), s2) ∧
  ∃ c, find_user s2 1 = Some (0, User.set_cart c Sample.al) ∧
       deref (heap s2) c = [line].
Proof.
  intros line s2. split_and!.
  - destruct (addToCart_checks_then_merges Sample.store 1 (VNum 1) VUndefined)
      as (Hmissing & _).
    apply Hmissing. by right.
  - destruct (addToCart_checks_then_merges Sample.store 1 (VNum 9) (VNum 1))
      as (_ & Hunknown & _).
    apply Hunknown; [reflexivity..|].
    intros p Hp. repeat (apply elem_of_cons in Hp as [->|Hp]); try reflexivity.
    by apply elem_of_nil in Hp.
  - destruct (addToCart_checks_then_merges Sample.store 1 (VNum 1) (VNum 6))
      as (_ & _ & Hfound & _).
    destruct (Hfound 0 Sample.laptop eq_refl eq_refl eq_refl)
      as (_ & Hover & _).
    by apply (Hover 6%float).
  - destruct (addToCart_checks_then_merges Sample.store 1 (VNum 1)
                Sample.no_primitive) as (_ & _ & Hfound & _).
    destruct (Hfound 0 Sample.laptop eq_refl eq_refl eq_refl)
      as (Hthrows & _).
    by apply Hthrows.
  - reflexivity.
  - destruct (addToCart_checks_then_merges Sample.store 1 (VNum 1) (VNum 2))
      as (_ & _ & _ & Htwice).
    apply (Htwice 1%float 0 Sample.laptop 0 Sample.al);
      [apply sample_wf | reflexivity..].
  - destruct (addToCart_checks_then_merges Sample.store 1 (VNum 1) (VNum 2))
      as (_ & _ & _ & Htwice).
    apply (Htwice 1%float 0 Sample.laptop 0 Sample.al);
      [apply sample_wf | reflexivity..].
Defined.

(** C4 on the sample store: the email of [al] is refused; the email
    ["a@x.com"] is registered twice; and so is "c@x.com", by two
    registrations that overlap. *)
Lemma register_repeats_emails_witness :
  let array := VArr [VStr "a@x.com"] in
  let created id username email :=
    reply 201 (Some "Registration successful! You can now login")
      (UserInfo id (VStr username) email) in
  let user id username email password now :=
    User.mk id (VStr username) email ("$2a$10$" ++ password) [] now in
  register Sample.store (VStr "cy") (VStr "a@x.com") (VStr "pw") 3%Z
  = (fail 400 "Email already registered", Sample.store) ∧
  (let s1 :=
     set_users [Sample.al; Sample.bo; user 3%float "cy" array "pw" 3%Z]
       Sample.store in
   let s2 :=
     set_users [Sample.al; Sample.bo; user 3%float "cy" array "pw" 3%Z;
                user 4%float "dy" array "pw2" 4%Z] Sample.store in
   register Sample.store (VStr "cy") array (VStr "pw") 3%Z
   = (created 3%float "cy" array, s1) ∧
   register s1 (VStr "dy") array (VStr "pw2") 4%Z
   = (created 4%float "dy" array, s2)) ∧
  (let email := VStr "c@x.com" in
   let s1 :=
     set_users [Sample.al; Sample.bo; user 3%float "cy" email "pw" 3%Z]
       Sample.store in
   let s2 :=
     set_users [Sample.al; Sample.bo; user 3%float "cy" email "pw" 3%Z;
                user 4%float "dy" email "pw2" 4%Z] Sample.store in
   handle Sample.store (PostRegisterAwait (VStr "cy") email (VStr "pw"))
   = (waiting, Sample.store) ∧
   handle Sample.store (PostRegisterAwait (VStr "dy") email (VStr "pw2"))
   = (waiting, Sample.store) ∧
   handle Sample.store (PostRegisterResume (VStr "cy") email (VStr "pw") 3%Z)
   = (created 3%float "cy" email, s1) ∧
   handle s1 (PostRegisterResume (VStr "dy") email (VStr "pw2") 4%Z)
   = (created 4%float "dy" email, s2)).
Proof.
  intros array created user.
  pose proof (λ email He,
    register_repeats_emails Sample.store email
      (VStr "cy") (VStr "pw") "$2a$10$pw" 3%Z
      (VStr "dy") (VStr "pw2") "$2a$10$pw2" 4%Z
      He eq_refl eq_refl eq_refl eq_refl eq_refl eq_refl) as Hreg.
  split_and!.
  - destruct (Hreg (VStr "a@x.com") eq_refl) as (Htaken & _ & _).
    apply Htaken. exists Sample.al. split; [left | reflexivity].
  - destruct (Hreg array eq_refl) as (_ & Harray & _).
    exact (Harray eq_refl).
  - destruct (Hreg (VStr "c@x.com") eq_refl) as (_ & _ & Hoverlap).
    apply Hoverlap.
    intros u Hu. repeat (apply elem_of_cons in Hu as [->|Hu]); try reflexivity.
    by apply elem_of_nil in Hu.
Defined.

(** C5 on the sample store: the password 12345, a number, with an email no
    user has and with the email of [al]; and the wrong password
    "hunter22". *)
Lemma login_failures_witness :
  login Sample.store (VStr "zz@x.com") (VNum 12345)
  = (fail 400 "Invalid email or password", Sample.store) ∧
  login Sample.store (VStr "a@x.com") (VNum 12345)
  = (fail 500 "Server error", Sample.store) ∧
  login Sample.store (VStr "zz@x.com") (VStr "hunter22")
  = (fail 400 "Invalid email or password", Sample.store) ∧
  login Sample.store (VStr "a@x.com") (VStr "hunter22")
  = (fail 400 "Invalid email or password", Sample.store).
Proof.
  assert (∀ u, u ∈ users Sample.store →
               strict_eq (User.email u) (VStr "zz@x.com") = false) as Habsent.
  { intros u Hu. repeat (apply elem_of_cons in Hu as [->|Hu]); try reflexivity.
    by apply elem_of_nil in Hu. }
  destruct (login_failures Sample.store (VStr "zz@x.com") (VStr "a@x.com")
              (VNum 12345) 0 Sample.al eq_refl eq_refl eq_refl Habsent eq_refl)
    as (Hunknown & _ & Hrejected).
  destruct (login_failures Sample.store (VStr "zz@x.com") (VStr "a@x.com")
              (VStr "hunter22") 0 Sample.al eq_refl eq_refl eq_refl Habsent
              eq_refl)
    as (Hunknown' & Hwrong & _).
  split_and!; [done | by apply Hrejected | done | by apply Hwrong].
Defined.

(** C6 on the sample store: [bo] asks for the order of [al]. *)
Lemma orders_are_private_witness :
  Order.userId <$> orders Sample.with_order = [1%float] ∧
  listOrders Sample.with_order 2 = (reply 200 None (OrderList 0 []),
                                    Sample.with_order) ∧
  getOrder Sample.with_order 2 "1"
  = (fail 404 "Order not found", Sample.with_order).
Proof.
  split; [reflexivity|]. split; [reflexivity|].
  destruct (orders_are_private Sample.with_order 2) as (_ & Hforeign & _).
  apply Hforeign. intros o Ho _.
  repeat (apply elem_of_cons in Ho as [->|Ho]); try reflexivity.
  by apply elem_of_nil in Ho.
Defined.

(** C7 on the sample store: the two laptops of the cart become nine, with
    five in stock; and they become the string "many" as well. *)
Lemma updateCartItem_sets_quantity_witness :
  let line := CartItem.mk (VNum 1) "Laptop" 999.99 (VNum 2) in
  let nine := CartItem.mk (VNum 1) "Laptop" 999.99 (VNum 9) in
  let many := CartItem.mk (VNum 1) "Laptop" 999.99 (VStr "many") in
  deref (heap Sample.with_cart) [0] = [line] ∧
  find_user Sample.with_cart 1 = Some (0, User.set_cart [0] Sample.al) ∧
  updateCartItem Sample.with_cart 1 "2" (VNum 9)
  = (fail 404 "Item not in cart", Sample.with_cart) ∧
  (∃ s' c,
     updateCartItem Sample.with_cart 1 "1" (VNum 9)
     = (reply 200 (Some "Cart updated") (CartItems [nine]), s') ∧
     find_user s' 1 = Some (0, User.set_cart c Sample.al) ∧
     deref (heap s') c = [nine] ∧
     products s' = [Sample.laptop; Sample.mouse]) ∧
  (∃ s' c,
     updateCartItem Sample.with_cart 1 "1" (VStr "many")
     = (reply 200 (Some "Cart updated") (CartItems [many]), s') ∧
     find_user s' 1 = Some (0, User.set_cart c Sample.al) ∧
     deref (heap s') c = [many]) ∧
  (∃ s' c,
     updateCartItem Sample.with_cart 1 "1" (VNum 0)
     = (reply 200 (Some "Item removed from cart") (CartItems []), s') ∧
     find_user s' 1 = Some (0, User.set_cart c Sample.al) ∧
     deref (heap s') c = []).
Proof.
  intros line nine many. split; [reflexivity|]. split; [reflexivity|].
  split_and!.
  - apply (updateCartItem_sets_quantity Sample.with_cart 1 "2" (VNum 9) 0
             (User.set_cart [0] Sample.al) eq_refl).
    intros l Hl. repeat (apply elem_of_cons in Hl as [->|Hl]); try reflexivity.
    by apply elem_of_nil in Hl.
  - destruct (updateCartItem_sets_quantity Sample.with_cart 1 "1" (VNum 9) 0
                (User.set_cart [0] Sample.al) eq_refl) as [_ Hset].
    destruct (Hset 0 line sample_with_cart_wf eq_refl)
      as (lines' & s' & c & Hr & Hu & Hd & Hp & ->).
    by exists s', c.
  - destruct (updateCartItem_sets_quantity Sample.with_cart 1 "1"
                (VStr "many") 0 (User.set_cart [0] Sample.al) eq_refl)
      as [_ Hset].
    destruct (Hset 0 line sample_with_cart_wf eq_refl)
      as (lines' & s' & c & Hr & Hu & Hd & Hp & ->).
    by exists s', c.
  - destruct (updateCartItem_sets_quantity Sample.with_cart 1 "1" (VNum 0) 0
                (User.set_cart [0] Sample.al) eq_refl) as [_ Hset].
    destruct (Hset 0 line sample_with_cart_wf eq_refl)
      as (lines' & s' & c & Hr & Hu & Hd & Hp & ->).
    by exists s', c.
Defined.

(** C8 as the specification states it (a deep copy): checkout makes no
    copy of the lines.  The order refers to line 0, the object the cart
    referred to, and the heap of lines has not grown. *)
Lemma createOrder_shares_the_lines :
  User.cart <$> users Sample.with_cart = [[0]; []] ∧
  Order.items <$> orders Sample.with_order = [[0]] ∧
  length (heap Sample.with_order) = length (heap Sample.with_cart).
Proof. split_and!; reflexivity. Qed.

(** C8 on the sample store: the order of [al] through later requests of
    [al] and [bo]. *)
Lemma orders_are_immutable_witness :
  let reqs := [PostCart (Some 1%float) (VNum 1) (VNum 1);
               PutCart (Some 1%float) "1" (VNum 3);
               PostCart (Some 2%float) (VNum 1) (VNum 2);
               PostOrders (Some 2%float) 9%Z;
               DeleteCart (Some 1%float)] in
  ∃ o,
    orders Sample.with_order = [o] ∧
    Order.items o = [0] ∧ Order.status o = "pending" ∧
    find_user Sample.with_order 1 = Some (0, Sample.al) ∧
    orders (run Sample.with_order reqs) !! 0 = Some o ∧
    oj_items (order_json (heap (run Sample.with_order reqs)) o)
    = [CartItem.mk (VNum 1) "Laptop" 999.99 (VNum 2)].
Proof.
  intros reqs.
  destruct (orders_are_immutable Sample.with_cart sample_with_cart_wf)
    as (_ & _ & Hcheckout).
  destruct (Hcheckout 1%float 7%Z 0 (User.set_cart [0] Sample.al) eq_refl)
    as (o & Horders & Hitems & Hstatus & Huser & Hlater); [reflexivity|].
  exists o. destruct (Hlater reqs) as [Hkeep Hlines].
  split_and!; done.
Defined.

(** C9 on the sample store: a quantity over the stock. *)
Lemma error_response_is_atomic_witness :
  status (handle Sample.store (PostCart (Some 1%float) (VNum 1) (VNum 6))).1
  = 400 ∧
  (handle Sample.store (PostCart (Some 1%float) (VNum 1) (VNum 6))).2
  = Sample.store.
Proof.
  split; [reflexivity|].
  apply (error_response_is_atomic Sample.store
           (PostCart (Some 1%float) (VNum 1) (VNum 6))
           (handle Sample.store (PostCart (Some 1%float) (VNum 1) (VNum 6))).1).
  - apply surjective_pairing.
  - right. left. reflexivity.
Defined.

(** C10 on the sample store: the cart requests of [al]. *)
Lemma cart_requests_change_one_cart_witness :
  find_user Sample.with_cart 1 = Some (0, User.set_cart [0] Sample.al) ∧
  (getCart Sample.with_cart 1).2 = Sample.with_cart ∧
  ∀ op, cart_only 0 Sample.with_cart
          (handle Sample.with_cart (cart_request 1 op)).2.
Proof.
  split; [reflexivity|].
  apply (cart_requests_change_one_cart Sample.with_cart 1 0
           (User.set_cart [0] Sample.al) sample_with_cart_wf eq_refl).
Defined.

(** Conversions of arrays and objects, with the sample host. *)
Example conversions_sample :
  ToString (VArr [VNum 5; VNull; VStr "a"; VArr [VNum 1; VNum 2]])
  = Some "5,,a,1,2" ∧
  ToNumber (VArr [VNum 5]) = Some 5%float ∧
  ToNumber (VArr []) = Some 0%float ∧
  ToString (VObj [("a", VNum 1)]%string) = Some "[object Object]" ∧
  ToNumber Sample.no_primitive = None ∧
  js_add (VNum 2) (VArr [VNum 3]) = Some (VStr "23").
Proof. split_and!; reflexivity. Qed.

(** An array as quantity: [[2]] passes the stock check as the number 2, is
    stored as it is and counts as 2 in the total; adding 3 then joins the
    strings "2" and "3". *)
Example array_quantity_sample :
  let s1 := (addToCart Sample.store 1 (VNum 1) (VArr [VNum 2])).2 in
  let s2 := (addToCart s1 1 (VNum 1) (VNum 3)).2 in
  (getCart s1 1).1
  = reply 200 None
      (CartView 1 "1999.98"
         [CartItem.mk (VNum 1) "Laptop" 999.99 (VArr [VNum 2])]) ∧
  (getCart s2 1).1
  = reply 200 None
      (CartView 1 "22999.77"
         [CartItem.mk (VNum 1) "Laptop" 999.99 (VStr "23")]).
Proof. split; vm_compute; reflexivity. Qed.

(** The stock has no floor: nine laptops ordered with five in stock. *)
Example stock_goes_negative :
  let s := (updateCartItem Sample.with_cart 1 "1" (VNum 9)).2 in
  Product.stock <$> products (createOrder s 1 7%Z).2 = [(-4)%float; 50%float].
Proof. vm_compute. reflexivity. Qed.
End Instances.

(** * Further properties of the handlers *)

(** ** Removing lines and clearing the cart *)

Section Removing.
Context `{Host}.

Lemma js_find_filter_out {A} (f : A → bool) l :
  js_find f (List.filter (λ x, negb (f x)) l) = None.
Proof.
  apply js_find_None. intros x Hx.
  apply list_elem_of_In, filter_In in Hx as [_ Hx]. by apply negb_true_iff.
Qed.

(** X1: a PUT whose quantity is [=== 0] is the DELETE of that line, in
    the response and in the store, on every store. *)
Theorem updateCartItem_zero_is_remove s uid param quantity :
  strict_eq quantity (VNum 0) = true →
  updateCartItem s uid param quantity = removeCartItem s uid param.
Proof.
  intros Hzero. unfold updateCartItem, removeCartItem.
  destruct (find_user s uid) as [[i user]|]; [|done].
  destruct (find_item _ _ _) as [[k l]|]; [|done]. by rewrite Hzero.
Qed.

(** X2: for a user the token finds, [removeCartItem] answers 404 and
    changes nothing when no line has the product id of the path;
    otherwise it answers 200 with the cart without the lines of that
    product, the other lines in their order, touches neither products nor
    orders nor lines, and the same request sent again is answered 404. *)
Theorem removeCartItem_removes s uid param i user :
  find_user s uid = Some (i, user) →
  let productId := VNum (parseInt param) in
  let lines := deref (heap s) (User.cart user) in
  ((∀ line, line ∈ lines →
      strict_eq (CartItem.productId line) productId = false) →
   removeCartItem s uid param = (fail 404 "Item not in cart", s)) ∧
  (∀ line, line ∈ lines →
   strict_eq (CartItem.productId line) productId = true →
   let lines' :=
     List.filter
       (λ item, negb (strict_eq (CartItem.productId item) productId)) lines in
   ∃ s' c,
     removeCartItem s uid param
     = (reply 200 (Some "Item removed from cart") (CartItems lines'), s') ∧
     find_user s' uid = Some (i, User.set_cart c user) ∧
     deref (heap s') c = lines' ∧
     products s' = products s ∧ orders s' = orders s ∧ heap s' = heap s ∧
     removeCartItem s' uid param = (fail 404 "Item not in cart", s')).
Proof.
  intros Hu productId lines. subst lines. split.
  - intros Hnone%js_find_None. rewrite find_item_deref in Hnone.
    apply fmap_None in Hnone. unfold removeCartItem. fold productId.
    by rewrite Hu, Hnone.
  - intros line Hin Hline lines'. subst lines'.
    destruct (js_find_is_Some
                (λ item, strict_eq (CartItem.productId item) productId)
                _ line Hin Hline) as (k & line0 & Hfind).
    rewrite find_item_deref in Hfind.
    destruct (find_item (heap s) productId (User.cart user)) as [[k' l]|]
      eqn:Hitem; [|done].
    pose proof (deref_filter
                  (λ item, negb (strict_eq (CartItem.productId item) productId))
                  (heap s) (User.cart user)) as Hd.
    exists (set_cart_of i (drop_item (heap s) productId (User.cart user)) s),
      (drop_item (heap s) productId (User.cart user)).
    split_and!; try done.
    + unfold removeCartItem. fold productId. rewrite Hu, Hitem.
      unfold drop_item. by rewrite Hd.
    + by apply find_user_set_cart_of.
    + unfold removeCartItem. fold productId.
      rewrite (find_user_set_cart_of s uid i user _ Hu). simpl.
      unfold find_item, drop_item.
      by rewrite (js_find_filter_out
                    (λ l, strict_eq (CartItem.productId (heap s !!! l))
                            productId)).
Qed.

(** X3: for a user the token finds, [clearCart] answers 200 and leaves the
    user with an empty cart and everything else as it was; [getCart] then
    shows no item and the total of nothing, [createOrder] answers 400, and
    clearing again changes nothing. *)
Theorem clearCart_empties s uid i user :
  find_user s uid = Some (i, user) →
  let s' := (clearCart s uid).2 in
  clearCart s uid = (reply 200 (Some "Cart cleared") NoData, s') ∧
  find_user s' uid = Some (i, User.set_cart [] user) ∧
  products s' = products s ∧ orders s' = orders s ∧ heap s' = heap s ∧
  (∀ j u, j ≠ i → users s' !! j = Some u ↔ users s !! j = Some u) ∧
  getCart s' uid
  = (reply 200 None (CartView 0 (toFixed2 0) []), s') ∧
  (∀ now,
     createOrder s' uid now = (fail 400 "Your cart is empty", s')) ∧
  (clearCart s' uid).2 = s'.
Proof.
  intros Hu s'. subst s'.
  assert (clearCart s uid
          = (reply 200 (Some "Cart cleared") NoData, set_cart_of i [] s)) as ->.
  { unfold clearCart. by rewrite Hu. }
  simpl.
  pose proof (find_user_set_cart_of s uid i user [] Hu) as Hu'.
  split_and!; try done.
  - intros j u Hj. simpl. by rewrite list_lookup_alter_ne.
  - unfold getCart. by rewrite Hu'.
  - intros now. unfold createOrder. by rewrite Hu'.
  - unfold clearCart. rewrite Hu'. unfold set_cart_of, set_users. simpl.
    f_equal. rewrite list_alter_alter_eq. by apply list_alter_ext.
Qed.
End Removing.

(** ** Ids that are not numbers *)

Lemma SFcompare_Eq_refl a b : SFcompare a b = Some Eq → SFcompare b b = Some Eq.
Proof.
  destruct a as [[]|[]| |[] m1 e1], b as [[]|[]| |[] m2 e2]; simpl; try done;
    intros _; rewrite Z.compare_refl;
    change (PosDef.Pos.compare_cont Eq m2 m2) with (Pos.compare m2 m2);
    by rewrite Pos.compare_refl.
Qed.

(** Nothing is [===] to NaN. *)
Lemma float_eqb_nan x y : PrimFloat.is_nan y = true → PrimFloat.eqb x y = false.
Proof.
  unfold PrimFloat.is_nan. rewrite !FloatAxioms.eqb_spec. unfold SFeqb.
  destruct (SFcompare (Prim2SF x) (Prim2SF y)) as [[]|] eqn:Hxy; try done.
  by rewrite (SFcompare_Eq_refl _ _ Hxy).
Qed.

Lemma strict_eq_nan v y : PrimFloat.is_nan y = true → strict_eq v (VNum y) = false.
Proof. intros Hy. destruct v; simpl; try done. by apply float_eqb_nan. Qed.

Section NotANumber.
Context `{Host}.

(** X4: when [parseInt] of the path segment is NaN, the routes with an id
    in the path answer 404 and change nothing: [getProduct] and [getOrder]
    always, [updateCartItem] and [removeCartItem] for a user the token
    finds. *)
Theorem nan_id_is_not_found s uid id :
  PrimFloat.is_nan (parseInt id) = true →
  getProduct s id = (fail 404 "Product not found", s) ∧
  getOrder s uid id = (fail 404 "Order not found", s) ∧
  (∀ i user quantity,
     find_user s uid = Some (i, user) →
     updateCartItem s uid id quantity = (fail 404 "Item not in cart", s) ∧
     removeCartItem s uid id = (fail 404 "Item not in cart", s)).
Proof.
  intros Hnan. split_and!.
  - unfold getProduct.
    replace (js_find _ (products s)) with (@None (nat * Product.t)); [done|].
    symmetry. apply js_find_None. intros p _. by apply float_eqb_nan.
  - unfold getOrder.
    replace (js_find _ (orders s)) with (@None (nat * Order.t)); [done|].
    symmetry. apply js_find_None. intros o _.
    by rewrite (float_eqb_nan _ _ Hnan).
  - intros i user quantity Hu.
    assert (find_item (heap s) (VNum (parseInt id)) (User.cart user) = None)
      as Hnone.
    { apply js_find_None. intros l _. by apply strict_eq_nan. }
    unfold updateCartItem, removeCartItem. by rewrite Hu, Hnone.
Qed.
End NotANumber.

(** ** The tables only grow *)

Lemma effect_orders_grow s s' : effect s s' → orders s `prefix_of` orders s'.
Proof.
  intros [|i u s'' Hi [|l q Hl|item|c Hc]|u Hc|i u o ps Hi Ho];
    simpl; try done.
  by apply prefix_app_r.
Qed.

Section Growing.
Context `{Host}.

(** X5: no request removes, moves or rewrites a user or an order: after
    any requests every user is at its place with its id, username, email,
    password hash and creation date (the cart alone may differ), and the
    orders of before are the first orders of the table, unchanged. *)
Theorem tables_only_grow s reqs :
  (∀ i u, users s !! i = Some u →
     ∃ c, users (run s reqs) !! i = Some (User.set_cart c u)) ∧
  length (users s) ≤ length (users (run s reqs)) ∧
  orders s `prefix_of` orders (run s reqs).
Proof.
  split_and!.
  - apply run_keeps_users.
  - destruct (decide (length (users s) ≤ length (users (run s reqs))))
      as [|Hlt]; [done|].
    destruct (lookup_lt_is_Some_2 (users s) (length (users (run s reqs))))
      as [u Hu]; [lia|].
    destruct (run_keeps_users s reqs _ _ Hu) as [c Hc].
    apply lookup_lt_Some in Hc. lia.
  - revert s. induction reqs as [|req reqs IH]; intros s; [done|].
    rewrite run_cons. etrans; [|apply IH].
    apply effect_orders_grow, handle_effect.
Qed.
End Growing.

(** ** Orders after a checkout *)

Section Listing.
Context `{Host}.

(** X7: after a checkout answered 201, [listOrders] shows the requesting
    user what it showed before followed by the order of the response, and
    shows every user whose id is not [===] the user's what it showed
    before. *)
Theorem listOrders_after_createOrder s uid now i user :
  find_user s uid = Some (i, user) →
  status (createOrder s uid now).1 = 201 →
  ∃ o s',
    createOrder s uid now
    = (reply 201 (Some "Order placed successfully! 🎉") (OrderData o), s') ∧
    PrimFloat.eqb (User.id user) uid = true ∧
    ∀ uid', ∃ before,
      listOrders s uid'
      = (reply 200 None (OrderList (length before) before), s) ∧
      listOrders s' uid'
      = (let after :=
           before ++ (if PrimFloat.eqb (User.id user) uid' then [o] else []) in
         (reply 200 None (OrderList (length after) after), s')).
Proof.
  intros Hu H201.
  destruct (createOrder_created s uid now i user Hu H201)
    as (total & _ & _ & ->). cbv zeta.
  eexists _, _. split; [done|]. split; [by apply js_find_true in Hu|].
  intros uid'.
  exists (order_json (heap s)
            <$> List.filter (λ o, PrimFloat.eqb (Order.userId o) uid') (orders s)).
  split.
  - unfold listOrders. by rewrite length_fmap.
  - unfold listOrders. simpl. rewrite List.filter_app. simpl.
    destruct (PrimFloat.eqb (User.id user) uid'); simpl;
      by rewrite fmap_app, !length_app, !length_fmap.
Qed.
End Listing.

(** ** Every request is one of the listed writes *)

Section Writes.
Context `{Host}.

Lemma handle_change s req : change s (handle s req).2.
Proof.
  destruct req as [| username email password now | username email password
    | username email password now | | | | | [uid|] | [uid|] ? ?
    | [uid|] ? ? | [uid|] ? | [uid|] | [uid|] now | [uid|] | [uid|] ?];
    simpl; try apply ch_none.
  - unfold register, register_resume.
    repeat case_match; simplify_eq/=; try apply ch_none.
    by apply ch_register.
  - unfold register_resume.
    repeat case_match; simplify_eq/=; try apply ch_none.
    by apply ch_register.
  - unfold login. repeat case_match; simplify_eq/=; apply ch_none.
  - unfold getProduct. repeat case_match; simplify_eq/=; apply ch_none.
  - rewrite getCart_effect. apply ch_none.
  - unfold addToCart. repeat case_match; simplify_eq/=; try apply ch_none.
    + match goal with
      | Hu : find_user _ _ = Some (?i, ?u),
        Hi : find_item _ _ _ = Some (?k, ?l) |- _ =>
        apply (ch_quantity s i u k l);
          [by eapply find_user_lookup | by eapply js_find_lookup]
      end.
    + match goal with
      | Hu : find_user _ _ = Some (?i, ?u),
        Hp : js_find _ (products s) = Some (?j, ?p) |- _ =>
        apply (ch_push s i u _ j p); [by eapply find_user_lookup|done..]
      end.
  - unfold updateCartItem. repeat case_match; simplify_eq/=; try apply ch_none.
    + match goal with
      | Hu : find_user _ _ = Some (?i, ?u) |- _ =>
        apply (ch_filter s i u); by eapply find_user_lookup
      end.
    + match goal with
      | Hu : find_user _ _ = Some (?i, ?u),
        Hi : find_item _ _ _ = Some (?k, ?l) |- _ =>
        apply (ch_quantity s i u k l);
          [by eapply find_user_lookup | by eapply js_find_lookup]
      end.
  - unfold removeCartItem. repeat case_match; simplify_eq/=; try apply ch_none.
    match goal with
    | Hu : find_user _ _ = Some (?i, ?u) |- _ =>
      apply (ch_filter s i u); by eapply find_user_lookup
    end.
  - unfold clearCart. repeat case_match; simplify_eq/=; try apply ch_none.
    match goal with
    | Hu : find_user _ _ = Some (?i, ?u) |- _ =>
      apply (ch_clear s i u); by eapply find_user_lookup
    end.
  - destruct (find_user s uid) as [[i u]|] eqn:Hu.
    2:{ destruct (no_user_no_effect s uid Hu) as (_ & _ & _ & _ & ->).
        apply ch_none. }
    destruct (decide (User.cart u = [])) as [Hc|Hc].
    { unfold createOrder. rewrite Hu, Hc. apply ch_none. }
    pose proof (createOrder_found s uid now i u Hu Hc) as Hfound.
    destruct (cart_total _ _) as [total|]; [|rewrite Hfound; apply ch_none].
    destruct Hfound as [-> Hend]. simpl.
    apply (ch_checkout s i u); try done. by eapply find_user_lookup.
  - unfold getOrder. repeat case_match; simplify_eq/=; apply ch_none.
Qed.

(** A property every write keeps holds after any requests. *)
Lemma run_change_ind (P : Store → Prop) :
  (∀ s s', P s → change s s' → P s') →
  ∀ s reqs, P s → P (run s reqs).
Proof.
  intros Hstep s reqs. revert s.
  induction reqs as [|req reqs IH]; intros s Hs; [done|].
  rewrite run_cons. apply IH. eapply Hstep; [done | apply handle_change].
Qed.

(** The same for a property that needs a well-formed store. *)
Lemma run_change_wf_ind (P : Store → Prop) :
  (∀ s s', wf s → P s → change s s' → P s') →
  ∀ s reqs, wf s → P s → P (run s reqs).
Proof.
  intros Hstep s reqs. revert s.
  induction reqs as [|req reqs IH]; intros s Hwf Hs; [done|].
  rewrite run_cons. apply IH.
  - eapply effect_wf; [done | apply handle_effect].
  - eapply Hstep; [done..| apply handle_change].
Qed.
End Writes.

(** ** The catalog *)

Lemma js_find_fmap {A B} (f : A → B) (g : B → bool) l :
  js_find g (f <$> l) = prod_map id f <$> js_find (λ x, g (f x)) l.
Proof.
  induction l as [|x l IH]; [done|].
  rewrite fmap_cons. cbn [js_find].
  destruct (g (f x)); [done|]. rewrite IH.
  by destruct (js_find _ l) as [[k y]|].
Qed.

(** [find] by a test on [f x] finds at the same place in two lists with
    the same values of [f]. *)
Lemma js_find_same_image {A B} (f : A → B) (g : B → bool) l l' :
  f <$> l' = f <$> l →
  match js_find (λ x, g (f x)) l with
  | Some (i, x) => ∃ x', js_find (λ x, g (f x)) l' = Some (i, x') ∧ f x' = f x
  | None => js_find (λ x, g (f x)) l' = None
  end.
Proof.
  intros Heq. pose proof (js_find_fmap f g l) as Hl.
  pose proof (js_find_fmap f g l') as Hl'. rewrite Heq, Hl in Hl'.
  destruct (js_find (λ x, g (f x)) l) as [[i x]|],
    (js_find (λ x, g (f x)) l') as [[i' x']|]; simplify_eq/=; eauto.
Qed.

Section Catalog.
Context `{Host}.

Lemma take_stock_listing ps item ps' :
  take_stock ps item = Some ps' → listing <$> ps' = listing <$> ps.
Proof.
  unfold take_stock. destruct (js_find _ ps) as [[j p]|]; [|by intros [= <-]].
  intros (n & _ & [= <-])%bind_Some.
  rewrite (list_fmap_alter listing _ id).
  - by apply list_alter_id.
  - by apply Forall_forall.
Qed.

Lemma take_stocks_listing items ps :
  listing <$> (take_stocks ps items).1 = listing <$> ps.
Proof.
  revert ps. induction items as [|item items IH]; intros ps; simpl; [done|].
  destruct (take_stock ps item) as [ps'|] eqn:Hps; [|done].
  rewrite IH. by eapply take_stock_listing.
Qed.

Lemma change_listing s s' :
  change s s' → listing <$> products s' = listing <$> products s.
Proof.
  intros [|i u k l q Hi Hk|i u pid j p q Hi Hp Hnone|i u pid Hi|i u Hi
          |u Hc Hid|i u o Hi Hne Ho Hid Huid Hend]; simpl; try done.
  apply take_stocks_listing.
Qed.

Lemma run_listing s reqs :
  listing <$> products (run s reqs) = listing <$> products s.
Proof.
  apply (run_change_ind
           (λ s', listing <$> products s' = listing <$> products s)); [|done].
  intros s1 s2 Hs1 Hch. by rewrite (change_listing _ _ Hch).
Qed.

(** The product an id names keeps its place, name and price when only
    stocks change. *)
Lemma product_of_listing ps ps' productId j p :
  listing <$> ps' = listing <$> ps →
  product_of ps productId = Some (j, p) →
  ∃ p', product_of ps' productId = Some (j, p') ∧ listing p' = listing p.
Proof.
  intros Heq Hp.
  pose proof (js_find_same_image listing
                (λ t, strict_eq (VNum t.1.1.1.1) productId) ps ps' Heq) as Hsame.
  change (match product_of ps productId with
          | Some (i, x) =>
            ∃ x', product_of ps' productId = Some (i, x') ∧ listing x' = listing x
          | None => product_of ps' productId = None
          end) in Hsame.
  by rewrite Hp in Hsame.
Qed.

(** X8: no request adds, removes or moves a product or changes its id,
    name, category, description or price; only the stock can differ.  So
    [getProduct] answers 404 after any requests exactly when it did
    before, and otherwise returns a product with the same listing. *)
Theorem catalog_is_static s reqs :
  let s' := run s reqs in
  listing <$> products s' = listing <$> products s ∧
  length (products s') = length (products s) ∧
  (∀ id,
     getProduct s id = (fail 404 "Product not found", s) ↔
     getProduct s' id = (fail 404 "Product not found", s')) ∧
  (∀ id p,
     getProduct s id = (reply 200 None (ProductData p), s) →
     ∃ p', getProduct s' id = (reply 200 None (ProductData p'), s') ∧
           listing p' = listing p).
Proof.
  intros s'. subst s'. pose proof (run_listing s reqs) as Heq.
  assert (∀ id,
    match js_find (λ p, PrimFloat.eqb (Product.id p) (parseInt id))
            (products s) with
    | Some (i, x) =>
      ∃ x', js_find (λ p, PrimFloat.eqb (Product.id p) (parseInt id))
              (products (run s reqs)) = Some (i, x') ∧ listing x' = listing x
    | None => js_find (λ p, PrimFloat.eqb (Product.id p) (parseInt id))
                (products (run s reqs)) = None
    end) as Hfind.
  { intros id.
    apply (js_find_same_image listing
             (λ t, PrimFloat.eqb t.1.1.1.1 (parseInt id)) _ _ Heq). }
  split_and!.
  - done.
  - by rewrite <- (length_fmap listing), Heq, length_fmap.
  - intros id. specialize (Hfind id). unfold getProduct.
    destruct (js_find _ (products s)) as [[i x]|].
    + destruct Hfind as (x' & -> & _). done.
    + by rewrite Hfind.
  - intros id p. specialize (Hfind id). unfold getProduct.
    destruct (js_find _ (products s)) as [[i x]|]; [|done].
    destruct Hfind as (x' & -> & Hx). intros [= <-]. eauto.
Qed.

Lemma change_lines_follow_catalog s s' :
  lines_follow_catalog s → change s s' → lines_follow_catalog s'.
Proof.
  intros Hinv Hch.
  destruct Hch as [|i u k l q Hi Hk|i u pid j p q Hi Hp Hnone|i u pid Hi|i u Hi
                   |u Hc Hid|i u o Hi Hne Ho Hid Huid Hend]; try done.
  - intros item [n Hn]%list_elem_of_lookup. simpl in *.
    apply list_lookup_insert_Some in Hn as [(Heq & <- & Hlt)|[Hne Hn]].
    + subst n. destruct (lookup_lt_is_Some_2 (heap s) l Hlt) as [x Hx].
      rewrite (list_lookup_total_correct _ _ _ Hx).
      apply (Hinv x). by eapply list_elem_of_lookup_2.
    + apply Hinv. by eapply list_elem_of_lookup_2.
  - intros item [Hin|Hin]%elem_of_app; simpl in *.
    + by apply Hinv.
    + apply list_elem_of_singleton in Hin as ->. simpl. eauto.
  - intros item Hin. simpl in *.
    destruct (Hinv item Hin) as (j & p & Hp & Hname & Hprice).
    destruct (product_of_listing (products s)
                (take_stocks (products s) (deref (heap s) (User.cart u))).1
                (CartItem.productId item) j p) as (p' & Hp' & Hl);
      [apply take_stocks_listing | done |].
    exists j, p'. unfold listing in Hl. simplify_eq. split_and!; [done|congruence..].
Qed.

(** X9: in a store reached from one with no line (or whose lines follow
    the catalog), every line [getCart] shows has the name and the price
    that the first product with the line's id has in the catalog now. *)
Theorem cart_lines_follow_catalog s reqs uid i u :
  wf s → lines_follow_catalog s →
  let s' := run s reqs in
  find_user s' uid = Some (i, u) →
  ∀ line, line ∈ deref (heap s') (User.cart u) →
    ∃ j p, product_of (products s') (CartItem.productId line) = Some (j, p) ∧
           CartItem.name line = Product.name p ∧
           CartItem.price line = Product.price p.
Proof.
  intros Hwf Hinv s' Hu line Hline. subst s'.
  pose proof (run_wf s reqs Hwf) as Hwf'.
  pose proof (run_change_ind lines_follow_catalog change_lines_follow_catalog
                s reqs Hinv) as Hinv'.
  apply find_user_lookup in Hu.
  destruct (wf_cart _ i u Hwf' Hu) as [_ Hal].
  apply list_elem_of_fmap in Hline as (l & -> & Hl).
  rewrite Forall_forall in Hal. apply Hal in Hl.
  apply Hinv'. apply list_elem_of_lookup_total. eauto.
Qed.

Lemma change_sequential_ids s s' :
  sequential_ids s → change s s' → sequential_ids s'.
Proof.
  intros [Hus Hos] Hch.
  assert (∀ k c n v, alter (User.set_cart c) k (users s) !! n = Some v →
                     User.id v = PrimFloat.add (of_nat n) 1) as Halt.
  { intros k c n v. destruct (decide (k = n)) as [->|Hkn].
    - rewrite list_lookup_alter_eq.
      destruct (users s !! n) as [w|] eqn:Hw; [|done].
      intros [= <-]. simpl. by eapply Hus.
    - rewrite list_lookup_alter_ne by done. apply Hus. }
  destruct Hch as [|i u k l q Hi Hk|i u pid j p q Hi Hp Hnone|i u pid Hi|i u Hi
                   |u Hc Hid|i u o Hi Hne Ho Hid Huid Hend];
    try done; split; simpl; try done; try apply Halt.
  - intros n v [[Hn Hv]|[-> <-]]%lookup_snoc_Some; [by apply Hus | done].
  - intros n v [[Hn Hv]|[-> <-]]%lookup_snoc_Some; [by apply Hos | done].
Qed.

(** X10: users and orders are numbered by their place: if the user at
    index i has id i + 1 and the order at index k has id k + 1 (as with
    empty tables), this is so after any requests. *)
Theorem ids_stay_sequential s reqs :
  sequential_ids s → sequential_ids (run s reqs).
Proof. apply run_change_ind, change_sequential_ids. Qed.
End Catalog.

(** ** One line per product *)

Lemma SFcompare_Eq_inv a b :
  SFcompare a b = Some Eq →
  a = b ∨ ∃ s1 s2, a = S754_zero s1 ∧ b = S754_zero s2.
Proof.
  destruct a as [[]|[]| |[] m1 e1], b as [[]|[]| |[] m2 e2]; simpl;
    try done; eauto.
  - destruct (e1 ?= e2)%Z eqn:He; try done.
    apply Z.compare_eq in He as ->. intros [= Hm]. left.
    change (PosDef.Pos.compare_cont Eq m1 m2) with (Pos.compare m1 m2) in Hm.
    destruct (m1 ?= m2)%positive eqn:Hm'; try done.
    by apply Pos.compare_eq in Hm' as ->.
  - destruct (e1 ?= e2)%Z eqn:He; try done.
    apply Z.compare_eq in He as ->. intros [= Hm]. left.
    change (PosDef.Pos.compare_cont Eq m1 m2) with (Pos.compare m1 m2) in Hm.
    by apply Pos.compare_eq in Hm as ->.
Qed.

(** Two numbers [===] to a third are [===] to each other. *)
Lemma float_eqb_trans_l x y z :
  PrimFloat.eqb x y = true → PrimFloat.eqb x z = true →
  PrimFloat.eqb y z = true.
Proof.
  rewrite !FloatAxioms.eqb_spec. unfold SFeqb.
  destruct (SFcompare (Prim2SF x) (Prim2SF y)) as [[]|] eqn:Hxy; try done.
  destruct (SFcompare (Prim2SF x) (Prim2SF z)) as [[]|] eqn:Hxz; try done.
  intros _ _.
  apply SFcompare_Eq_inv in Hxy as [Hxy|(s1 & s2 & Hx & Hy)].
  - rewrite <- Hxy. by rewrite Hxz.
  - apply SFcompare_Eq_inv in Hxz as [Hxz|(s3 & s4 & Hx' & Hz)].
    + rewrite <- Hxz, Hx, Hy. done.
    + by rewrite Hy, Hz.
Qed.

Lemma strict_eq_trans_l x a b :
  strict_eq (VNum x) a = true → strict_eq (VNum x) b = true →
  strict_eq a b = true.
Proof. destruct a, b; simpl; try done. apply float_eqb_trans_l. Qed.

Section OrdPairs.
Context {A : Type} (R : A → A → Prop).

Lemma ForallOrdPairs_sublist l1 l2 :
  sublist l1 l2 → ForallOrdPairs R l2 → ForallOrdPairs R l1.
Proof.
  induction 1 as [|x l1 l2 Hsub IH|x l1 l2 Hsub IH]; intros Hl2.
  - constructor.
  - inversion Hl2 as [|? ? Hx Hrest]; subst. constructor; [|by apply IH].
    rewrite Forall_forall in *. intros y Hy. apply Hx.
    by eapply elem_of_sublist.
  - inversion Hl2; subst. by apply IH.
Qed.

Lemma ForallOrdPairs_snoc l x :
  ForallOrdPairs R l → Forall (λ a, R a x) l → ForallOrdPairs R (l ++ [x]).
Proof.
  induction 1 as [|a l Ha Hl IH]; intros Hx; simpl.
  - repeat constructor.
  - inversion Hx; subst. constructor; [|by apply IH].
    apply Forall_app. split; [done|]. by constructor.
Qed.

(** Of pairwise unrelated elements at most one passes a test that relates
    any two that pass it. *)
Lemma ForallOrdPairs_filter_one (f : A → bool) l :
  (∀ a b, f a = true → f b = true → ¬ R a b) →
  ForallOrdPairs R l →
  List.filter f l = [] ∨ ∃ a, a ∈ l ∧ f a = true ∧ List.filter f l = [a].
Proof.
  intros Hf. induction 1 as [|a l Ha Hl IH]; simpl; [by left|].
  destruct (f a) eqn:Hfa.
  - right. exists a. split_and!; [left | done |]. f_equal.
    assert (∀ b, b ∈ l → f b = false) as Hnone.
    { intros b Hb. destruct (f b) eqn:Hfb; [|done].
      rewrite Forall_forall in Ha. destruct (Hf a b Hfa Hfb). by apply Ha. }
    clear -Hnone. induction l as [|b l IH]; simpl; [done|].
    rewrite (Hnone b) by left. apply IH. intros c Hc. apply Hnone. by right.
  - destruct IH as [IH|(b & Hb & Hfb & IH)]; [by left|].
    right. exists b. split_and!; [by right | done..].
Qed.
End OrdPairs.

Lemma sublist_deref h c c' : sublist c c' → sublist (deref h c) (deref h c').
Proof.
  unfold deref. induction 1; simpl; [done| by apply sublist_skip
                                    | by apply sublist_cons].
Qed.

Lemma elem_of_alter {A} (f : A → A) i (l : list A) x :
  x ∈ alter f i l → x ∈ l ∨ ∃ y, l !! i = Some y ∧ x = f y.
Proof.
  intros [n Hn]%list_elem_of_lookup. destruct (decide (i = n)) as [->|Hne].
  - rewrite list_lookup_alter_eq in Hn.
    destruct (l !! n) as [y|] eqn:Hy; [|done]. injection Hn as <-. eauto.
  - rewrite list_lookup_alter_ne in Hn by done.
    left. by eapply list_elem_of_lookup_2.
Qed.

(** Writing a quantity changes the product id of no line. *)
Lemma productId_insert_quantity (h : list CartItem.t) (l : nat) q (l' : nat) :
  CartItem.productId (<[l := CartItem.set_quantity q (h !!! l)]> h !!! l')
  = CartItem.productId (h !!! l').
Proof.
  destruct (decide (l = l')) as [<-|Hne].
  - destruct (decide (l < length h)).
    + by rewrite list_lookup_total_insert_eq.
    + by rewrite list_insert_ge by lia.
  - by rewrite list_lookup_total_insert_ne.
Qed.

(** ** Adding again and again *)

Section Repeating.
Context `{Host}.

(** What an [addToCart] answered 200 has checked. *)
Lemma addToCart_200 s uid productId quantity :
  status (addToCart s uid productId quantity).1 = 200 →
  ∃ j product n i user,
    ToBoolean productId = true ∧ ToBoolean quantity = true ∧
    product_of (products s) productId = Some (j, product) ∧
    ToNumber quantity = Some n ∧
    PrimFloat.ltb (Product.stock product) n = false ∧
    find_user s uid = Some (i, user) ∧
    match find_item (heap s) productId (User.cart user) with
    | Some (_, l) =>
      is_Some (js_add (CartItem.quantity (heap s !!! l)) quantity)
    | None => True
    end.
Proof.
  unfold addToCart, product_of.
  destruct (negb (ToBoolean productId) || negb (ToBoolean quantity))
    eqn:Hprovided; [done|].
  apply provided_iff in Hprovided as [Hp Hq].
  destruct (js_find _ (products s)) as [[j product]|]; [|done].
  destruct (ToNumber quantity) as [n|]; [|done].
  destruct (PrimFloat.ltb (Product.stock product) n) eqn:Hlt; [done|].
  destruct (find_user s uid) as [[i user]|]; [|done].
  intros H200. exists j, product, n, i, user. split_and!; try done.
  destruct (find_item _ _ _) as [[k l]|]; [|done].
  destruct (js_add _ quantity); [eauto | done].
Qed.

(** [addToCart] past its checks. *)
Lemma addToCart_checked s uid productId quantity j product n :
  ToBoolean productId = true → ToBoolean quantity = true →
  js_find (λ p, strict_eq (VNum (Product.id p)) productId) (products s)
  = Some (j, product) →
  ToNumber quantity = Some n →
  PrimFloat.ltb (Product.stock product) n = false →
  addToCart s uid productId quantity
  = match find_user s uid with
    | None => (crash, s)
    | Some (i, user) =>
      match find_item (heap s) productId (User.cart user) with
      | Some (_, l) =>
        match js_add (CartItem.quantity (heap s !!! l)) quantity with
        | None => (crash, s)
        | Some sum =>
          let h := <[l := CartItem.set_quantity sum (heap s !!! l)]> (heap s) in
          (reply 200 (Some (Product.name product ++ " added to cart")%string)
             (CartItems (deref h (User.cart user))), set_heap h s)
        end
      | None =>
        let h :=
          heap s ++ [CartItem.mk productId (Product.name product)
                       (Product.price product) quantity] in
        let c := User.cart user ++ [length (heap s)] in
        (reply 200 (Some (Product.name product ++ " added to cart")%string)
           (CartItems (deref h c)), set_cart_of i c (set_heap h s))
      end
    end.
Proof.
  intros Hp Hq Hprod Hn Hlt. unfold addToCart.
  by rewrite Hp, Hq, Hprod, Hn, Hlt.
Qed.

(** The line of a product stays the one [find] returns when a quantity is
    written. *)
Lemma find_item_insert_quantity h productId c l q :
  find_item (<[l := CartItem.set_quantity q (h !!! l)]> h) productId c
  = find_item h productId c.
Proof.
  unfold find_item. induction c as [|l' c IH]; [done|].
  cbn [js_find]. rewrite productId_insert_quantity, IH. done.
Qed.

(** A pushed line is the one [find] returns for its product. *)
Lemma find_item_push h productId c item :
  Forall (λ l, l < length h) c →
  find_item h productId c = None →
  strict_eq (CartItem.productId item) productId = true →
  find_item (h ++ [item]) productId (c ++ [length h])
  = Some (length c, length h).
Proof.
  unfold find_item. induction c as [|l c IH]; intros Hal Hnone Heq.
  - simpl. rewrite lookup_total_app_r, Nat.sub_diag by lia. simpl.
    by rewrite Heq.
  - inversion Hal; subst. cbn [js_find app] in *.
    rewrite lookup_total_app_l by done.
    destruct (strict_eq (CartItem.productId (h !!! l)) productId); [done|].
    apply fmap_None in Hnone. rewrite IH by done. done.
Qed.

(** X6: the stock check of [addToCart] looks at the quantity of the
    request alone, and what [+=] leaves in the line is a primitive.  If a
    request is answered 200 for a user of a well-formed store, the same
    request is answered 200 again however often it is sent: the stock
    check passes each time, nothing throws, and the products keep their
    stock. *)
Theorem addToCart_again s uid productId quantity n :
  wf s →
  status (addToCart s uid productId quantity).1 = 200 →
  let s' := run s (replicate n (PostCart (Some uid) productId quantity)) in
  status (addToCart s' uid productId quantity).1 = 200 ∧
  products (addToCart s' uid productId quantity).2 = products s.
Proof.
  intros Hwf H200 s'. subst s'. revert s Hwf H200.
  induction n as [|n IH]; intros s Hwf H200.
  { split; [done | apply addToCart_products]. }
  simpl replicate. rewrite run_cons. simpl handle.
  assert (wf (addToCart s uid productId quantity).2) as Hwf1.
  { apply (effect_wf s); [done|].
    apply (handle_effect s (PostCart (Some uid) productId quantity)). }
  destruct (IH (addToCart s uid productId quantity).2 Hwf1) as [IH1 IH2].
  2:{ split; [done|]. by rewrite IH2, addToCart_products. }
  destruct (addToCart_200 _ _ _ _ H200)
    as (j & product & k & i & user & Hp & Hq & Hprod & Hk & Hlt & Hu & Hadd).
  pose proof (find_user_lookup _ _ _ _ Hu) as Hi.
  destruct (wf_cart s i user Hwf Hi) as [Hnd Hal].
  assert (is_Some (ToPrimitive quantity)) as [pq Hpq].
  { destruct (ToPrimitive quantity) eqn:Hprim; [eauto|].
    apply ToNumber_None in Hprim. congruence. }
  assert (strict_eq productId productId = true) as Hrefl.
  { apply js_find_true in Hprod. by apply (strict_eq_trans_l _ _ _ Hprod). }
  unfold product_of in Hprod.
  pose proof (addToCart_checked s uid productId quantity j product k
                Hp Hq Hprod Hk Hlt) as Hfirst.
  rewrite Hu in Hfirst.
  destruct (find_item (heap s) productId (User.cart user)) as [[m l]|]
    eqn:Hitem.
  - destruct Hadd as [sum Hsum]. rewrite Hsum in Hfirst. rewrite Hfirst.
    cbv zeta. cbn [snd].
    match goal with
    | |- context [addToCart ?s1 _ _ _] =>
      rewrite (addToCart_checked s1 uid productId quantity j product k
                 Hp Hq Hprod Hk Hlt)
    end.
    rewrite find_user_set_heap, Hu. cbn [heap set_heap].
    rewrite find_item_insert_quantity, Hitem.
    rewrite list_lookup_total_insert_eq.
    2:{ rewrite Forall_forall in Hal. apply Hal.
        by eapply find_item_elem_of. }
    cbn [CartItem.quantity CartItem.set_quantity].
    destruct (js_add sum quantity) eqn:Hnext; [done|].
    apply js_add_None in Hnext as [Hnext|Hnext]; [|congruence].
    rewrite (ToPrimitive_scalar sum) in Hnext; [done|].
    by eapply js_add_scalar.
  - rewrite Hfirst. cbv zeta. cbn [snd].
    match goal with
    | |- context [addToCart ?s1 _ _ _] =>
      rewrite (addToCart_checked s1 uid productId quantity j product k
                 Hp Hq Hprod Hk Hlt)
    end.
    rewrite (find_user_set_cart_of _ uid i user); [|done].
    cbn [heap set_heap set_cart_of set_users User.cart User.set_cart].
    rewrite find_item_push; [|done..].
    rewrite lookup_total_app_r, Nat.sub_diag by lia.
    cbn [lookup_total list_lookup_total CartItem.quantity].
    destruct (js_add quantity quantity) eqn:Hnext; [done|].
    apply js_add_None in Hnext as [Hnext|Hnext]; congruence.
Qed.
End Repeating.

Section OneLine.
Context `{Host}.

Lemma ForallOrdPairs_same_ids (ls ls' : list CartItem.t) :
  CartItem.productId <$> ls' = CartItem.productId <$> ls →
  ForallOrdPairs other_product ls → ForallOrdPairs other_product ls'.
Proof.
  intros Heq Hl. revert ls' Heq.
  induction Hl as [|a l Ha Hl IH]; intros [|a' l'] Heq; simplify_eq/=;
    constructor.
  - match goal with Hl' : _ <$> l' = _ <$> l |- _ => clear IH; revert l' Hl' end.
    induction Ha as [|b l Hb Ha IH']; intros [|b' l'] Heq'; simplify_eq/=;
      constructor.
    + unfold other_product in *. congruence.
    + inversion Hl; subst. by apply IH'.
  - by apply IH.
Qed.

Lemma change_one_line_per_product s s' :
  wf s → one_line_per_product s → change s s' → one_line_per_product s'.
Proof.
  intros Hwf Hinv Hch. unfold one_line_per_product in *.
  destruct Hch as [|i u k l q Hi Hk|i u pid j p q Hi Hp Hnone|i u pid Hi|i u Hi
                   |u Hc Hid|i u o Hi Hne Ho Hid Huid Hend]; simpl.
  - done.
  - intros v Hv. eapply ForallOrdPairs_same_ids; [|by apply Hinv].
    unfold deref. rewrite <- !list_fmap_compose. apply list_fmap_ext.
    intros n l' _. simpl. apply productId_insert_quantity.
  - destruct (wf_cart s i u Hwf Hi) as [_ Hal].
    intros v [Hv|(y & Hy & ->)]%elem_of_alter.
    + apply list_elem_of_lookup in Hv as [n Hn].
      destruct (wf_cart s n v Hwf Hn) as [_ Halv].
      rewrite deref_app by done. apply Hinv. by eapply list_elem_of_lookup_2.
    + simplify_eq. simpl. rewrite deref_push by done.
      apply ForallOrdPairs_snoc.
      * apply Hinv. by eapply list_elem_of_lookup_2.
      * apply Forall_forall. intros a (l & -> & Hl)%list_elem_of_fmap.
        unfold other_product. simpl.
        unfold find_item in Hnone. rewrite js_find_None in Hnone.
        by apply Hnone.
  - intros v [Hv|(y & Hy & ->)]%elem_of_alter; [by apply Hinv|].
    simplify_eq. simpl.
    eapply ForallOrdPairs_sublist; [|apply (Hinv u)].
    + apply sublist_deref, filter_sublist.
    + by eapply list_elem_of_lookup_2.
  - intros v [Hv|(y & Hy & ->)]%elem_of_alter; [by apply Hinv|].
    simpl. constructor.
  - intros v [Hv|Hv]%elem_of_app; [by apply Hinv|].
    apply list_elem_of_singleton in Hv as ->. rewrite Hc. constructor.
  - intros v [Hv|(y & Hy & ->)]%elem_of_alter; [by apply Hinv|].
    simpl. constructor.
Qed.

(** X11: the carts hold at most one line per product: if no two lines of
    a cart name the same product (as with empty carts), this is so after
    any requests. *)
Theorem carts_keep_one_line_per_product s reqs :
  wf s → one_line_per_product s → one_line_per_product (run s reqs).
Proof. apply run_change_wf_ind, change_one_line_per_product. Qed.

(** A product is its listing and its stock. *)
Lemma product_eq p p' :
  listing p' = listing p → Product.stock p' = Product.stock p → p' = p.
Proof. destruct p, p'. unfold listing. simpl. congruence. Qed.

(** Filtering pairs by their first components. *)
Lemma filter_zip_fst {A B} (f : A → bool) (l : list A) (k : list B) :
  length k = length l →
  fst <$> List.filter (λ x, f x.1) (zip l k) = List.filter f l.
Proof.
  revert k. induction l as [|a l IH]; intros [|b k] Hlen; simplify_eq/=;
    [done|].
  destruct (f a); simpl; by rewrite IH.
Qed.

Lemma elem_of_filter_zip {A B} (f : A * B → bool) (l : list A) (k : list B) x :
  x ∈ List.filter f (zip l k) → x ∈ zip l k.
Proof. intros Hx. apply list_elem_of_In, filter_In in Hx as [Hx _].
  by apply list_elem_of_In. Qed.

Lemma Forall2_zip {A B} (R : A → B → Prop) l k x :
  Forall2 R l k → x ∈ zip l k → R x.1 x.2.
Proof.
  induction 1 as [|a b l k Hab _ IH]; simpl; [by intros ?%elem_of_nil|].
  intros [->|Hx]%elem_of_cons; [done | by apply IH].
Qed.

(** X12: when no two lines of the cart name the same product, a checkout
    answered 201 lowers the stock of a product once: a product that no
    line of the cart names stays as it is, and a product that a line names
    keeps its other fields and has as stock what it had less the number
    the quantity of that line converts to. *)
Theorem createOrder_charges_once s uid now i user :
  one_line_per_product s →
  find_user s uid = Some (i, user) →
  status (createOrder s uid now).1 = 201 →
  let lines := deref (heap s) (User.cart user) in
  let s' := (createOrder s uid now).2 in
  ∀ j p, products s !! j = Some p →
    (products s' !! j = Some p ∧
     ∀ line, line ∈ lines →
       fst <$> product_of (products s) (CartItem.productId line) ≠ Some j) ∨
    (∃ line n p', line ∈ lines ∧
       fst <$> product_of (products s) (CartItem.productId line) = Some j ∧
       ToNumber (CartItem.quantity line) = Some n ∧
       products s' !! j = Some p' ∧
       listing p' = listing p ∧
       Product.stock p' = PrimFloat.sub (Product.stock p) n).
Proof.
  intros Hinv Hu H201 lines s' j p Hj. subst lines s'.
  destruct (createOrder_created s uid now i user Hu H201)
    as (total & Hc & Ht & ->). cbv zeta. simpl.
  apply cart_total_Some in Ht as (ns & Hns & _).
  destruct (take_stocks_lookup _ ns _ j p Hns Hj) as (p' & Hp' & Hl & Hs).
  rewrite Hp'. unfold charged in Hs.
  set (f := λ item : CartItem.t,
         match product_of (products s) (CartItem.productId item) with
         | Some (k, _) => Nat.eqb k j
         | None => false
         end).
  change (List.filter _ (zip (deref (heap s) (User.cart user)) ns))
    with (List.filter (λ x : CartItem.t * float, f x.1)
            (zip (deref (heap s) (User.cart user)) ns)) in Hs.
  pose proof (filter_zip_fst f (deref (heap s) (User.cart user)) ns
                (quantities_length _ _ Hns)) as Hfst.
  assert (∀ line, f line = true ↔
            fst <$> product_of (products s) (CartItem.productId line)
            = Some j) as Hf.
  { intros line. unfold f.
    destruct (product_of _ _) as [[k x]|]; simpl; [|done].
    rewrite Nat.eqb_eq. split; [by intros -> | by intros [= ->]]. }
  destruct (ForallOrdPairs_filter_one other_product f
              (deref (heap s) (User.cart user))) as [Hnone|(a & Ha & Hfa & Hone)].
  - intros a b Hfa Hfb Hab. unfold f, product_of in Hfa, Hfb.
    destruct (js_find _ (products s)) as [[ka xa]|] eqn:Hka; [|done].
    destruct (js_find (λ p0, strict_eq (VNum (Product.id p0))
                               (CartItem.productId b)) (products s))
      as [[kb xb]|] eqn:Hkb; [|done].
    apply Nat.eqb_eq in Hfa as ->. apply Nat.eqb_eq in Hfb as ->.
    apply js_find_first in Hka as (Hxa & Hta & _).
    apply js_find_first in Hkb as (Hxb & Htb & _).
    simplify_eq. unfold other_product in Hab.
    by rewrite (strict_eq_trans_l _ _ _ Hta Htb) in Hab.
  - apply Hinv. apply find_user_lookup in Hu. by eapply list_elem_of_lookup_2.
  - left. rewrite Hnone in Hfst. apply fmap_nil_inv in Hfst.
    rewrite Hfst in Hs. simpl in Hs.
    split; [f_equal; by apply product_eq|].
    intros line Hline Hres. apply Hf in Hres.
    assert (line ∈ List.filter f (deref (heap s) (User.cart user))) as Hin.
    { apply list_elem_of_In, filter_In. by rewrite <- list_elem_of_In. }
    rewrite Hnone in Hin. by apply elem_of_nil in Hin.
  - right. rewrite Hone in Hfst.
    destruct (List.filter _ (zip _ ns)) as [|[a' n] [|? ?]] eqn:Hfilter;
      simplify_eq/=.
    assert ((a, n) ∈ zip (deref (heap s) (User.cart user)) ns) as Hin.
    { eapply (elem_of_filter_zip (λ x, f x.1)). rewrite Hfilter. left. }
    pose proof (Forall2_zip _ _ _ _ Hns Hin) as Hn. simpl in Hn.
    exists a, n, p'.
    split_and!; [done | by apply Hf | done | done | | done].
    unfold listing. congruence.
Qed.
End OneLine.

(** ** Searching the catalog *)

Lemma prefix_app (needle haystack : string) :
  String.prefix needle haystack = true ↔
  ∃ after, haystack = (needle ++ after)%string.
Proof.
  revert haystack. induction needle as [|a needle IH]; intros haystack.
  - destruct haystack; simpl; split; eauto.
  - destruct haystack as [|b haystack]; simpl.
    + split; [done | by intros [after ?]].
    + destruct (Ascii.ascii_dec a b) as [->|Hne].
      * rewrite IH. split; intros [after Hafter]; exists after.
        -- simpl. by rewrite Hafter.
        -- simpl in Hafter. by injection Hafter.
      * split; [done|]. intros [after Hafter]. simpl in Hafter.
        injection Hafter as Hb _. by destruct Hne.
Qed.

(** [includes] is true exactly when the needle occurs in the haystack. *)
Lemma includes_cons c rest needle :
  includes (String c rest) needle
  = if String.prefix needle (String c rest) then true else includes rest needle.
Proof. done. Qed.

Lemma includes_occurs haystack needle :
  includes haystack needle = true ↔ occurs needle haystack.
Proof.
  split.
  - induction haystack as [|c rest IH].
    + destruct needle; [|done]. intros _. by exists ""%string, ""%string.
    + rewrite includes_cons.
      destruct (String.prefix needle (String c rest)) eqn:Hp.
      * intros _. apply prefix_app in Hp as [after Hafter].
        by exists ""%string, after.
      * intros (before & after & ->)%IH. by exists (String c before), after.
  - intros (before & after & ->).
    induction before as [|c before IH].
    + assert (String.prefix needle (needle ++ after) = true) as Hp
        by (apply prefix_app; eauto).
      change ("" ++ needle ++ after)%string with (needle ++ after)%string.
      destruct (needle ++ after)%string as [|c rest] eqn:Hna.
      * by destruct needle.
      * by rewrite includes_cons, Hp.
    + change (String c before ++ needle ++ after)%string
        with (String c (before ++ needle ++ after)).
      rewrite includes_cons, IH. by destruct (String.prefix _ _).
Qed.

Section Searching.
Context `{Host}.

(** X13: [searchProducts] always answers 200 and changes nothing; its
    data are the products in whose lower-cased name, category or
    description the lower-cased query occurs, all of them and no other, in
    the order of the catalog, and [count] is their number (0 when there is
    none). *)
Theorem searchProducts_finds s query :
  ∃ results,
    searchProducts s query
    = (reply 200 None (ProductList (length results) results), s) ∧
    sublist results (products s) ∧
    ∀ p, p ∈ results ↔
      p ∈ products s ∧
      (occurs (toLowerCase query) (toLowerCase (Product.name p)) ∨
       occurs (toLowerCase query) (toLowerCase (Product.category p)) ∨
       occurs (toLowerCase query) (toLowerCase (Product.description p))).
Proof.
  eexists. split_and!; [done | apply filter_sublist |].
  intros p. rewrite list_elem_of_In, filter_In, <- list_elem_of_In.
  rewrite !orb_true_iff, !includes_occurs. tauto.
Qed.
End Searching.

(** ** Registering and logging in *)

Section Accounts.
Context `{Host}.

(** A user that [find] returns for a test on the fields other than the
    cart stays the one it returns. *)
Lemma run_js_find_user (f : User.t → bool) s reqs i u :
  (∀ c v, f (User.set_cart c v) = f v) →
  js_find f (users s) = Some (i, u) →
  ∃ c, js_find f (users (run s reqs)) = Some (i, User.set_cart c u).
Proof.
  intros Hf. revert s u. induction reqs as [|req reqs IH]; intros s u Hu.
  - exists (User.cart u). by rewrite set_cart_id.
  - rewrite run_cons.
    assert (∃ c, js_find f (users (handle s req).2)
                 = Some (i, User.set_cart c u)) as [c Hc].
    { assert (∀ k c, ∃ c',
        js_find f (alter (User.set_cart c) k (users s))
        = Some (i, User.set_cart c' u)) as Halt.
      { intros k c.
        rewrite (js_find_alter _ (User.set_cart c) _ k i u); [|done..].
        case_decide; [by exists c|]. exists (User.cart u).
        by rewrite set_cart_id. }
      assert (∃ c, js_find f (users s) = Some (i, User.set_cart c u)) as Hsame.
      { exists (User.cart u). by rewrite set_cart_id. }
      destruct (handle_effect s req)
        as [|k v s'' Hk [|l q Hl|item|c Hc]|v Hc|k v o' ps Hk Ho'];
        simpl; try done; try apply Halt.
      exists (User.cart u). rewrite set_cart_id. by apply js_find_app_Some. }
    destruct (IH _ _ Hc) as [c' Hc']. exists c'. by rewrite Hc'.
Qed.

(** X14: when the handler of a registration goes on after the hash, in a
    store where no user has the email (as when no registration of that
    email was handled while it waited), it answers 201 with the id
    [users.length + 1] of that store and the username and email given, and
    adds the user with an empty cart and the hash as password; a
    registration that nothing overlaps does so when the three fields are
    provided.  If the email is a scalar, then after any further requests a
    login with that email and a password that compares equal to the hash
    is answered 200 with the token signed for that id and email, and with
    the same id, username and email. *)
Theorem register_then_login s username email password now hash :
  ToBoolean email = true → scalar email = true →
  (∀ u, u ∈ users s → strict_eq (User.email u) email = false) →
  bcrypt_hash password = Some hash →
  let id := PrimFloat.add (of_nat (length (users s))) 1 in
  let u := User.mk id username email hash [] now in
  let s1 := (register_resume s username email password now).2 in
  register_resume s username email password now
  = (reply 201 (Some "Registration successful! You can now login")
       (UserInfo id username email), s1) ∧
  (ToBoolean username = true → ToBoolean password = true →
   register s username email password now
   = register_resume s username email password now) ∧
  users s1 = users s ++ [u] ∧
  products s1 = products s ∧ orders s1 = orders s ∧ heap s1 = heap s ∧
  ∀ reqs password' token,
    ToBoolean password' = true →
    bcrypt_compare password' hash = Some true →
    jwt_sign id email = Some token →
    login (run s1 reqs) email password'
    = (reply 200 (Some "Login successful!")
         (LoginInfo token id username email), run s1 reqs).
Proof.
  intros He Hscalar Hnew Hhash id u s1. subst s1 u id.
  rewrite (register_resume_pushes s username email password now hash Hhash).
  cbv zeta. cbn [snd]. split_and!; try done.
  - intros Hun Hp. unfold register.
    rewrite register_check_passes by done.
    by rewrite (register_resume_pushes s username email password now hash).
  - intros reqs password' token Hp' Hcmp Hjwt.
    apply js_find_None in Hnew.
    match goal with
    | |- context [run (set_users (users s ++ [?u]) s) reqs] =>
      destruct (run_js_find_user (λ v, strict_eq (User.email v) email)
                  (set_users (users s ++ [u]) s) reqs (length (users s)) u)
        as [c Hc]; [done| |]
    end.
    { simpl. rewrite (js_find_app_None _ _ _ Hnew). simpl.
      rewrite (strict_eq_refl email Hscalar He). simpl.
      by rewrite Nat.add_0_r. }
    unfold login. rewrite He, Hp', Hc. simpl. by rewrite Hcmp, Hjwt.
Qed.
End Accounts.

(** ** Emails without overlapping registrations *)

Lemma emails_unique_ext (us us' : list User.t) :
  User.email <$> us' = User.email <$> us →
  emails_unique us → emails_unique us'.
Proof.
  intros Heq Huniq i j ui uj Hi Hj Hne.
  assert (∀ n v, us' !! n = Some v →
                 ∃ w, us !! n = Some w ∧ User.email w = User.email v) as Hback.
  { intros n v Hv.
    assert ((User.email <$> us) !! n = Some (User.email v)) as Hn
      by (by rewrite <- Heq, list_lookup_fmap, Hv).
    rewrite list_lookup_fmap in Hn.
    destruct (us !! n) as [w|]; simplify_eq/=. eauto. }
  destruct (Hback _ _ Hi) as (wi & Hwi & <-).
  destruct (Hback _ _ Hj) as (wj & Hwj & <-).
  by eapply Huniq.
Qed.

Lemma emails_alter_cart c (i : nat) (us : list User.t) :
  User.email <$> alter (User.set_cart c) i us = User.email <$> us.
Proof.
  rewrite (list_fmap_alter User.email _ id).
  - by apply list_alter_id.
  - by apply Forall_forall.
Qed.

Section Distinct.
Context `{Host}.

(** A request handled in one piece pushes a user only after the check of
    the email, in the same store. *)
Lemma handle_emails s req :
  resumes req = false →
  User.email <$> users (handle s req).2 = User.email <$> users s ∨
  ∃ u, users (handle s req).2 = users s ++ [u] ∧
       ∀ x, x ∈ users s → strict_eq (User.email x) (User.email u) = false.
Proof.
  intros Hreq.
  destruct req as [| username email password now | username email password
    | username email password now | | | | | [uid|] | [uid|] ? ?
    | [uid|] ? ? | [uid|] ? | [uid|] | [uid|] now | [uid|] | [uid|] ?];
    try done; simpl; try (by left).
  - unfold register, register_check, register_resume.
    repeat case_match; simplify_eq/=; try (by left).
    right. eexists. split; [done|]. simpl. by apply js_find_None.
  - unfold login. repeat case_match; simplify_eq/=; by left.
  - unfold getProduct. repeat case_match; simplify_eq/=; by left.
  - left. by rewrite getCart_effect.
  - left. unfold addToCart, set_cart_of, set_users, set_heap.
    repeat case_match; simplify_eq/=; try done. apply emails_alter_cart.
  - left. unfold updateCartItem, set_cart_of, set_users, set_heap.
    repeat case_match; simplify_eq/=; try done. apply emails_alter_cart.
  - left. unfold removeCartItem, set_cart_of, set_users, set_heap.
    repeat case_match; simplify_eq/=; try done. apply emails_alter_cart.
  - left. unfold clearCart, set_cart_of, set_users, set_heap.
    repeat case_match; simplify_eq/=; try done. apply emails_alter_cart.
  - left. destruct (decide (status (createOrder s uid now).1 = 201))
      as [H201|Hnot]; [|by rewrite createOrder_failed].
    destruct (find_user s uid) as [[i user]|] eqn:Hu.
    + destruct (createOrder_created s uid now i user Hu H201)
        as (total & _ & _ & ->). simpl. apply emails_alter_cart.
    + destruct (no_user_no_effect s uid Hu) as (_ & _ & _ & _ & ->). done.
  - unfold getOrder. repeat case_match; simplify_eq/=; by left.
Qed.

(** X15: when every registration is handled without another request in
    between, no request makes the emails of two users [===]: if they are
    pairwise not [===] before (as in an empty table), they are so after
    any such requests.  And a registration answered 201 with an email that
    is a scalar has every later registration with that email answered 400
    with nothing changed, whatever requests come between. *)
Theorem emails_stay_distinct s :
  (∀ reqs, Forall (λ req, resumes req = false) reqs →
     emails_unique (users s) → emails_unique (users (run s reqs))) ∧
  (∀ username email password now,
     scalar email = true →
     status (register s username email password now).1 = 201 →
     ∀ reqs username' password' now',
       let s' := run (register s username email password now).2 reqs in
       status (register s' username' email password' now').1 = 400 ∧
       (register s' username' email password' now').2 = s').
Proof.
  split.
  - intros reqs Hreqs. revert s.
    induction Hreqs as [|req reqs Hreq Hreqs IH]; intros s Huniq; [done|].
    rewrite run_cons. apply IH.
    destruct (handle_emails s req Hreq) as [Hsame|(u & Hpush & Hnew)].
    + by eapply emails_unique_ext.
    + rewrite Hpush. intros i j ui uj Hi Hj Hne.
      apply lookup_snoc_Some in Hi as [[Hi Hui]|[Hi <-]];
        apply lookup_snoc_Some in Hj as [[Hj Huj]|[Hj <-]].
      * by eapply Huniq.
      * apply Hnew. by eapply list_elem_of_lookup_2.
      * rewrite strict_eq_sym. apply Hnew. by eapply list_elem_of_lookup_2.
      * lia.
  - intros username email password now Hscalar H201 reqs username' password'
      now' s'.
    assert (∃ u, users (register s username email password now).2
                 = users s ++ [u] ∧ User.email u = email ∧
                 strict_eq email email = true) as (u & Hus & <- & Hrefl).
    { revert H201. unfold register.
      destruct (register_check s username email password) as [r|] eqn:Hcheck.
      - unfold register_check in Hcheck.
        repeat case_match; by simplify_eq/=.
      - assert (ToBoolean email = true) as He.
        { unfold register_check in Hcheck.
          destruct (negb (ToBoolean username) || negb (ToBoolean email)
                    || negb (ToBoolean password)) eqn:Hmiss; [done|].
          apply orb_false_iff in Hmiss as [[_ He]%orb_false_iff _].
          by apply negb_false_iff in He. }
        unfold register_resume.
        destruct (bcrypt_hash password); simpl; [|done]. intros _.
        eexists. split_and!; [done..|]. by apply strict_eq_refl. }
    destruct (run_keeps_users (register s username (User.email u) password now).2
                reqs (length (users s)) u) as [c Hc].
    { rewrite Hus. by rewrite lookup_app_r, Nat.sub_diag. }
    fold s' in Hc.
    destruct (register_taken s' username' (User.email u) password' now'
                (User.set_cart c u)) as (? & ? & _); [|done..].
    by eapply list_elem_of_lookup_2.
Qed.
End Distinct.

(** ** The further properties on the sample store *)

Section MoreInstances.
Existing Instance Sample.host.

Lemma sample_lines_follow_catalog : lines_follow_catalog Sample.store.
Proof. intros item Hin. by apply elem_of_nil in Hin. Defined.

Lemma sample_one_line : one_line_per_product Sample.store.
Proof.
  intros u Hu. repeat (apply elem_of_cons in Hu as [->|Hu]);
    [constructor..|by apply elem_of_nil in Hu].
Defined.

Lemma sample_with_cart_one_line : one_line_per_product Sample.with_cart.
Proof.
  intros u Hu. repeat (apply elem_of_cons in Hu as [->|Hu]);
    [repeat constructor..|by apply elem_of_nil in Hu].
Defined.

(** X1 on the sample store, with the quantity -0. *)
Lemma updateCartItem_zero_is_remove_witness :
  updateCartItem Sample.with_cart 1 "1" (VNum (-0))
  = removeCartItem Sample.with_cart 1 "1".
Proof.
  by apply (updateCartItem_zero_is_remove Sample.with_cart 1 "1" (VNum (-0))).
Defined.

(** X2 on the sample store: the laptops are removed, once. *)
Lemma removeCartItem_removes_witness :
  removeCartItem Sample.with_cart 1 "2"
  = (fail 404 "Item not in cart", Sample.with_cart) ∧
  ∃ s',
    removeCartItem Sample.with_cart 1 "1"
    = (reply 200 (Some "Item removed from cart") (CartItems []), s') ∧
    removeCartItem s' 1 "1" = (fail 404 "Item not in cart", s').
Proof.
  destruct (removeCartItem_removes Sample.with_cart 1 "2" 0
              (User.set_cart [0] Sample.al) eq_refl) as [Hnone _].
  destruct (removeCartItem_removes Sample.with_cart 1 "1" 0
              (User.set_cart [0] Sample.al) eq_refl) as [_ Hsome].
  split.
  - apply Hnone. intros l Hl.
    repeat (apply elem_of_cons in Hl as [->|Hl]); try reflexivity.
    by apply elem_of_nil in Hl.
  - destruct (Hsome (CartItem.mk (VNum 1) "Laptop" 999.99 (VNum 2)))
      as (s' & c & Hr & _ & _ & _ & _ & _ & Hagain); [left | reflexivity |].
    by exists s'.
Defined.

(** X3 on the sample store. *)
Lemma clearCart_empties_witness :
  let s' := (clearCart Sample.with_cart 1).2 in
  find_user s' 1 = Some (0, Sample.al) ∧
  getCart s' 1 = (reply 200 None (CartView 0 "0.00" []), s') ∧
  createOrder s' 1 7%Z = (fail 400 "Your cart is empty", s').
Proof.
  intros s'.
  destruct (clearCart_empties Sample.with_cart 1 0
              (User.set_cart [0] Sample.al) eq_refl)
    as (_ & Hu & _ & _ & _ & _ & Hget & Horder & _).
  split_and!; [done | done | apply Horder].
Defined.

(** X4 on the sample store: the path segment "abc". *)
Lemma nan_id_is_not_found_witness :
  getProduct Sample.store "abc"
  = (fail 404 "Product not found", Sample.store) ∧
  getOrder Sample.with_order 1 "abc"
  = (fail 404 "Order not found", Sample.with_order) ∧
  removeCartItem Sample.with_cart 1 "abc"
  = (fail 404 "Item not in cart", Sample.with_cart).
Proof.
  split_and!.
  - by apply (nan_id_is_not_found Sample.store 1 "abc").
  - by apply (nan_id_is_not_found Sample.with_order 1 "abc").
  - destruct (nan_id_is_not_found Sample.with_cart 1 "abc")
      as (_ & _ & Hcart); [reflexivity|].
    by apply (Hcart 0 (User.set_cart [0] Sample.al) VUndefined).
Defined.

(** X5 on the sample store. *)
Lemma tables_only_grow_witness :
  let reqs := [PostRegister (VStr "cy") (VStr "c@x.com") (VStr "pw") 3%Z;
               PostCart (Some 2%float) (VNum 2) (VNum 1);
               PostOrders (Some 2%float) 4%Z] in
  (∃ c, users (run Sample.with_order reqs) !! 0 = Some (User.set_cart c Sample.al)) ∧
  orders Sample.with_order `prefix_of` orders (run Sample.with_order reqs).
Proof.
  intros reqs.
  destruct (tables_only_grow Sample.with_order reqs) as (Hus & _ & Hos).
  split; [|done]. by apply (Hus 0 Sample.al).
Defined.

(** X6 on the sample store: three laptops a third time, of five in
    stock. *)
Lemma addToCart_again_witness :
  let s' := run Sample.store
              (replicate 2 (PostCart (Some 1%float) (VNum 1) (VNum 3))) in
  status (addToCart s' 1 (VNum 1) (VNum 3)).1 = 200 ∧
  products (addToCart s' 1 (VNum 1) (VNum 3)).2 = products Sample.store.
Proof.
  by apply (addToCart_again Sample.store 1 (VNum 1) (VNum 3) 2 sample_wf).
Defined.

(** The cart then holds nine laptops. *)
Example addToCart_over_stock :
  let s' := run Sample.store
              (replicate 3 (PostCart (Some 1%float) (VNum 1) (VNum 3))) in
  (getCart s' 1).1
  = reply 200 None
      (CartView 1 "8999.91" [CartItem.mk (VNum 1) "Laptop" 999.99 (VNum 9)]).
Proof. vm_compute. reflexivity. Qed.

(** X7 on the sample store. *)
Lemma listOrders_after_createOrder_witness :
  ∃ o,
    (createOrder Sample.with_cart 1 7%Z).1
    = reply 201 (Some "Order placed successfully! 🎉") (OrderData o) ∧
    listOrders Sample.with_cart 1
    = (reply 200 None (OrderList 0 []), Sample.with_cart) ∧
    listOrders Sample.with_order 1
    = (reply 200 None (OrderList 1 [o]), Sample.with_order) ∧
    listOrders Sample.with_order 2
    = (reply 200 None (OrderList 0 []), Sample.with_order).
Proof.
  destruct (listOrders_after_createOrder Sample.with_cart 1 7%Z 0
              (User.set_cart [0] Sample.al) eq_refl)
    as (o & s' & Hr & _ & Hlist); [reflexivity|].
  assert (Sample.with_order = s') as <-.
  { unfold Sample.with_order. by rewrite Hr. }
  exists o. rewrite Hr.
  assert (∀ uid', listOrders Sample.with_cart uid'
                  = (reply 200 None (OrderList 0 []), Sample.with_cart)) as Hl
    by reflexivity.
  destruct (Hlist 1%float) as (b1 & Hb1 & Ha1).
  destruct (Hlist 2%float) as (b2 & Hb2 & Ha2).
  rewrite Hl in Hb1, Hb2.
  injection Hb1 as _ <-. injection Hb2 as _ <-.
  split_and!; [done | done | exact Ha1 | exact Ha2].
Defined.

(** X8 on the sample store: the laptop after a checkout. *)
Lemma catalog_is_static_witness :
  let reqs := [PostOrders (Some 1%float) 7%Z] in
  getProduct Sample.with_cart "1"
  = (reply 200 None (ProductData Sample.laptop), Sample.with_cart) ∧
  ∃ p', getProduct (run Sample.with_cart reqs) "1"
        = (reply 200 None (ProductData p'), run Sample.with_cart reqs) ∧
        listing p' = listing Sample.laptop.
Proof.
  intros reqs. split; [reflexivity|].
  destruct (catalog_is_static Sample.with_cart reqs) as (_ & _ & _ & Hget).
  by apply Hget.
Defined.

(** X9 on the sample store. *)
Lemma cart_lines_follow_catalog_witness :
  let reqs := [PostCart (Some 1%float) (VNum 1) (VNum 2);
               PostCart (Some 2%float) (VNum 1) (VNum 5);
               PostOrders (Some 2%float) 4%Z;
               PostCart (Some 1%float) (VNum 2) (VNum 1)] in
  let s' := run Sample.store reqs in
  find_user s' 1 = Some (0, User.set_cart [0; 2] Sample.al) ∧
  ∀ line, line ∈ deref (heap s') [0; 2] →
    ∃ j p, product_of (products s') (CartItem.productId line) = Some (j, p) ∧
           CartItem.name line = Product.name p ∧
           CartItem.price line = Product.price p.
Proof.
  intros reqs s'. split; [reflexivity|].
  by apply (cart_lines_follow_catalog Sample.store reqs 1 0
              (User.set_cart [0; 2] Sample.al) sample_wf
              sample_lines_follow_catalog).
Defined.

(** X10 on the sample store. *)
Lemma ids_stay_sequential_witness :
  let reqs := [PostRegister (VStr "cy") (VStr "c@x.com") (VStr "pw") 3%Z;
               PostCart (Some 3%float) (VNum 2) (VNum 1);
               PostOrders (Some 3%float) 4%Z] in
  sequential_ids Sample.store ∧ sequential_ids (run Sample.store reqs).
Proof.
  intros reqs.
  assert (sequential_ids Sample.store) as Hseq.
  { split.
    - intros [|[|i]] u Hu; simplify_eq/=; reflexivity.
    - intros k o Ho. done. }
  split; [done|]. by apply (ids_stay_sequential Sample.store reqs).
Defined.

(** X11 on the sample store. *)
Lemma carts_keep_one_line_per_product_witness :
  let reqs := [PostCart (Some 1%float) (VNum 1) (VNum 2);
               PostCart (Some 1%float) (VNum 2) (VNum 1);
               PostCart (Some 1%float) (VNum 1) (VNum 1)] in
  one_line_per_product (run Sample.store reqs).
Proof.
  intros reqs.
  apply (carts_keep_one_line_per_product Sample.store reqs sample_wf
           sample_one_line).
Defined.

(** X12 on the sample store: the checkout of two laptops, of five in
    stock. *)
Lemma createOrder_charges_once_witness :
  products Sample.with_cart = [Sample.laptop; Sample.mouse] ∧
  products Sample.with_order !! 0
  = Some (Product.mk 1 "Laptop" "Electronics" "A fast laptop" 999.99 3) ∧
  products Sample.with_order !! 1 = Some Sample.mouse.
Proof.
  split; [reflexivity|].
  pose proof (createOrder_charges_once Sample.with_cart 1 7%Z 0
                (User.set_cart [0] Sample.al) sample_with_cart_one_line
                eq_refl eq_refl) as Hcharge.
  split.
  - destruct (Hcharge 0 Sample.laptop eq_refl)
      as [[_ Hnone]|(line & n & p' & Hline & _ & Hn & Hp' & Hl & Hs)].
    + exfalso.
      apply (Hnone (CartItem.mk (VNum 1) "Laptop" 999.99 (VNum 2)));
        [left | reflexivity].
    + apply list_elem_of_singleton in Hline as ->.
      injection Hn as <-. etrans; [exact Hp'|]. f_equal.
      destruct p'. unfold listing in Hl. simpl in *. by simplify_eq.
  - destruct (Hcharge 1 Sample.mouse eq_refl)
      as [[Hsame _]|(line & n & p' & Hline & Hres & _)]; [exact Hsame|].
    apply list_elem_of_singleton in Hline as ->. done.
Defined.

(** The search of the sample catalog for "LAP". *)
Example searchProducts_sample :
  (searchProducts Sample.store "LAP").1
  = reply 200 None (ProductList 1 [Sample.laptop]).
Proof. vm_compute. reflexivity. Qed.

(** X14 on the sample store: the third user. *)
Lemma register_then_login_witness :
  let s1 :=
    (register Sample.store (VStr "cy") (VStr "c@x.com") (VStr "pw") 3%Z).2 in
  let reqs := [PostCart (Some 3%float) (VNum 2) (VNum 1)] in
  length (users Sample.store) = 2 ∧
  register Sample.store (VStr "cy") (VStr "c@x.com") (VStr "pw") 3%Z
  = (reply 201 (Some "Registration successful! You can now login")
       (UserInfo 3 (VStr "cy") (VStr "c@x.com")), s1) ∧
  users s1
  = [Sample.al; Sample.bo;
     User.mk 3 (VStr "cy") (VStr "c@x.com") "$2a$10$pw" [] 3%Z] ∧
  login (run s1 reqs) (VStr "c@x.com") (VStr "pw")
  = (reply 200 (Some "Login successful!")
       (LoginInfo "header.payload.signature" 3 (VStr "cy") (VStr "c@x.com")),
     run s1 reqs).
Proof.
  intros s1 reqs. split; [reflexivity|].
  destruct (register_then_login Sample.store (VStr "cy") (VStr "c@x.com")
              (VStr "pw") 3%Z "$2a$10$pw")
    as (Hresume & Hregister & Hus & _ & _ & _ & Hlogin);
    try reflexivity.
  { intros u Hu. repeat (apply elem_of_cons in Hu as [->|Hu]);
      try reflexivity. by apply elem_of_nil in Hu. }
  assert (s1 = (register_resume Sample.store (VStr "cy") (VStr "c@x.com")
                  (VStr "pw") 3%Z).2) as Hs1.
  { unfold s1. by rewrite (Hregister eq_refl eq_refl). }
  rewrite Hs1. split_and!.
  - by rewrite (Hregister eq_refl eq_refl), Hresume.
  - exact Hus.
  - by apply (Hlogin reqs (VStr "pw") "header.payload.signature").
Defined.

(** X15 on the sample store: "c@x.com" is registered once. *)
Lemma emails_stay_distinct_witness :
  let reqs := [PostRegister (VStr "cy") (VStr "c@x.com") (VStr "pw") 3%Z;
               PostCart (Some 3%float) (VNum 2) (VNum 1);
               PostRegister (VStr "cy2") (VStr "c@x.com") (VStr "pw2") 5%Z;
               PostOrders (Some 3%float) 4%Z] in
  let s1 :=
    (register Sample.store (VStr "cy") (VStr "c@x.com") (VStr "pw") 3%Z).2 in
  emails_unique (users Sample.store) ∧
  User.email <$> users (run Sample.store reqs)
  = [VStr "a@x.com"; VStr "b@x.com"; VStr "c@x.com"] ∧
  emails_unique (users (run Sample.store reqs)) ∧
  status (register (run s1 [PostCart (Some 3%float) (VNum 2) (VNum 1)])
            (VStr "cy2") (VStr "c@x.com") (VStr "pw2") 5%Z).1 = 400.
Proof.
  intros reqs s1.
  destruct (emails_stay_distinct Sample.store) as [Hinv Htwice].
  assert (emails_unique (users Sample.store)) as Huniq.
  { intros [|[|i]] [|[|j]] ui uj Hi Hj Hne; simplify_eq/=; done. }
  split_and!; [done | reflexivity | |].
  - apply (Hinv reqs); [by repeat constructor | done].
  - by apply (Htwice (VStr "cy") (VStr "c@x.com") (VStr "pw") 3%Z).
Defined.
End MoreInstances.
